(** * Mimesis: the synthetic-data generation workflow

    A shallow embedding of the generation workflow of the Mimesis
    repository (app/agents, app/services, app/models) and the properties
    its specification states about it.

    Layout: Part I holds the definitions, module by module in the order
    of the Python packages; Part II holds the lemmas and theorems.

    Conventions.
    - Python [int] is [Z]; [len] is [Z.of_nat (length _)].
    - Python [str] is [string]; characters are read as code points
      below 256, where [str.lower] and [str.strip] are finite tables.
    - A [dict] record is an association list in insertion order (the
      order [str()] prints and [.items()] iterates); keys are unique.
    - A call that may raise returns [result]; code that talks to a
      collaborator runs in the monad [M], which threads a [World]
      (a clock that numbers the external calls, and the trace of calls).
*)

From Stdlib Require Import ZArith List String Ascii Bool Lia Permutation.
From Stdlib Require Import Sorting.Sorted Structures.OrdersEx.
From Stdlib Require Floats.SpecFloat.
Import ListNotations.

Local Open Scope string_scope.
Local Open Scope list_scope.
Local Open Scope Z_scope.
Set Warnings "-register-all".

(* ===================================================================== *)
(** * Part I: definitions                                                 *)
(* ===================================================================== *)

(** ** Exceptions *)

(** The outcome of a Python call: a value, or a raised exception carrying
    its [str(e)] text. *)
Inductive result (A : Type) : Type :=
| Ok (a : A)
| Raise (e : string).
Arguments Ok {A} a.
Arguments Raise {A} e.

(** ** Python strings *)

Module PyStr.

(** [len(s)] *)
Definition len (s : string) : Z := Z.of_nat (String.length s).

(** Code points that [str.strip()] removes: TAB..CR, FS..US, SPACE,
    NEL (0x85) and NBSP (0xA0). *)
Definition is_space (c : ascii) : bool :=
  let n := nat_of_ascii c in
  ((9 <=? n) && (n <=? 13) || (28 <=? n) && (n <=? 32)
   || (n =? 133) || (n =? 160))%nat.

Fixpoint lstrip (s : string) : string :=
  match s with
  | EmptyString => EmptyString
  | String c s' => if is_space c then lstrip s' else s
  end.

(** Drops trailing white space: a character is kept when it is not
    white space or when something is kept after it. *)
Fixpoint rstrip (s : string) : string :=
  match s with
  | EmptyString => EmptyString
  | String c s' =>
      match rstrip s' with
      | EmptyString => if is_space c then EmptyString else String c EmptyString
      | t => String c t
      end
  end.

(** [s.strip()] *)
Definition strip (s : string) : string := rstrip (lstrip s).

(** [str.lower] on one code point: A..Z, and the Latin-1 capitals
    0xC0..0xDE except the multiplication sign 0xD7. *)
Definition lower_char (c : ascii) : ascii :=
  let n := nat_of_ascii c in
  if ((65 <=? n) && (n <=? 90)
      || (192 <=? n) && (n <=? 222) && negb (n =? 215))%nat
  then ascii_of_nat (n + 32) else c.

(** [s.lower()] *)
Fixpoint lower (s : string) : string :=
  match s with
  | EmptyString => EmptyString
  | String c s' => String (lower_char c) (lower s')
  end.

(** [x in [s1, ..., sn]] for strings. *)
Definition mem (x : string) (l : list string) : bool :=
  existsb (String.eqb x) l.

End PyStr.

(** ** Records *)

(** A field value: a string, a number or a nested mapping (the shapes the
    data model gives a record). A mapping keeps its insertion order. *)
Inductive value : Type :=
| VStr (s : string)
| VNum (n : Z)
| VDict (items : list (string * value)).

(** A record is a [Dict[str, Any]]: its items in insertion order. *)
Definition record : Type := list (string * value).

(** [record.keys()] *)
Definition keys (r : record) : list string := map fst r.

(** Equality of the printed form of two values: [str] prints a string
    quoted and escaped, a number in decimal and a mapping item by item in
    insertion order, so two values print alike exactly when they are the
    same tree. *)
Fixpoint value_eqb (v w : value) {struct v} : bool :=
  match v, w with
  | VStr s, VStr t => String.eqb s t
  | VNum n, VNum m => Z.eqb n m
  | VDict xs, VDict ys =>
      (fix items_eqb (xs ys : list (string * value)) {struct xs} : bool :=
         match xs, ys with
         | [], [] => true
         | (k, x) :: xs', (k', y) :: ys' =>
             String.eqb k k' && value_eqb x y && items_eqb xs' ys'
         | _, _ => false
         end) xs ys
  | _, _ => false
  end.

Fixpoint items_eqb (xs ys : list (string * value)) {struct xs} : bool :=
  match xs, ys with
  | [], [] => true
  | (k, x) :: xs', (k', y) :: ys' =>
      String.eqb k k' && value_eqb x y && items_eqb xs' ys'
  | _, _ => false
  end.

(** ** app/models/schemas.py *)

(** [GenerationState]: the state object every stage receives and returns. *)
Record GenerationState : Type := mkState {
  domain : string;
  data_format : string;
  num_records : Z;
  context : option string;
  domain_research : option string;
  generated_data : list record;
  current_batch : Z;
  total_batches : Z;
  file_path : option string;
  status : string;
  error_message : option string
}.

(** [GenerationState(domain=..., data_format=..., num_records=...,
    context=..., status=..., error_message=...)]: the other fields take
    their declared defaults. *)
Definition new_state (d f : string) (n : Z) (c : option string)
    (st : string) (err : option string) : GenerationState :=
  {| domain := d; data_format := f; num_records := n; context := c;
     domain_research := None; generated_data := []; current_batch := 0;
     total_batches := 0; file_path := None; status := st;
     error_message := err |}.

(** Attribute assignments [state.x = v]. *)
Definition set_status (v : string) (s : GenerationState) : GenerationState :=
  {| domain := domain s; data_format := data_format s;
     num_records := num_records s; context := context s;
     domain_research := domain_research s;
     generated_data := generated_data s; current_batch := current_batch s;
     total_batches := total_batches s; file_path := file_path s;
     status := v; error_message := error_message s |}.

Definition set_error_message (v : option string) (s : GenerationState)
    : GenerationState :=
  {| domain := domain s; data_format := data_format s;
     num_records := num_records s; context := context s;
     domain_research := domain_research s;
     generated_data := generated_data s; current_batch := current_batch s;
     total_batches := total_batches s; file_path := file_path s;
     status := status s; error_message := v |}.

Definition set_domain_research (v : option string) (s : GenerationState)
    : GenerationState :=
  {| domain := domain s; data_format := data_format s;
     num_records := num_records s; context := context s;
     domain_research := v;
     generated_data := generated_data s; current_batch := current_batch s;
     total_batches := total_batches s; file_path := file_path s;
     status := status s; error_message := error_message s |}.

Definition set_generated_data (v : list record) (s : GenerationState)
    : GenerationState :=
  {| domain := domain s; data_format := data_format s;
     num_records := num_records s; context := context s;
     domain_research := domain_research s;
     generated_data := v; current_batch := current_batch s;
     total_batches := total_batches s; file_path := file_path s;
     status := status s; error_message := error_message s |}.

Definition set_current_batch (v : Z) (s : GenerationState) : GenerationState :=
  {| domain := domain s; data_format := data_format s;
     num_records := num_records s; context := context s;
     domain_research := domain_research s;
     generated_data := generated_data s; current_batch := v;
     total_batches := total_batches s; file_path := file_path s;
     status := status s; error_message := error_message s |}.

Definition set_total_batches (v : Z) (s : GenerationState) : GenerationState :=
  {| domain := domain s; data_format := data_format s;
     num_records := num_records s; context := context s;
     domain_research := domain_research s;
     generated_data := generated_data s; current_batch := current_batch s;
     total_batches := v; file_path := file_path s;
     status := status s; error_message := error_message s |}.

Definition set_file_path (v : option string) (s : GenerationState)
    : GenerationState :=
  {| domain := domain s; data_format := data_format s;
     num_records := num_records s; context := context s;
     domain_research := domain_research s;
     generated_data := generated_data s; current_batch := current_batch s;
     total_batches := total_batches s; file_path := v;
     status := status s; error_message := error_message s |}.

(** [ResearchResult] *)
Record ResearchResult : Type := mkResearch {
  domain_info : string;
  key_concepts : list string;
  terminology : list string;
  context_enriched : string
}.

(** [EvaluationResult] (and the [DataEvaluation] dictionary of the
    evaluation service, which has the same four entries). *)
Record EvaluationResult : Type := mkEvaluation {
  valid_records : list record;
  duplicate_count : Z;
  quality_issues : list string;
  passed_validation : bool
}.

(** ** The outside world *)

(** The nodes of the workflow graph; [END] is the graph's exit. *)
Inductive node : Type := Research | Generate | Evaluate | END.

(** What a run does that can be observed from outside. *)
Inductive event : Type :=
| EvNode (n : node)                      (* the graph executes a node *)
| EvGenerateCall (batch_size : Z)        (* generate_synthetic_data(...) *)
| EvEvaluateCall (data : list record)    (* evaluate_data_quality(...) *)
| EvSaveCall (data : list record).       (* save_to_csv(...) *)

(** The world a run lives in: [clock] counts the calls made to the
    outside so far (a collaborator may answer the same request
    differently each time), [trace] lists the events in order. *)
Record World : Type := mkWorld {
  clock : nat;
  trace : list event
}.

Definition world0 : World := {| clock := 0; trace := [] |}.

(** A computation that may raise and that may use the world. A raised
    exception keeps the world as it was when raised. *)
Definition M (A : Type) : Type := World -> result A * World.

Definition ret {A} (a : A) : M A := fun w => (Ok a, w).

Definition bind {A B} (m : M A) (k : A -> M B) : M B :=
  fun w => match m w with
           | (Ok a, w') => k a w'
           | (Raise e, w') => (Raise e, w')
           end.

(** [raise ...] *)
Definition throw {A} (e : string) : M A := fun w => (Raise e, w).

(** [try: m  except Exception as e: h(str(e))] *)
Definition try_except {A} (m : M A) (h : string -> M A) : M A :=
  fun w => match m w with
           | (Ok a, w') => (Ok a, w')
           | (Raise e, w') => h e w'
           end.

(** A call that uses nothing of the world. *)
Definition lift {A} (r : result A) : M A := fun w => (r, w).

(** Records an event. *)
Definition emit (ev : event) : M unit :=
  fun w => (Ok tt, {| clock := clock w; trace := trace w ++ [ev] |}).

(** A call to the outside: the collaborator answers as a function of the
    number of calls made before this one. *)
Definition external {A} (f : nat -> result A) : M A :=
  fun w => (f (clock w), {| clock := S (clock w); trace := trace w |}).

Notation "x <- m ;; k" := (bind m (fun x => k))
  (at level 61, m at next level, right associativity).
Notation "m ;;; k" := (bind m (fun _ => k))
  (at level 61, right associativity).

(** What [json.loads(state.domain_research)] hands to the generation
    prompt: nothing when the field is empty, else the research text
    (parsed, or wrapped under the single key "domain_info" when it does
    not parse; either way no exception leaves). *)
Inductive research_data : Type :=
| NoResearch
| ResearchText (s : string).

(** The collaborators of the workflow, which the repository reaches
    through libraries: the language model client, the web scraper, the
    JSON encoder and the CSV writer. *)
Record Collaborators : Type := mkCollaborators {
  (* DomainConfig.get_domain_context: a table lookup *)
  get_domain_context : string -> option string -> string;
  (* the [async with] block around the scraper: the enriched text (the
     scraper absorbs its own failures), or the exception of closing the
     session on the way out *)
  enrich_context_with_web_data :
    nat -> string -> string -> option string -> result string;
  (* self.llm.with_structured_output(schema) *)
  with_structured_output : nat -> result unit;
  (* structured_llm.ainvoke(...) for the research prompt *)
  ainvoke_research : nat -> string -> string -> result ResearchResult;
  (* structured_llm.ainvoke(...) for the generation prompt *)
  ainvoke_generate :
    nat -> string -> string -> Z -> research_data -> option string ->
    result (list record);
  (* structured_llm.ainvoke(...) for the evaluation prompt *)
  ainvoke_evaluate : nat -> list record -> string -> result EvaluationResult;
  (* ResearchResult.model_dump_json() *)
  model_dump_json : ResearchResult -> string;
  (* generate_filename and DataFrame.to_csv: the path written, or the
     exception of the write *)
  write_csv : nat -> list record -> string -> string -> result string
}.

(** ** Python numbers: [int / int] and [math.ceil] *)

Module PyFloat.

(** A finite binary64 number, [mant * 2 ^ expo]. *)
Record float : Type := mkFloat { mant : Z; expo : Z }.

(** The exponent of the smallest positive binary64 number. *)
Definition emin : Z := -1074.

(** [a / (b * 2 ^ e)] as a fraction of integers. *)
Definition scale (a b e : Z) : Z * Z :=
  if 0 <=? e then (a, b * 2 ^ e) else (a * 2 ^ (- e), b).

(** The exponent at which the quotient of positive [a] and [b] has a
    53-bit integer part, not below [emin]. *)
Definition quotient_exponent (a b : Z) : Z :=
  let e0 := Z.log2 a - Z.log2 b - 53 in
  let '(n, d) := scale a b e0 in
  let e1 := if 2 ^ 53 <=? n / d then e0 + 1 else e0 in
  Z.max e1 emin.

(** The integer nearest to [n / d], ties to the even one. *)
Definition round_half_even (n d : Z) : Z :=
  let q := n / d in
  let r := n mod d in
  if (d <? 2 * r) || ((d =? 2 * r) && Z.odd q) then q + 1 else q.

(** The correctly rounded quotient of two positive integers. *)
Definition div_pos (a b : Z) : result float :=
  let e := quotient_exponent a b in
  let '(n, d) := scale a b e in
  let m := round_half_even n d in
  if (0 <=? e) && (2 ^ 1024 <=? m * 2 ^ e)
  then Raise "integer division result too large for a float"
  else Ok (mkFloat m e).

(** [a / b] for two [int]s: the binary64 number nearest to the exact
    quotient (ties to even); [ZeroDivisionError] and [OverflowError]
    otherwise. *)
Definition true_divide (a b : Z) : result float :=
  if b =? 0 then Raise "division by zero"
  else if a =? 0 then Ok (mkFloat 0 0)
  else match div_pos (Z.abs a) (Z.abs b) with
       | Ok f => Ok (mkFloat (Z.sgn a * Z.sgn b * mant f) (expo f))
       | Raise e => Raise e
       end.

(** [math.ceil(x)] *)
Definition ceil (f : float) : Z :=
  if 0 <=? expo f then mant f * 2 ^ expo f
  else - ((- mant f) / 2 ^ (- expo f)).

(** The same quotient through the Standard Library's IEEE 754
    specification, for operands that binary64 holds exactly. *)
Definition spec_divide (a b : Z) : SpecFloat.spec_float :=
  SpecFloat.SFdiv 53 1024
    (SpecFloat.binary_normalize 53 1024 a 0 false)
    (SpecFloat.binary_normalize 53 1024 b 0 false).

(** [x] and [r] denote the same number. *)
Definition same_value (x : SpecFloat.spec_float) (r : result float) : bool :=
  match x, r with
  | SpecFloat.S754_zero _, Ok f => mant f =? 0
  | SpecFloat.S754_finite s m e, Ok f =>
      let v := if s then Z.neg m else Z.pos m in
      let lo := Z.min e (expo f) in
      v * 2 ^ (e - lo) =? mant f * 2 ^ (expo f - lo)
  | SpecFloat.S754_infinity _, Raise _ => true
  | _, _ => false
  end.

(** The integers [lo, lo + 1, ..., lo + n - 1]. *)
Definition range (lo n : nat) : list Z := map Z.of_nat (seq lo n).

Definition agree_on (xs ys : list Z) : bool :=
  forallb (fun a =>
    forallb (fun b => same_value (spec_divide a b) (true_divide a b)) ys) xs.

End PyFloat.

(** The exact ceiling of [a / b] for a positive [b]. *)
Definition ceil_div (a b : Z) : Z := - ((- a) / b).

(** ** app/config.py *)

(** [SUPPORTED_FORMATS[fmt]["fields"]] *)
Definition SUPPORTED_FORMATS : list (string * list string) :=
  [ ("qna", ["question"; "answer"; "context"]);
    ("entity_relationships", ["entity1"; "relationship"; "entity2"]);
    ("rag_chunks", ["content"; "metadata"; "summary"]);
    ("fine_tuning", ["instruction"; "input"; "output"]) ].

(** [SUPPORTED_FORMATS.get(fmt, {}).get("fields", default)] *)
Fixpoint format_fields (table : list (string * list string)) (fmt : string)
    (default : list string) : list string :=
  match table with
  | [] => default
  | (name, fields) :: rest =>
      if String.eqb name fmt then fields else format_fields rest fmt default
  end.

(** ** app/services/llm_service.py *)

Module LLMService.
Section Service.
Variable env : Collaborators.

(** [research_domain]: a failed model call is absorbed into a summary
    made of the context itself; building the structured client is
    outside the [try]. *)
Definition research_domain (domain domain_context : string)
    : M ResearchResult :=
  external (with_structured_output env) ;;;
  try_except
    (external (fun t => ainvoke_research env t domain domain_context))
    (fun _ => ret {| domain_info := domain_context;
                     key_concepts := [];
                     terminology := [];
                     context_enriched := domain_context |}).

(** [generate_synthetic_data]: a failed model call returns [[]]. *)
Definition generate_synthetic_data (domain data_format : string)
    (batch_size : Z) (research : research_data) (context : option string)
    : M (list record) :=
  emit (EvGenerateCall batch_size) ;;;
  external (with_structured_output env) ;;;
  try_except
    (external (fun t =>
       ainvoke_generate env t domain data_format batch_size research context))
    (fun _ => ret []).

(** [evaluate_data_quality]: a failed model call returns the input
    unchanged with a note. *)
Definition evaluate_data_quality (data : list record) (data_format : string)
    : M EvaluationResult :=
  emit (EvEvaluateCall data) ;;;
  external (with_structured_output env) ;;;
  try_except
    (external (fun t => ainvoke_evaluate env t data data_format))
    (fun _ => ret {| valid_records := data;
                     duplicate_count := 0;
                     quality_issues :=
                       ["LLM evaluation failed - using basic validation"];
                     passed_validation := 0 <? Z.of_nat (List.length data) |}).

End Service.
End LLMService.

(** ** app/services/file_service.py *)

Module FileService.
Section Service.
Variable env : Collaborators.

(** [save_to_csv]: refuses an empty list, otherwise writes the file and
    returns its path; every exception is raised again. *)
Definition save_to_csv (data : list record) (domain data_format : string)
    : M string :=
  emit (EvSaveCall data) ;;;
  try_except
    (match data with
     | [] => throw "No data to save"
     | _ => external (fun t => write_csv env t data domain data_format)
     end)
    (fun e => throw e).

(** [validate_data_format]: every record has the fields of the format. *)
Definition validate_data_format (data : list record) (data_format : string)
    : bool :=
  match data with
  | [] => false
  | _ =>
      let expected_fields := format_fields SUPPORTED_FORMATS data_format [] in
      forallb (fun r =>
        forallb (fun f => PyStr.mem f (keys r)) expected_fields) data
  end.

End Service.
End FileService.

(** [len(l)] for a list. *)
Definition len {A : Type} (l : list A) : Z := Z.of_nat (List.length l).

(** ** app/agents/research_agent.py *)

Module ResearchAgent.
Section Agent.
Variable env : Collaborators.

Definition research_domain (state : GenerationState) : M GenerationState :=
  try_except
    (let base_context :=
       get_domain_context env (domain state) (context state) in
     enriched_context <-
       external (fun t => enrich_context_with_web_data env t
                            (domain state) base_context (context state)) ;;
     research <- LLMService.research_domain env (domain state)
                   enriched_context ;;
     let research_result :=
       {| domain_info := domain_info research;
          key_concepts := key_concepts research;
          terminology := terminology research;
          context_enriched := context_enriched research |} in
     ret (set_status "research_completed"
            (set_domain_research
               (Some (model_dump_json env research_result)) state)))
    (fun e =>
       ret (set_error_message (Some (String.append "Research failed: " e))
              (set_status "research_failed" state))).

(** [__call__] *)
Definition call (state : GenerationState) : M GenerationState :=
  research_domain state.

End Agent.
End ResearchAgent.

(** ** app/agents/generator_agent.py *)

(** The agent object: [self.batch_size = BATCH_SIZE]. *)
Record GeneratorAgent : Type := mkGeneratorAgent {
  batch_size : Z
}.

Module GeneratorAgent.
Section Agent.
Variable env : Collaborators.
Variable self : GeneratorAgent.

(** [json.loads(state.domain_research)] with its fallback. *)
Definition parse_research (text : option string) : research_data :=
  match text with
  | None => NoResearch
  | Some EmptyString => NoResearch
  | Some s => ResearchText s
  end.

Definition generate_data_batch (state : GenerationState)
    : M GenerationState :=
  try_except
    (let records_generated := len (generated_data state) in
     let records_remaining := num_records state - records_generated in
     if records_remaining <=? 0 then
       ret (set_status "generation_completed" state)
     else
       let current_batch_size := Z.min (batch_size self) records_remaining in
       let research := parse_research (domain_research state) in
       batch_data <- LLMService.generate_synthetic_data env
                       (domain state) (data_format state)
                       current_batch_size research (context state) ;;
       match batch_data with
       | [] =>
           ret (set_error_message (Some "Failed to generate data batch")
                  (set_status "generation_failed" state))
       | _ =>
           let state1 :=
             set_generated_data (generated_data state ++ batch_data) state in
           let state2 := set_current_batch (current_batch state1 + 1) state1 in
           if num_records state2 <=? len (generated_data state2)
           then ret (set_status "generation_completed" state2)
           else ret (set_status "generating" state2)
       end)
    (fun e =>
       ret (set_error_message
              (Some (String.append "Generation failed: " e))
              (set_status "generation_failed" state))).

(** [math.ceil(total_records / batch_size)], the batch size defaulting
    to the agent's. *)
Definition calculate_batches (total_records : Z) (batch : option Z)
    : result Z :=
  let b := match batch with None => batch_size self | Some b => b end in
  match PyFloat.true_divide total_records b with
  | Ok q => Ok (PyFloat.ceil q)
  | Raise e => Raise e
  end.

Definition should_continue_generation (state : GenerationState) : bool :=
  (len (generated_data state) <? num_records state)
  && negb (PyStr.mem (status state)
             ["generation_failed"; "generation_completed"]).

(** [__call__]: the batch count is set while [total_batches] is 0; an
    exception of [calculate_batches] leaves the agent. *)
Definition call (state : GenerationState) : M GenerationState :=
  state' <-
    (if total_batches state =? 0 then
       n <- lift (calculate_batches (num_records state) None) ;;
       ret (set_current_batch 0 (set_total_batches n state))
     else ret state) ;;
  generate_data_batch state'.

End Agent.
End GeneratorAgent.

(** ** app/agents/evaluator_agent.py *)

Module EvaluatorAgent.

(** [sorted(record.items())]: insertion into a list sorted by key. The
    keys of a [dict] differ pairwise, so the comparison of two items is
    settled by their keys. *)
Fixpoint insert_item (kv : string * value) (l : list (string * value))
    : list (string * value) :=
  match l with
  | [] => [kv]
  | kv' :: l' =>
      match String_as_OT.compare (fst kv) (fst kv') with
      | Gt => kv' :: insert_item kv l'
      | _ => kv :: l
      end
  end.

Definition sorted_items (r : record) : list (string * value) :=
  fold_right insert_item [] r.

(** [str(sorted(record.items()))]: the canonical form of a record. Two
    lists of items print alike exactly when they are equal, so the
    sorted list stands for its text. *)
Definition record_str (r : record) : list (string * value) := sorted_items r.

(** [record_str in seen] *)
Definition seen_mem (k : list (string * value))
    (seen : list (list (string * value))) : bool :=
  existsb (items_eqb k) seen.

(** One turn of the loop of [remove_exact_duplicates]. *)
Definition dedup_step
    (acc : list (list (string * value)) * list record) (r : record)
    : list (list (string * value)) * list record :=
  let '(seen, unique_data) := acc in
  if negb (seen_mem (record_str r) seen)
  then (record_str r :: seen, unique_data ++ [r])
  else (seen, unique_data).

Definition remove_exact_duplicates (data : list record) : list record :=
  snd (fold_left dedup_step data ([], [])).

Definition placeholders : list string :=
  ["placeholder"; "example"; "sample"; "test"; "..."].

(** The inner loop of [basic_quality_check] over [record.items()]:
    [false] is the [break] that leaves [is_valid] false. *)
Fixpoint items_valid (items : list (string * value)) : bool :=
  match items with
  | [] => true
  | (_, VStr s) :: rest =>
      if PyStr.len (PyStr.strip s) <? 3 then false
      else if PyStr.mem (PyStr.lower s) placeholders then false
      else items_valid rest
  | (_, VDict d) :: rest =>
      match d with
      | [] => false
      | _ => items_valid rest
      end
  | (_, VNum _) :: rest => items_valid rest
  end.

Definition basic_quality_check (data : list record) (data_format : string)
    : list record :=
  fold_left (fun valid_records r =>
               if items_valid r then valid_records ++ [r] else valid_records)
            data [].

Section Agent.
Variable env : Collaborators.

Definition evaluate_with_llm (data : list record) (data_format : string)
    : M EvaluationResult :=
  try_except
    (evaluation_result <-
       LLMService.evaluate_data_quality env data data_format ;;
     ret {| valid_records := valid_records evaluation_result;
            duplicate_count := duplicate_count evaluation_result;
            quality_issues := quality_issues evaluation_result;
            passed_validation := passed_validation evaluation_result |})
    (fun _ =>
       let unique_data := remove_exact_duplicates data in
       let valid_data := basic_quality_check unique_data data_format in
       ret {| valid_records := valid_data;
              duplicate_count := len data - len unique_data;
              quality_issues :=
                ["Basic validation only - LLM evaluation failed"];
              passed_validation := 0 <? len valid_data |}).

Definition evaluate_and_save (state : GenerationState) : M GenerationState :=
  try_except
    (let unique_data := remove_exact_duplicates (generated_data state) in
     let basic_valid_data :=
       basic_quality_check unique_data (data_format state) in
     evaluation_result <-
       evaluate_with_llm basic_valid_data (data_format state) ;;
     let final_data := valid_records evaluation_result in
     match final_data with
     | [] =>
         ret (set_error_message (Some "No valid records after evaluation")
                (set_status "evaluation_failed" state))
     | _ =>
         (* the format check only writes a warning to the log *)
         let _ := FileService.validate_data_format final_data
                    (data_format state) in
         path <- FileService.save_to_csv env final_data
                   (domain state) (data_format state) ;;
         ret (set_status "completed"
                (set_file_path (Some path)
                   (set_generated_data final_data state)))
     end)
    (fun e =>
       ret (set_error_message
              (Some (String.append "Evaluation failed: " e))
              (set_status "evaluation_failed" state))).

(** [__call__] *)
Definition call (state : GenerationState) : M GenerationState :=
  evaluate_and_save state.

End Agent.
End EvaluatorAgent.

(** ** app/agents/langgraph_workflow.py *)

(** The workflow object: its generator agent, and what the compiled
    graph takes from the graph runtime, which is not part of the
    repository: the bound on the number of node executions of one
    [ainvoke], and the text of the error the runtime raises out of
    [ainvoke] once that many nodes have run. *)
Record SyntheticDataWorkflow : Type := mkWorkflow {
  generator_agent : GeneratorAgent;
  recursion_limit : nat;
  recursion_error : string
}.

Module SyntheticDataWorkflow.
Section Workflow.
Variable env : Collaborators.
Variable self : SyntheticDataWorkflow.

Definition research_node (state : GenerationState) : M GenerationState :=
  ResearchAgent.call env state.

Definition generate_node (state : GenerationState) : M GenerationState :=
  GeneratorAgent.call env (generator_agent self) state.

Definition evaluate_node (state : GenerationState) : M GenerationState :=
  if (num_records state <=? len (generated_data state))
     || String.eqb (status state) "generation_completed"
  then EvaluatorAgent.call env state
  else ret (set_status "generating" state).

Definition should_continue_generation (state : GenerationState) : string :=
  if PyStr.mem (status state)
       ["research_failed"; "generation_failed"; "evaluation_failed"]
  then "end"
  else if String.eqb (status state) "completed" then "end"
  else if (len (generated_data state) <? num_records state)
          && negb (String.eqb (status state) "generation_completed")
  then "continue"
  else if (num_records state <=? len (generated_data state))
          && negb (String.eqb (status state) "completed")
  then "end"
  else "end".

(** The graph of [_build_workflow]: the entry point is [Research]; the
    edges research -> generate and generate -> evaluate; after
    evaluate, the mapping of the conditional edge. *)
Definition conditional_edges : list (string * node) :=
  [("continue", Generate); ("end", END)].

Fixpoint edge_target (edges : list (string * node)) (name : string)
    : option node :=
  match edges with
  | [] => None
  | (k, n) :: rest => if String.eqb k name then Some n else edge_target rest name
  end.

Definition next_node (n : node) (state : GenerationState) : option node :=
  match n with
  | Research => Some Generate
  | Generate => Some Evaluate
  | Evaluate => edge_target conditional_edges (should_continue_generation state)
  | END => Some END
  end.

Definition exec_node (n : node) (state : GenerationState)
    : M GenerationState :=
  emit (EvNode n) ;;;
  match n with
  | Research => research_node state
  | Generate => generate_node state
  | Evaluate => evaluate_node state
  | END => ret state
  end.

(** The graph runtime from node [n] on, with [fuel] node executions
    left. The runtime looks at its budget before it looks for the end
    of the graph: once the last node of the budget has run it raises,
    also when the graph had nothing left to run. *)
Fixpoint run_from (fuel : nat) (n : node) (state : GenerationState)
    : M GenerationState :=
  match fuel with
  | O => throw (recursion_error self)
  | S fuel' =>
      match n with
      | END => ret state
      | _ =>
          state' <- exec_node n state ;;
          match next_node n state' with
          | Some n' => run_from fuel' n' state'
          | None => throw "KeyError"
          end
      end
  end.

(** [self.workflow.ainvoke(initial_state)] *)
Definition ainvoke (initial_state : GenerationState) : M GenerationState :=
  run_from (recursion_limit self) Research initial_state.

(** [run_workflow]: the outer [try] turns an escaping exception into a
    fresh state with status "failed". *)
Definition run_workflow (d f : string) (n : Z) (c : option string)
    (w : World) : GenerationState * World :=
  match ainvoke (new_state d f n c "pending" None) w with
  | (Ok final_state, w') => (final_state, w')
  | (Raise e, w') => (new_state d f n c "failed" (Some e), w')
  end.

(** The states of a run of [run_workflow d f n c]: [reachable nd st]
    when the graph can hold [st] on entering node [nd] ([END]: on
    leaving the graph), whatever the collaborators' clock. *)
Inductive reachable (d f : string) (n : Z) (c : option string)
    : node -> GenerationState -> Prop :=
| reach_entry :
    reachable d f n c Research (new_state d f n c "pending" None)
| reach_step : forall nd st w st' w' nd',
    reachable d f n c nd st ->
    exec_node nd st w = (Ok st', w') ->
    next_node nd st' = Some nd' ->
    reachable d f n c nd' st'.

(** The graph after [k] node executions from node [nd]: the node to
    enter next, the state and the world; [None] when an exception
    left the graph before. *)
Fixpoint run_steps (k : nat) (nd : node) (state : GenerationState)
    (w : World) : option (node * GenerationState * World) :=
  match k with
  | O => Some (nd, state, w)
  | S k' =>
      match exec_node nd state w with
      | (Ok state', w') =>
          match next_node nd state' with
          | Some nd' => run_steps k' nd' state' w'
          | None => None
          end
      | (Raise _, _) => None
      end
  end.

(** A state of the graph, or the state the outer [except] builds. *)
Inductive run_state (d f : string) (n : Z) (c : option string)
    : GenerationState -> Prop :=
| in_graph : forall nd st, reachable d f n c nd st -> run_state d f n c st
| caught : forall e, run_state d f n c (new_state d f n c "failed" (Some e)).

End Workflow.
End SyntheticDataWorkflow.

(** ** The specification's vocabulary *)

(** The four rows of the orchestrator's transition table, read from the
    top: the first row whose condition holds decides. *)
Inductive decision : Type :=
| TerminateFailed
| TerminateSuccess
| LoopBack
| TerminateOther.

Definition transition_table (state : GenerationState) : decision :=
  if String.eqb (status state) "research_failed"
     || String.eqb (status state) "generation_failed"
     || String.eqb (status state) "evaluation_failed"
  then TerminateFailed
  else if String.eqb (status state) "completed" then TerminateSuccess
  else if (len (generated_data state) <? num_records state)
          && negb (String.eqb (status state) "generation_completed")
  then LoopBack
  else TerminateOther.

(** The edge a decision takes in the graph. *)
Definition decision_edge (d : decision) : string :=
  match d with
  | LoopBack => "continue"
  | _ => "end"
  end.

(** The invariant of the graph: a state that is still to enter a node
    has no file and is not completed; on leaving the graph, it has a
    file exactly when it is completed. *)
Definition file_invariant (nd : node) (state : GenerationState) : Prop :=
  match nd with
  | END => file_path state <> None <-> status state = "completed"
  | _ => file_path state = None /\ status state <> "completed"
  end.

(** [l1] is [l2] with some elements left out, order kept. *)
Inductive subsequence {A : Type} : list A -> list A -> Prop :=
| sub_nil : subsequence [] []
| sub_keep : forall x l1 l2, subsequence l1 l2 -> subsequence (x :: l1) (x :: l2)
| sub_skip : forall x l1 l2, subsequence l1 l2 -> subsequence l1 (x :: l2).

(** [l1] is a prefix of [l2]. *)
Definition is_prefix {A : Type} (l1 l2 : list A) : Prop :=
  exists rest, l2 = l1 ++ rest.

(** The rule set of the basic quality filter, in the specification's
    words, none of them taken from the code: the five placeholder
    tokens, what it is for two strings to differ in the case of their
    letters only, and what it is to trim white space. *)
Definition placeholder_tokens : list string :=
  ["placeholder"; "example"; "sample"; "test"; "..."].

(** [u] is a capital letter (A to Z, or a Latin-1 capital: 0xC0 to 0xDE
    without the multiplication sign 0xD7) and [l] the small letter of
    [u], 32 code points above it. *)
Definition capital_of (u l : ascii) : Prop :=
  ((65 <= nat_of_ascii u <= 90)
   \/ (192 <= nat_of_ascii u <= 222 /\ nat_of_ascii u <> 215))%nat
  /\ nat_of_ascii l = (nat_of_ascii u + 32)%nat.

Definition same_char_ignoring_case (c d : ascii) : Prop :=
  c = d \/ capital_of c d \/ capital_of d c.

(** [s] is [token] up to the case of its letters, character by
    character. *)
Fixpoint matches_ignoring_case (s token : string) : Prop :=
  match s, token with
  | EmptyString, EmptyString => True
  | String c s', String d token' =>
      same_char_ignoring_case c d /\ matches_ignoring_case s' token'
  | _, _ => False
  end.

(** The white space code points: TAB, LF, VT, FF, CR, FS, GS, RS, US,
    SPACE, NEL and NBSP. *)
Definition whitespace_codes : list nat :=
  [9; 10; 11; 12; 13; 28; 29; 30; 31; 32; 133; 160]%nat.

Definition is_whitespace (c : ascii) : Prop :=
  In (nat_of_ascii c) whitespace_codes.

Fixpoint all_whitespace (s : string) : Prop :=
  match s with
  | EmptyString => True
  | String c s' => is_whitespace c /\ all_whitespace s'
  end.

Definition starts_with_whitespace (t : string) : Prop :=
  exists c rest, t = String c rest /\ is_whitespace c.

Definition ends_with_whitespace (t : string) : Prop :=
  exists front c, t = String.append front (String c EmptyString)
                  /\ is_whitespace c.

(** [t] is [s] with its leading and trailing white space removed. *)
Definition trimmed (s t : string) : Prop :=
  exists a b,
    s = String.append a (String.append t b)
    /\ all_whitespace a /\ all_whitespace b
    /\ ~ starts_with_whitespace t /\ ~ ends_with_whitespace t.

Definition field_violates (v : value) : Prop :=
  match v with
  | VStr s =>
      (exists t, trimmed s t /\ Z.of_nat (String.length t) < 3)
      \/ exists token, In token placeholder_tokens
                       /\ matches_ignoring_case s token
  | VDict d => d = []
  | VNum _ => False
  end.

Definition record_violates (r : record) : Prop :=
  exists k v, In (k, v) r /\ field_violates v.

(** Two records have the same canonical form. *)
Definition same_canonical_form (r r' : record) : bool :=
  items_eqb (EvaluatorAgent.record_str r) (EvaluatorAgent.record_str r').

(** The order of [sorted] on the items of a record: by key. *)
Definition key_lt (kv kv' : string * value) : Prop :=
  String_as_OT.lt (fst kv) (fst kv').

(** ** Scenarios *)

Module Scenario.

(** A well-formed question/answer record, different for each [i]. *)
Definition qna_record (i : nat) : record :=
  [ ("question", VStr (String.append "What is item "
                         (string_of_list_ascii (repeat "i"%char (S i)))));
    ("answer", VStr "A full answer here");
    ("context", VStr "Some context") ].

(** [n] records numbered from [base]. *)
Definition qna_batch (base n : nat) : list record :=
  map qna_record (seq base n).

Definition research_summary : ResearchResult :=
  {| domain_info := "overview"; key_concepts := ["care"];
     terminology := ["triage"]; context_enriched := "context" |}.

(** Collaborators that all answer: the generation model returns as
    many fresh records as requested, the evaluation model accepts its
    input, the file is written. *)
Definition healthy : Collaborators :=
  {| get_domain_context := fun _ _ => "Healthcare domain";
     enrich_context_with_web_data := fun _ _ base _ => Ok base;
     with_structured_output := fun _ => Ok tt;
     ainvoke_research := fun _ _ _ => Ok research_summary;
     ainvoke_generate := fun t _ _ n _ _ =>
                           Ok (qna_batch (100 * t) (Z.to_nat n));
     ainvoke_evaluate := fun _ data _ =>
                           Ok {| valid_records := data;
                                 duplicate_count := 0;
                                 quality_issues := [];
                                 passed_validation := true |};
     model_dump_json := fun _ => "{}";
     write_csv := fun _ _ _ _ => Ok "responses/healthcare_qna.csv" |}.

(** As [healthy], but the web enrichment block raises. *)
Definition research_down : Collaborators :=
  {| get_domain_context := get_domain_context healthy;
     enrich_context_with_web_data := fun _ _ _ _ => Raise "Session is closed";
     with_structured_output := with_structured_output healthy;
     ainvoke_research := ainvoke_research healthy;
     ainvoke_generate := ainvoke_generate healthy;
     ainvoke_evaluate := ainvoke_evaluate healthy;
     model_dump_json := model_dump_json healthy;
     write_csv := write_csv healthy |}.

(** As [healthy], but the first call of the generation model fails
    (the generation service then returns an empty list); the world's
    clock stands at 4 when that call is made. *)
Definition first_batch_empty : Collaborators :=
  {| get_domain_context := get_domain_context healthy;
     enrich_context_with_web_data := enrich_context_with_web_data healthy;
     with_structured_output := with_structured_output healthy;
     ainvoke_research := ainvoke_research healthy;
     ainvoke_generate := fun t d f n r c =>
                           if (t <=? 4)%nat then Raise "rate limit"
                           else ainvoke_generate healthy t d f n r c;
     ainvoke_evaluate := ainvoke_evaluate healthy;
     model_dump_json := model_dump_json healthy;
     write_csv := write_csv healthy |}.

(** As [healthy], but building the structured client raises. *)
Definition client_down : Collaborators :=
  {| get_domain_context := get_domain_context healthy;
     enrich_context_with_web_data := enrich_context_with_web_data healthy;
     with_structured_output := fun _ => Raise "NotImplementedError";
     ainvoke_research := ainvoke_research healthy;
     ainvoke_generate := ainvoke_generate healthy;
     ainvoke_evaluate := ainvoke_evaluate healthy;
     model_dump_json := model_dump_json healthy;
     write_csv := write_csv healthy |}.

(** The workflow with the default [BATCH_SIZE] of 15 and the graph
    runtime's default bound of 25 node executions; [recursion_error]
    is the first sentence of the message the runtime raises with, the
    rest of which varies with the runtime's version. *)
Definition workflow : SyntheticDataWorkflow :=
  {| generator_agent := {| batch_size := 15 |}; recursion_limit := 25;
     recursion_error :=
       "Recursion limit of 25 reached without hitting a stop condition." |}.

(** A generator agent with batch size 1, and a request for
    [2 ^ 53 + 1] records. *)
Definition single : GeneratorAgent := {| batch_size := 1 |}.

(** A generator agent whose batch size is beyond the reach of
    binary64 division. *)
Definition oversized : GeneratorAgent := {| batch_size := 2 ^ 1076 |}.

Definition huge_request : GenerationState :=
  new_state "healthcare" "qna" (2 ^ 53 + 1) None "pending" None.

(** The initial state of a request for [n] question/answer records. *)
Definition request (n : Z) : GenerationState :=
  new_state "healthcare" "qna" n None "pending" None.

(** The batch sizes requested from the generation service, in order. *)
Fixpoint requested_sizes (tr : list event) : list Z :=
  match tr with
  | [] => []
  | EvGenerateCall n :: rest => n :: requested_sizes rest
  | _ :: rest => requested_sizes rest
  end.

(** The nodes executed, in order. *)
Fixpoint nodes_run (tr : list event) : list node :=
  match tr with
  | [] => []
  | EvNode n :: rest => n :: nodes_run rest
  | _ :: rest => nodes_run rest
  end.

(** The number of [save_to_csv] calls. *)
Fixpoint saves (tr : list event) : nat :=
  match tr with
  | [] => 0%nat
  | EvSaveCall _ :: rest => S (saves rest)
  | _ :: rest => saves rest
  end.

End Scenario.

(** ** Further observations of a trace *)

(** The number of [evaluate_data_quality] calls. *)
Fixpoint evaluations (tr : list event) : nat :=
  match tr with
  | [] => 0%nat
  | EvEvaluateCall _ :: rest => S (evaluations rest)
  | _ :: rest => evaluations rest
  end.

(** The lists handed to [save_to_csv], in order. *)
Fixpoint saved_data (tr : list event) : list (list record) :=
  match tr with
  | [] => []
  | EvSaveCall data :: rest => data :: saved_data rest
  | _ :: rest => saved_data rest
  end.

(** ** The plan of a batched generation *)

(** The sizes of the batches that bring [remaining] records in when
    every request is for [min(batch_size, remaining)] records and is
    answered in full; [fuel] bounds the number of batches. *)
Fixpoint batch_plan (fuel : nat) (batch_size remaining : Z) : list Z :=
  match fuel with
  | O => []
  | S fuel' =>
      if remaining <=? 0 then []
      else Z.min batch_size remaining
           :: batch_plan fuel' batch_size
                (remaining - Z.min batch_size remaining)
  end.

(** The sum of a list of numbers. *)
Definition total (l : list Z) : Z := fold_right Z.add 0 l.

(** ** Further scenarios *)

Module Cases.
Import Scenario.

(** As [healthy], but every call of the research model fails. *)
Definition research_model_down : Collaborators :=
  {| get_domain_context := get_domain_context healthy;
     enrich_context_with_web_data := enrich_context_with_web_data healthy;
     with_structured_output := with_structured_output healthy;
     ainvoke_research := fun _ _ _ => Raise "rate limit";
     ainvoke_generate := ainvoke_generate healthy;
     ainvoke_evaluate := ainvoke_evaluate healthy;
     model_dump_json := model_dump_json healthy;
     write_csv := write_csv healthy |}.

(** A state whose quota of three records is met: the second record is
    the first with its items in another order, the third has a value of
    two characters. *)
Definition drafts : GenerationState :=
  set_status "generation_completed"
    (set_generated_data
       [ [("a", VStr "alpha"); ("b", VNum 2)];
         [("b", VNum 2); ("a", VStr "alpha")];
         [("a", VStr "Hi")] ]
       (request 3)).

(** As [healthy], but the evaluation model rejects what it is given
    and lists a record of its own. *)
Definition stern : Collaborators :=
  {| get_domain_context := get_domain_context healthy;
     enrich_context_with_web_data := enrich_context_with_web_data healthy;
     with_structured_output := with_structured_output healthy;
     ainvoke_research := ainvoke_research healthy;
     ainvoke_generate := ainvoke_generate healthy;
     ainvoke_evaluate := fun _ _ _ =>
                           Ok {| valid_records := [qna_record 0];
                                 duplicate_count := 7;
                                 quality_issues := ["poor quality"];
                                 passed_validation := false |};
     model_dump_json := model_dump_json healthy;
     write_csv := write_csv healthy |}.

(** A workflow whose [BATCH_SIZE] is set to 0. *)
Definition unbatched : SyntheticDataWorkflow :=
  {| generator_agent := {| batch_size := 0 |}; recursion_limit := 25;
     recursion_error := recursion_error Scenario.workflow |}.

End Cases.

(** ** app/config.py: the supported domains *)

(** [SUPPORTED_DOMAINS]: the description and the keywords of a domain. *)
Definition SUPPORTED_DOMAINS : list (string * (string * list string)) :=
  [ ("healthcare",
     ("Medical, pharmaceutical, clinical research, patient care, diagnostics",
      ["medical"; "patient"; "diagnosis"; "treatment"; "healthcare";
       "clinical"]));
    ("finance",
     ("Banking, investments, trading, financial planning, risk management",
      ["banking"; "investment"; "finance"; "trading"; "risk"; "financial"]));
    ("business",
     ("Management, operations, strategy, marketing, entrepreneurship",
      ["business"; "strategy"; "management"; "operations"; "marketing"]));
    ("law",
     ("Legal procedures, contracts, regulations, compliance, litigation",
      ["legal"; "law"; "contract"; "regulation"; "compliance"; "court"]));
    ("technology",
     ("Software development, AI/ML, cybersecurity, cloud computing",
      ["technology"; "software"; "AI"; "cybersecurity"; "cloud";
       "development"]));
    ("education",
     ("Learning, curriculum, pedagogy, assessment, educational technology",
      ["education"; "learning"; "curriculum"; "teaching"; "assessment"])) ].

(** [table.get(key)] for a table in insertion order. *)
Fixpoint dict_get {A : Type} (table : list (string * A)) (key : string)
    : option A :=
  match table with
  | [] => None
  | (k, v) :: rest => if String.eqb k key then Some v else dict_get rest key
  end.

(** [SUPPORTED_DOMAINS.get(domain, {}).get("description", default)] *)
Definition domain_description (domain default : string) : string :=
  match dict_get SUPPORTED_DOMAINS domain with
  | Some (description, _) => description
  | None => default
  end.

(** [SUPPORTED_DOMAINS.get(domain, {}).get("keywords", [])] *)
Definition domain_keywords (domain : string) : list string :=
  match dict_get SUPPORTED_DOMAINS domain with
  | Some (_, keywords) => keywords
  | None => []
  end.

(** The truth value of a [str]: not empty. *)
Definition nonempty (s : string) : bool :=
  match s with
  | EmptyString => false
  | String _ _ => true
  end.

(** The truth value of an [Optional[str]]: neither [None] nor empty. *)
Definition truthy (s : option string) : bool :=
  match s with
  | Some t => nonempty t
  | None => false
  end.

(** The line feed of a string literal. *)
Definition nl : string := String (ascii_of_nat 10) EmptyString.

(** ** app/services/scraper_service.py *)

(** The JSON answer of the search API, as far as the scraper reads it:
    the abstract, the related topics and the answer. A topic is a
    mapping with or without a "Text" entry, or something else. *)
Inductive topic : Type :=
| TopicDict (text : option string)
| TopicOther.

Record SearchAnswer : Type := mkSearchAnswer {
  Abstract : string;
  RelatedTopics : list topic;
  Answer : string
}.

(** The dictionary [scrape_domain_info] returns. *)
Record ScrapedInfo : Type := mkScrapedInfo {
  scraped_content : string;
  source_queries : list string;
  domain_keywords_found : list string;
  search_success : bool
}.

(** [asyncio.gather] with [return_exceptions=True]: every task runs,
    an exception of a task is its entry in the list of results. *)
Fixpoint gather {A : Type} (tasks : list (M A)) : M (list (result A)) :=
  match tasks with
  | [] => ret []
  | task :: rest =>
      fun w =>
        let '(r, w1) := task w in
        match gather rest w1 with
        | (Ok rs, w2) => (Ok (r :: rs), w2)
        | (Raise e, w2) => (Raise e, w2)
        end
  end.

Module ScraperService.
Section Service.

(** [session.get(search_url, params=...)], [raise_for_status] and
    [response.json()]: the answer to a query, or the exception of the
    session, of the status check or of the decoder. *)
Variable session_get : nat -> string -> result SearchAnswer.

Definition get_search_queries (domain : string) (context : option string)
    : list string :=
  let keywords := domain_keywords domain in
  let base_queries :=
    [ String.append domain " best practices";
      String.append domain " terminology glossary";
      String.append domain " industry standards";
      String.append domain " common procedures";
      String.append domain " key concepts" ] in
  let base_queries :=
    fold_left
      (fun queries keyword =>
         queries
         ++ [String.append keyword
               (String.append " " (String.append domain " guide"))])
      (firstn 3 keywords) base_queries in
  let base_queries :=
    match context with
    | Some c =>
        if nonempty c
        then base_queries ++ [String.append domain (String.append " " c)]
        else base_queries
    | None => base_queries
    end in
  firstn 5 base_queries.

(** The parts [search_and_extract] collects from an answer. *)
Definition content_parts (data : SearchAnswer) : list string :=
  let parts :=
    if nonempty (Abstract data)
    then [String.append "Overview: " (Abstract data)]
    else [] in
  let parts :=
    fold_left
      (fun parts topic =>
         match topic with
         | TopicDict (Some text) =>
             if nonempty text
             then parts ++ [String.append "Related: " text]
             else parts
         | _ => parts
         end)
      (firstn 3 (RelatedTopics data)) parts in
  if nonempty (Answer data)
  then parts ++ [String.append "Answer: " (Answer data)]
  else parts.

Definition search_and_extract (query : string) : M string :=
  try_except
    (data <- external (fun t => session_get t query) ;;
     match content_parts data with
     | [] => ret (String.append "Basic information about " query)
     | parts => ret (String.concat " | " parts)
     end)
    (fun _ => ret (String.append "General knowledge about " query)).

(** The results that are strings and not blank. *)
Fixpoint valid_results (search_results : list (result string))
    : list string :=
  match search_results with
  | [] => []
  | Ok s :: rest =>
      if nonempty (PyStr.strip s) then s :: valid_results rest
      else valid_results rest
  | Raise _ :: rest => valid_results rest
  end.

Definition scrape_domain_info (domain : string) (context : option string)
    : M ScrapedInfo :=
  try_except
    (let queries := get_search_queries domain context in
     search_results <- gather (map search_and_extract queries) ;;
     let valid := valid_results search_results in
     let valid :=
       match valid with
       | [] =>
           [domain_description domain
              (String.append "General "
                 (String.append domain " domain information"))]
       | _ => valid
       end in
     ret {| scraped_content := String.concat " | " valid;
            source_queries := queries;
            domain_keywords_found := domain_keywords domain;
            search_success := 0 <? len valid |})
    (fun _ =>
       ret {| scraped_content :=
                domain_description domain
                  (String.append "Basic "
                     (String.append domain " information"));
              source_queries := [];
              domain_keywords_found := domain_keywords domain;
              search_success := false |}).

Definition enrich_context_with_web_data (domain base_context : string)
    (user_context : option string) : M string :=
  try_except
    (scraped_data <- scrape_domain_info domain user_context ;;
     let enriched_context :=
       String.concat ""
         [ nl; "Base Context: "; base_context; nl; nl;
           "Web Research Results: "; scraped_content scraped_data; nl; nl;
           "Domain Keywords: ";
           String.concat ", " (domain_keywords_found scraped_data); nl ] in
     let enriched_context :=
       match user_context with
       | Some c =>
           if nonempty c
           then String.append enriched_context
                  (String.append nl
                     (String.append "User Specific Context: " c))
           else enriched_context
       | None => enriched_context
       end in
     ret (PyStr.strip enriched_context))
    (fun _ => ret base_context).

End Service.
End ScraperService.

(** ** Texts that are not blank *)

(** A string that starts with a character [strip] keeps. *)
Definition solid (s : string) : Prop :=
  match s with
  | EmptyString => False
  | String c _ => PyStr.is_space c = false
  end.

(** ** app/models/schemas.py: the models of the API *)

Inductive DomainEnum : Type :=
| HEALTHCARE | FINANCE | BUSINESS | LAW | TECHNOLOGY | EDUCATION.

(** [DomainEnum.value] *)
Definition DomainEnum_value (d : DomainEnum) : string :=
  match d with
  | HEALTHCARE => "healthcare"
  | FINANCE => "finance"
  | BUSINESS => "business"
  | LAW => "law"
  | TECHNOLOGY => "technology"
  | EDUCATION => "education"
  end.

Inductive DataFormatEnum : Type :=
| QNA | ENTITY_RELATIONSHIPS | RAG_CHUNKS | FINE_TUNING.

(** [DataFormatEnum.value] *)
Definition DataFormatEnum_value (f : DataFormatEnum) : string :=
  match f with
  | QNA => "qna"
  | ENTITY_RELATIONSHIPS => "entity_relationships"
  | RAG_CHUNKS => "rag_chunks"
  | FINE_TUNING => "fine_tuning"
  end.

Inductive StatusEnum : Type := PENDING | PROCESSING | COMPLETED | FAILED.

Module SyntheticDataRequest.

Record t : Type := mk {
  domain : DomainEnum;
  data_format : DataFormatEnum;
  num_records : Z;
  context : option string
}.

(** The constraints a request object satisfies once built:
    [Field(..., ge=1, le=1000)], and the validator of [num_records],
    which raises when [v <= 0 or v > 1000]. *)
Definition field_constraints (v : Z) : bool := (1 <=? v) && (v <=? 1000).

Definition validate_num_records (v : Z) : result Z :=
  if (v <=? 0) || (1000 <? v)
  then Raise "num_records must be between 1 and 1000"
  else Ok v.

Definition valid (r : t) : bool :=
  field_constraints (num_records r)
  && match validate_num_records (num_records r) with
     | Ok _ => true
     | Raise _ => false
     end.

End SyntheticDataRequest.

Module SyntheticDataResponse.

Record t : Type := mk {
  status : StatusEnum;
  total_records : Z;
  file_path : string;
  generation_time : string;
  message : option string
}.

End SyntheticDataResponse.

(** [x or default] for an [Optional[str]]. *)
Definition or_else (x : option string) (default : string) : string :=
  match x with
  | Some (String c s) => String c s
  | _ => default
  end.

(** ** app/utils/helpers.py: the validation of a request *)

(** [str(list(table.keys()))] for keys without quotes or escapes. *)
Definition keys_repr (names : list string) : string :=
  String.append "["
    (String.append
       (String.concat ", "
          (map (fun k => String.append "'" (String.append k "'")) names))
       "]").

(** [validate_request_data]: the dictionary of errors, in insertion
    order. *)
Definition validate_request_data (domain data_format : string)
    (num_records : Z) : list (string * string) :=
  let errors := [] in
  let errors :=
    if negb (PyStr.mem domain (map fst SUPPORTED_DOMAINS))
    then errors
         ++ [("domain",
              String.append "Unsupported domain. Supported: "
                (keys_repr (map fst SUPPORTED_DOMAINS)))]
    else errors in
  let errors :=
    if negb (PyStr.mem data_format (map fst SUPPORTED_FORMATS))
    then errors
         ++ [("data_format",
              String.append "Unsupported format. Supported: "
                (keys_repr (map fst SUPPORTED_FORMATS)))]
    else errors in
  let errors :=
    if (num_records <? 1) || (1000 <? num_records)
    then errors
         ++ [("num_records", "Number of records must be between 1 and 1000")]
    else errors in
  errors.

(** ** app/services/file_service.py: reading the files back *)

(** The file system under the service: whether a path exists; the size,
    the number of rows and the creation time of a CSV file, or the
    exception of reading it; the first rows of a CSV file as records, or
    the exception of parsing it. *)
Record FileSystem : Type := mkFileSystem {
  path_exists : string -> bool;
  stat_csv : string -> result (Z * Z * string);
  read_csv : string -> Z -> result (list record)
}.


Module FileReader.
Section Service.
Variable fs : FileSystem.



End Service.
End FileReader.

(** ** app/main.py *)


(** The [detail] of an [HTTPException]. *)
Inductive detail : Type :=
| InvalidRequest (message : string) (errors : list (string * string))
| GenerationFailed (message : option string) (generation_time : string)
| InternalError (message : string) (timestamp : string)
| Text (message : string).

(** What an endpoint does: it returns a body (status 200) or raises an
    [HTTPException]. *)
Inductive http (A : Type) : Type :=
| Respond (body : A)
| HTTPException (status_code : Z) (d : detail).
Arguments Respond {A} body.
Arguments HTTPException {A} status_code d.


Module Main.
Section App.
Variable env : Collaborators.
Variable workflow_instance : SyntheticDataWorkflow.
(** [format_duration(end_time - start_time)], the two instants given by
    the clock of the world. *)
Variable format_elapsed : nat -> nat -> string.
(** [datetime.now().isoformat()] *)
Variable isoformat_now : nat -> string.
Variable fs : FileSystem.

Definition process_data_generation (request : SyntheticDataRequest.t)
    : M SyntheticDataResponse.t :=
  fun w =>
    let start_time := clock w in
    try_except
      (final_state <-
         (fun w0 =>
            let '(final_state, w1) :=
              SyntheticDataWorkflow.run_workflow env workflow_instance
                (DomainEnum_value (SyntheticDataRequest.domain request))
                (DataFormatEnum_value
                   (SyntheticDataRequest.data_format request))
                (SyntheticDataRequest.num_records request)
                (SyntheticDataRequest.context request) w0 in
            (Ok final_state, w1)) ;;
       generation_time <-
         (fun w1 => (Ok (format_elapsed start_time (clock w1)), w1)) ;;
       if String.eqb (status final_state) "completed" then
         ret {| SyntheticDataResponse.status := COMPLETED;
                SyntheticDataResponse.total_records :=
                  len (generated_data final_state);
                SyntheticDataResponse.file_path :=
                  or_else (file_path final_state) "unknown";
                SyntheticDataResponse.generation_time := generation_time;
                SyntheticDataResponse.message :=
                  Some "Data generation completed successfully" |}
       else
         let error_msg :=
           or_else (error_message final_state) "Unknown error occurred" in
         ret {| SyntheticDataResponse.status := FAILED;
                SyntheticDataResponse.total_records :=
                  len (generated_data final_state);
                SyntheticDataResponse.file_path := EmptyString;
                SyntheticDataResponse.generation_time := generation_time;
                SyntheticDataResponse.message :=
                  Some (String.append "Data generation failed: "
                          error_msg) |})
      (fun e w1 =>
         (Ok {| SyntheticDataResponse.status := FAILED;
                SyntheticDataResponse.total_records := 0;
                SyntheticDataResponse.file_path := EmptyString;
                SyntheticDataResponse.generation_time :=
                  format_elapsed start_time (clock w1);
                SyntheticDataResponse.message :=
                  Some (String.append "Generation failed: " e) |}, w1))
      w.

(** [POST /generate-synthetic-data] *)
Definition generate_synthetic_data (request : SyntheticDataRequest.t)
    (w : World) : http SyntheticDataResponse.t * World :=
  let validation_errors :=
    validate_request_data
      (DomainEnum_value (SyntheticDataRequest.domain request))
      (DataFormatEnum_value (SyntheticDataRequest.data_format request))
      (SyntheticDataRequest.num_records request) in
  match validation_errors with
  | _ :: _ =>
      (HTTPException 400
         (InvalidRequest "Invalid request parameters" validation_errors), w)
  | [] =>
      match process_data_generation request w with
      | (Ok response, w') =>
          match SyntheticDataResponse.status response with
          | FAILED =>
              (HTTPException 500
                 (GenerationFailed
                    (SyntheticDataResponse.message response)
                    (SyntheticDataResponse.generation_time response)), w')
          | _ => (Respond response, w')
          end
      | (Raise e, w') =>
          (HTTPException 500
             (InternalError (String.append "Internal server error: " e)
                (isoformat_now (clock w'))), w')
      end
  end.



End App.
End Main.

(** The run of the workflow that a request starts. *)
Definition request_run (env : Collaborators) (wf : SyntheticDataWorkflow)
    (request : SyntheticDataRequest.t) (w : World)
    : GenerationState * World :=
  SyntheticDataWorkflow.run_workflow env wf
    (DomainEnum_value (SyntheticDataRequest.domain request))
    (DataFormatEnum_value (SyntheticDataRequest.data_format request))
    (SyntheticDataRequest.num_records request)
    (SyntheticDataRequest.context request) w.

(** ** app/utils/helpers.py: texts *)

Module Helpers.

(** The first [n] characters of a string. *)
Fixpoint take (n : nat) (s : string) : string :=
  match n, s with
  | S n', String c s' => String c (take n' s')
  | _, _ => EmptyString
  end.

(** [text[:k]]: a negative [k] counts from the end. *)
Definition slice_to (text : string) (k : Z) : string :=
  if 0 <=? k then take (Z.to_nat k) text
  else take (Z.to_nat (PyStr.len text + k)) text.

Definition truncate_text (text : string) (max_length : Z) : string :=
  if PyStr.len text <=? max_length then text
  else String.append (slice_to text (max_length - 3)) "...".

(** The characters of the class of the first [re.sub]: the angle
    brackets, the colon, the double quote, the slash, the backslash, the
    bar, the question mark and the asterisk. *)
Definition invalid_chars : list ascii :=
  [ "<"; ">"; ":"; ascii_of_nat 34; "/"; "\"; "|"; "?"; "*" ]%char.

Definition is_invalid (c : ascii) : bool :=
  existsb (Ascii.eqb c) invalid_chars.

Definition is_underscore (c : ascii) : bool := Ascii.eqb c "_".

(** The first [re.sub]: every character of the class becomes an
    underscore. *)
Fixpoint replace_invalid (s : string) : string :=
  match s with
  | EmptyString => EmptyString
  | String c s' =>
      String (if is_invalid c then "_"%char else c) (replace_invalid s')
  end.

(** [re.sub(r'_+', '_', s)]: every run of underscores becomes one. *)
Fixpoint collapse_underscores (s : string) : string :=
  match s with
  | EmptyString => EmptyString
  | String c s' =>
      if is_underscore c then
        match s' with
        | String c' _ =>
            if is_underscore c' then collapse_underscores s'
            else String c (collapse_underscores s')
        | EmptyString => String c EmptyString
        end
      else String c (collapse_underscores s')
  end.

(** [s.lstrip(chars)] and [s.rstrip(chars)], the characters given by a
    test. *)
Fixpoint lstrip_chars (p : ascii -> bool) (s : string) : string :=
  match s with
  | EmptyString => EmptyString
  | String c s' => if p c then lstrip_chars p s' else s
  end.

Fixpoint rstrip_chars (p : ascii -> bool) (s : string) : string :=
  match s with
  | EmptyString => EmptyString
  | String c s' =>
      match rstrip_chars p s' with
      | EmptyString => if p c then EmptyString else String c EmptyString
      | t => String c t
      end
  end.

(** [s.strip('_')] *)
Definition strip_underscores (s : string) : string :=
  rstrip_chars is_underscore (lstrip_chars is_underscore s).

Definition sanitize_filename (filename : string) : string :=
  let sanitized := replace_invalid filename in
  let sanitized := collapse_underscores sanitized in
  strip_underscores sanitized.

End Helpers.

(** Observations of a text: its characters, its last character, and
    whether two underscores stand side by side in it. *)
Definition chars (s : string) : list ascii := list_ascii_of_string s.

Fixpoint last_char (s : string) : option ascii :=
  match s with
  | EmptyString => None
  | String c EmptyString => Some c
  | String _ s' => last_char s'
  end.

Definition first_char (s : string) : option ascii :=
  match s with
  | EmptyString => None
  | String c _ => Some c
  end.

Fixpoint underscore_run (s : string) : bool :=
  match s with
  | EmptyString => false
  | String a s' =>
      match s' with
      | String b _ =>
          (Helpers.is_underscore a && Helpers.is_underscore b)
          || underscore_run s'
      | EmptyString => false
      end
  end.

(** A text without any of the characters [sanitize_filename] replaces. *)
Definition clean (s : string) : Prop :=
  Forall (fun c => Helpers.is_invalid c = false) (chars s).

(** ** The order of the nodes *)

(** The node the graph runs at its [i]-th execution: Research first,
    then Generate and Evaluate in turn. *)
Definition node_at (i : nat) : node :=
  match i with
  | O => Research
  | S i' => if Nat.even i' then Generate else Evaluate
  end.

(** The first [j] node executions. *)
Definition schedule (j : nat) : list node := map node_at (seq 0 j).

(** ** app/models/domains.py *)

Module DomainConfig.

(** The table of [get_research_sources]. *)
Definition sources : list (string * list string) :=
  [
    ("healthcare",
     [ "medical journals and publications";
       "clinical research databases";
       "healthcare guidelines and protocols";
       "medical terminology resources";
       "patient care standards" ]);
    ("finance",
     [ "financial regulations and compliance";
       "investment and trading platforms";
       "banking procedures and policies";
       "risk management frameworks";
       "financial market analysis" ]);
    ("business",
     [ "business strategy frameworks";
       "management best practices";
       "operational procedures";
       "marketing and sales methodologies";
       "entrepreneurship resources" ]);
    ("law",
     [ "legal statutes and regulations";
       "court procedures and protocols";
       "contract law and agreements";
       "compliance and regulatory frameworks";
       "legal precedents and case studies" ]);
    ("technology",
     [ "software development practices";
       "AI and machine learning concepts";
       "cybersecurity frameworks";
       "cloud computing architectures";
       "technology standards and protocols" ]);
    ("education",
     [ "pedagogical methodologies";
       "curriculum development frameworks";
       "educational assessment techniques";
       "learning technologies and tools";
       "educational psychology research" ]) ].

Definition get_research_sources (domain : string) : list string :=
  match dict_get sources domain with
  | Some l => l
  | None => []
  end.

(** The table of [get_domain_context]; a text runs over three lines of
    the source, each new line indented by twelve spaces. *)
Definition indent : string := String.append nl "            ".

Definition base_contexts : list (string * string) :=
  [
    ("healthcare",
     String.concat EmptyString
       [ "Healthcare domain encompasses medical practice, patient care, clinical research, ";
        indent;
        "pharmaceutical development, medical devices, healthcare administration, and public health initiatives. ";
        indent;
        "Key areas include diagnosis, treatment protocols, preventive care, medical ethics, and healthcare technology." ]);
    ("finance",
     String.concat EmptyString
       [ "Finance domain covers banking services, investment management, financial planning, ";
        indent;
        "risk assessment, insurance, regulatory compliance, and financial markets. Key areas include ";
        indent;
        "portfolio management, credit analysis, financial modeling, and regulatory frameworks." ]);
    ("business",
     String.concat EmptyString
       [ "Business domain includes strategic planning, operations management, marketing, ";
        indent;
        "sales, human resources, and organizational development. Key areas include business models, ";
        indent;
        "competitive analysis, process optimization, and stakeholder management." ]);
    ("law",
     String.concat EmptyString
       [ "Legal domain encompasses various practice areas including corporate law, litigation, ";
        indent;
        "regulatory compliance, contract negotiation, and legal advisory services. Key areas include ";
        indent;
        "legal research, case analysis, document preparation, and client representation." ]);
    ("technology",
     String.concat EmptyString
       [ "Technology domain includes software development, system architecture, ";
        indent;
        "cybersecurity, artificial intelligence, cloud computing, and emerging technologies. ";
        indent;
        "Key areas include programming, system design, security protocols, and technology innovation." ]);
    ("education",
     String.concat EmptyString
       [ "Education domain covers teaching methodologies, curriculum design, student assessment, ";
        indent;
        "educational technology, and academic administration. Key areas include learning theories, ";
        indent;
        "instructional design, educational psychology, and institutional management." ]) ].

Definition get_domain_context (domain : string)
    (user_context : option string) : string :=
  let base_context :=
    match dict_get base_contexts domain with
    | Some text => text
    | None => EmptyString
    end in
  match user_context with
  | Some c =>
      if nonempty c
      then String.append base_context
             (String.append " Specific focus: " c)
      else base_context
  | None => base_context
  end.

End DomainConfig.

(* ===================================================================== *)
(** * Part II: properties                                                 *)
(* ===================================================================== *)

(** ** Tactics *)

(** Unfolds the operations of [M] in the goal and the hypotheses. *)
Ltac unfold_m :=
  unfold bind, ret, lift, throw, try_except, emit, external in *.

(** ** Strings *)

(** The white space of [str.strip] and the letters [str.lower] changes,
    as tables over the 256 code points. *)
Lemma is_space_table :
  filter (fun n => PyStr.is_space (ascii_of_nat n)) (seq 0 256)
  = [9; 10; 11; 12; 13; 28; 29; 30; 31; 32; 133; 160]%nat.
Proof. vm_compute. reflexivity. Qed.

Lemma lower_char_table :
  filter (fun n => negb (Nat.eqb (nat_of_ascii
                                    (PyStr.lower_char (ascii_of_nat n))) n))
         (seq 0 256)
  = (seq 65 26 ++ seq 192 23 ++ seq 216 7)%nat
  /\ forall n, In n (seq 65 26 ++ seq 192 23 ++ seq 216 7)%nat ->
        nat_of_ascii (PyStr.lower_char (ascii_of_nat n)) = (n + 32)%nat.
Proof.
  split; [vm_compute; reflexivity|].
  intros n Hin.
  assert (H : forallb (fun n => Nat.eqb (nat_of_ascii
                                  (PyStr.lower_char (ascii_of_nat n)))
                                 (n + 32))
                (seq 65 26 ++ seq 192 23 ++ seq 216 7)%nat = true)
    by (vm_compute; reflexivity).
  rewrite forallb_forall in H. apply Nat.eqb_eq. now apply H.
Qed.

Example strip_example :
  PyStr.strip (String (ascii_of_nat 9) "  Hi  ") = "Hi"
  /\ PyStr.lower "TeSt" = "test".
Proof. split; reflexivity. Qed.

(** ** Lists *)

Lemma len_nonneg {A : Type} (l : list A) : 0 <= len l.
Proof. unfold len. lia. Qed.

Lemma len_app {A : Type} (l1 l2 : list A) : len (l1 ++ l2) = len l1 + len l2.
Proof. unfold len. rewrite length_app. lia. Qed.

Lemma is_prefix_refl {A : Type} (l : list A) : is_prefix l l.
Proof. exists []. now rewrite app_nil_r. Qed.

Lemma is_prefix_app {A : Type} (l rest : list A) : is_prefix l (l ++ rest).
Proof. now exists rest. Qed.

Lemma is_prefix_len {A : Type} (l1 l2 : list A) :
  is_prefix l1 l2 -> len l1 <= len l2.
Proof.
  intros [rest ->]. rewrite len_app. pose proof (len_nonneg rest). lia.
Qed.

Lemma subsequence_refl {A : Type} (l : list A) : subsequence l l.
Proof. induction l; constructor; assumption. Qed.

Lemma subsequence_snoc_keep {A : Type} (l1 l2 : list A) (x : A) :
  subsequence l1 l2 -> subsequence (l1 ++ [x]) (l2 ++ [x]).
Proof.
  induction 1; simpl.
  - repeat constructor.
  - now constructor.
  - now constructor.
Qed.

Lemma subsequence_snoc_skip {A : Type} (l1 l2 : list A) (x : A) :
  subsequence l1 l2 -> subsequence l1 (l2 ++ [x]).
Proof.
  induction 1; simpl.
  - repeat constructor.
  - now constructor.
  - now constructor.
Qed.

Lemma subsequence_length {A : Type} (l1 l2 : list A) :
  subsequence l1 l2 -> (List.length l1 <= List.length l2)%nat.
Proof. induction 1; simpl; lia. Qed.

Lemma subsequence_In {A : Type} (l1 l2 : list A) (x : A) :
  subsequence l1 l2 -> In x l1 -> In x l2.
Proof.
  induction 1; simpl; intros; auto.
  destruct H0; auto.
Qed.

(** ** The continuation decision *)

Section Decision.
Import SyntheticDataWorkflow.

Lemma should_continue_generation_rows (state : GenerationState) :
  should_continue_generation state = "continue"
  \/ should_continue_generation state = "end".
Proof.
  unfold should_continue_generation.
  repeat match goal with |- context [if ?b then _ else _] => destruct b end;
    auto.
Qed.

(** The table, row by row. *)
Lemma transition_table_rows (state : GenerationState) :
  (In (status state)
      ["research_failed"; "generation_failed"; "evaluation_failed"] ->
   transition_table state = TerminateFailed)
  /\ (status state = "completed" ->
      transition_table state = TerminateSuccess)
  /\ (~ In (status state)
          ["research_failed"; "generation_failed"; "evaluation_failed"] ->
      status state <> "completed" ->
      len (generated_data state) < num_records state ->
      status state <> "generation_completed" ->
      transition_table state = LoopBack)
  /\ (~ In (status state)
          ["research_failed"; "generation_failed"; "evaluation_failed"] ->
      status state <> "completed" ->
      num_records state <= len (generated_data state)
      \/ status state = "generation_completed" ->
      transition_table state = TerminateOther).
Proof.
  unfold transition_table. simpl In.
  destruct (String.eqb_spec (status state) "research_failed") as [E1|E1];
  destruct (String.eqb_spec (status state) "generation_failed") as [E2|E2];
  destruct (String.eqb_spec (status state) "evaluation_failed") as [E3|E3];
  destruct (String.eqb_spec (status state) "completed") as [E4|E4];
  destruct (String.eqb_spec (status state) "generation_completed")
    as [E5|E5];
  destruct (Z.ltb_spec (len (generated_data state)) (num_records state));
  cbn [orb andb negb];
  repeat split; intros; try reflexivity; try congruence;
    try (exfalso; intuition congruence); try (exfalso; intuition lia).
Qed.

(** C1. The continuation decision is the transition table: for every
    state the edge [should_continue_generation] names is the edge of
    the table's decision, and the graph follows it; row by row, the
    statuses "research_failed", "generation_failed" and
    "evaluation_failed" end the run, so does "completed", an unmet
    quota without "generation_completed" loops back to generation, and
    everything else ends the run. *)
Theorem should_continue_generation_table :
  forall state : GenerationState,
    should_continue_generation state
      = decision_edge (transition_table state)
    /\ next_node Evaluate state
       = Some (match transition_table state with
               | LoopBack => Generate
               | _ => END
               end)
    /\ (In (status state)
           ["research_failed"; "generation_failed"; "evaluation_failed"] ->
        transition_table state = TerminateFailed
        /\ should_continue_generation state = "end")
    /\ (status state = "completed" ->
        transition_table state = TerminateSuccess
        /\ should_continue_generation state = "end")
    /\ (~ In (status state)
            ["research_failed"; "generation_failed"; "evaluation_failed"] ->
        status state <> "completed" ->
        len (generated_data state) < num_records state ->
        status state <> "generation_completed" ->
        transition_table state = LoopBack
        /\ should_continue_generation state = "continue")
    /\ (~ In (status state)
            ["research_failed"; "generation_failed"; "evaluation_failed"] ->
        status state <> "completed" ->
        num_records state <= len (generated_data state)
        \/ status state = "generation_completed" ->
        transition_table state = TerminateOther
        /\ should_continue_generation state = "end").
Proof.
  intros state.
  assert (E : should_continue_generation state
              = decision_edge (transition_table state)).
  { unfold should_continue_generation, transition_table, PyStr.mem.
    simpl existsb. rewrite orb_false_r, orb_assoc.
    destruct (_ || _ || _); [reflexivity|].
    destruct (String.eqb (status state) "completed"); [reflexivity|].
    destruct (_ && _); [reflexivity|].
    destruct (_ && _); reflexivity. }
  destruct (transition_table_rows state) as [R1 [R2 [R3 R4]]].
  split; [exact E|]. split.
  { unfold next_node. rewrite E.
    destruct (transition_table state); reflexivity. }
  rewrite E.
  split; [intros H; rewrite (R1 H); auto|].
  split; [intros H; rewrite (R2 H); auto|].
  split; [intros H1 H2 H3 H4; rewrite (R3 H1 H2 H3 H4); auto|].
  intros H1 H2 H3; rewrite (R4 H1 H2 H3); auto.
Qed.

Lemma next_node_total (n : node) (state : GenerationState) :
  exists n', next_node n state = Some n'.
Proof.
  destruct n; simpl; eauto.
  pose proof (should_continue_generation_rows state) as H.
  destruct H as [-> | ->]; simpl; eauto.
Qed.

End Decision.

(** ** Values and canonical forms *)

Lemma value_eqb_dict (xs ys : list (string * value)) :
  value_eqb (VDict xs) (VDict ys) = items_eqb xs ys.
Proof.
  reflexivity.
Qed.

(** Induction on a value with the hypothesis available for every value
    of a nested mapping. *)
Lemma value_nested_ind (P : value -> Prop) :
  (forall s, P (VStr s)) ->
  (forall n, P (VNum n)) ->
  (forall items, Forall (fun kv => P (snd kv)) items -> P (VDict items)) ->
  forall v, P v.
Proof.
  intros HS HN HD. fix IH 1. intros [s|n|items].
  - apply HS.
  - apply HN.
  - apply HD. induction items as [|[k x] items IHitems]; constructor.
    + simpl. apply IH.
    + exact IHitems.
Qed.

Lemma value_eqb_eq (v w : value) : value_eqb v w = true <-> v = w.
Proof.
  revert w. induction v as [s|n|items IH] using value_nested_ind;
    intros [t|m|items'];
    try (simpl; split; intros H; (discriminate || congruence)).
  - simpl. rewrite String.eqb_eq. split; congruence.
  - simpl. rewrite Z.eqb_eq. split; congruence.
  - rewrite value_eqb_dict.
    assert (E : items_eqb items items' = true <-> items = items').
    { revert items'. induction IH as [|[k x] items Hx _ IHitems];
        intros [|[k' y] items']; simpl;
        try (split; intros H; (discriminate || congruence || reflexivity)).
      simpl in Hx.
      rewrite !andb_true_iff, String.eqb_eq, (Hx y), IHitems.
      split; [intros [[-> ->] ->]; reflexivity|].
      intros H; inversion H; auto. }
    rewrite E. split; congruence.
Qed.

Lemma items_eqb_eq (xs ys : list (string * value)) :
  items_eqb xs ys = true <-> xs = ys.
Proof.
  rewrite <- value_eqb_dict, value_eqb_eq. split; congruence.
Qed.

Lemma same_canonical_form_eq (r r' : record) :
  same_canonical_form r r' = true
  <-> EvaluatorAgent.record_str r = EvaluatorAgent.record_str r'.
Proof. apply items_eqb_eq. Qed.

Module CanonicalFacts.
Import EvaluatorAgent.

Lemma compare_gt_lt (a b : string) :
  String_as_OT.compare a b = Gt -> String_as_OT.lt b a.
Proof.
  intros H. destruct (String_as_OT.compare_spec a b); congruence.
Qed.

Lemma compare_eq_eq (a b : string) :
  String_as_OT.compare a b = Eq -> a = b.
Proof.
  intros H. destruct (String_as_OT.compare_spec a b); congruence.
Qed.

Lemma key_lt_trans (x y z : string * value) :
  key_lt x y -> key_lt y z -> key_lt x z.
Proof.
  unfold key_lt. destruct String_as_OT.lt_strorder as [_ Htrans].
  apply Htrans.
Qed.

Lemma key_lt_irrefl (x y : string * value) :
  key_lt x y -> key_lt y x -> False.
Proof.
  unfold key_lt. intros H1 H2.
  destruct String_as_OT.lt_strorder as [Hirr Htrans].
  apply (Hirr (fst x)). eapply Htrans; eassumption.
Qed.

Lemma insert_item_perm (kv : string * value) (l : list (string * value)) :
  Permutation (insert_item kv l) (kv :: l).
Proof.
  induction l as [|kv' l IH]; simpl; [reflexivity|].
  destruct (String_as_OT.compare (fst kv) (fst kv')); try reflexivity.
  rewrite IH. apply perm_swap.
Qed.

Lemma sorted_items_perm (r : record) : Permutation (sorted_items r) r.
Proof.
  induction r as [|kv r IH]; simpl; [reflexivity|].
  rewrite insert_item_perm. now constructor.
Qed.

Lemma insert_item_sorted (kv : string * value) (l : list (string * value)) :
  ~ In (fst kv) (keys l) ->
  StronglySorted key_lt l ->
  StronglySorted key_lt (insert_item kv l).
Proof.
  induction l as [|kv' l IH]; simpl; intros Hk Hs.
  - repeat constructor.
  - inversion Hs as [|? ? Hs' Hall]; subst.
    destruct (String_as_OT.compare (fst kv) (fst kv')) eqn:E.
    + exfalso. apply Hk. left. symmetry. now apply compare_eq_eq.
    + constructor; [exact Hs|].
      constructor; [exact E|].
      eapply Forall_impl; [|exact Hall].
      intros z Hz. eapply key_lt_trans; [exact E|exact Hz].
    + constructor.
      * apply IH; [intros Hin; apply Hk; now right|exact Hs'].
      * eapply Permutation_Forall.
        { symmetry. apply insert_item_perm. }
        constructor; [now apply compare_gt_lt|exact Hall].
Qed.

Lemma sorted_items_sorted (r : record) :
  NoDup (keys r) -> StronglySorted key_lt (sorted_items r).
Proof.
  induction r as [|kv r IH]; simpl; intros Hnd.
  - constructor.
  - inversion Hnd as [|? ? Hnotin Hnd']; subst.
    apply insert_item_sorted; [|now apply IH].
    intros Hin. apply Hnotin.
    unfold keys in *.
    eapply Permutation_in; [|exact Hin].
    apply Permutation_map, sorted_items_perm.
Qed.

(** A list sorted by [key_lt] is determined by its elements. *)
Lemma sorted_perm_eq (l1 l2 : list (string * value)) :
  StronglySorted key_lt l1 -> StronglySorted key_lt l2 ->
  Permutation l1 l2 -> l1 = l2.
Proof.
  revert l2. induction l1 as [|x l1 IH]; intros l2 H1 H2 HP.
  - now apply Permutation_nil in HP.
  - destruct l2 as [|y l2].
    { symmetry in HP. now apply Permutation_nil in HP. }
    inversion H1 as [|? ? H1' A1]; subst.
    inversion H2 as [|? ? H2' A2]; subst.
    assert (x = y) as ->.
    { assert (Hx : In x (y :: l2))
        by (eapply Permutation_in; [exact HP|now left]).
      assert (Hy : In y (x :: l1))
        by (eapply Permutation_in; [symmetry; exact HP|now left]).
      destruct Hx as [->|Hx]; [reflexivity|].
      destruct Hy as [->|Hy]; [reflexivity|].
      rewrite Forall_forall in A1, A2.
      exfalso. eapply key_lt_irrefl; [apply A1, Hy|apply A2, Hx]. }
    f_equal. apply IH; auto.
    eapply Permutation_cons_inv; exact HP.
Qed.

(** Records with the same items in a different insertion order have the
    same canonical form. *)
Lemma record_str_perm (r1 r2 : record) :
  NoDup (keys r1) -> Permutation r1 r2 -> record_str r1 = record_str r2.
Proof.
  intros Hnd HP. unfold record_str.
  assert (Hnd2 : NoDup (keys r2)).
  { eapply Permutation_NoDup; [|exact Hnd].
    unfold keys. now apply Permutation_map. }
  apply sorted_perm_eq; try now apply sorted_items_sorted.
  rewrite !sorted_items_perm. exact HP.
Qed.

End CanonicalFacts.

(** ** Exact-duplicate removal *)

Module DedupFacts.
Import EvaluatorAgent.

(** The accumulator of the loop after one more record. *)
Lemma loop_snoc (l : list record) (r : record) :
  fold_left dedup_step (l ++ [r]) ([], [])
  = dedup_step (fold_left dedup_step l ([], [])) r.
Proof. now rewrite fold_left_app. Qed.

(** [seen] holds the canonical forms of the records read so far. *)
Lemma seen_mem_loop (l : list record) (k : list (string * value)) :
  seen_mem k (fst (fold_left dedup_step l ([], [])))
  = existsb (fun r' => items_eqb k (record_str r')) l.
Proof.
  induction l as [|r l IH] using rev_ind; [reflexivity|].
  rewrite loop_snoc, existsb_app. simpl existsb. rewrite orb_false_r.
  destruct (fold_left dedup_step l ([], [])) as [seen uniq] eqn:E.
  simpl in IH.
  unfold dedup_step.
  destruct (seen_mem (record_str r) seen) eqn:Hmem; simpl.
  - rewrite <- IH.
    destruct (items_eqb k (record_str r)) eqn:Hk;
      [|now rewrite orb_false_r].
    apply items_eqb_eq in Hk. subst k. rewrite Hmem. reflexivity.
  - rewrite <- IH. apply orb_comm.
Qed.

Lemma remove_exact_duplicates_nil : remove_exact_duplicates [] = [].
Proof. reflexivity. Qed.

(** A record is dropped exactly when an earlier record of the input has
    its canonical form; a record that is kept goes to the end. *)
Lemma remove_exact_duplicates_snoc (l : list record) (r : record) :
  remove_exact_duplicates (l ++ [r])
  = if existsb (same_canonical_form r) l
    then remove_exact_duplicates l
    else remove_exact_duplicates l ++ [r].
Proof.
  unfold remove_exact_duplicates. rewrite loop_snoc.
  pose proof (seen_mem_loop l (record_str r)) as Hseen.
  destruct (fold_left dedup_step l ([], [])) as [seen uniq].
  simpl in Hseen.
  unfold dedup_step, same_canonical_form. rewrite Hseen.
  destruct (existsb _ l); reflexivity.
Qed.

Lemma remove_exact_duplicates_subsequence (data : list record) :
  subsequence (remove_exact_duplicates data) data.
Proof.
  induction data as [|r l IH] using rev_ind; [constructor|].
  rewrite remove_exact_duplicates_snoc.
  destruct (existsb _ l).
  - now apply subsequence_snoc_skip.
  - now apply subsequence_snoc_keep.
Qed.

Lemma remove_exact_duplicates_length (data : list record) :
  len (remove_exact_duplicates data) <= len data.
Proof.
  unfold len.
  pose proof (subsequence_length _ _
                (remove_exact_duplicates_subsequence data)).
  lia.
Qed.

Lemma existsb_same_false (l : list record) (r : record) :
  existsb (same_canonical_form r) l = false ->
  forall r', In r' l -> record_str r' <> record_str r.
Proof.
  intros H r' Hin Heq.
  assert (existsb (same_canonical_form r) l = true); [|congruence].
  apply existsb_exists. exists r'. split; [exact Hin|].
  now apply same_canonical_form_eq.
Qed.

(** No two records that are kept have the same canonical form. *)
Lemma remove_exact_duplicates_NoDup (data : list record) :
  NoDup (map record_str (remove_exact_duplicates data)).
Proof.
  induction data as [|r l IH] using rev_ind; [constructor|].
  rewrite remove_exact_duplicates_snoc.
  destruct (existsb _ l) eqn:E; [exact IH|].
  rewrite map_app. simpl.
  eapply Permutation_NoDup; [apply Permutation_cons_append|].
  constructor; [|exact IH].
  intros Hin. apply in_map_iff in Hin. destruct Hin as [r' [Heq Hin]].
  eapply existsb_same_false; [exact E| |exact Heq].
  eapply subsequence_In;
    [apply remove_exact_duplicates_subsequence|exact Hin].
Qed.

(** Every canonical form of the input is still there. *)
Lemma remove_exact_duplicates_covers (data : list record) (r : record) :
  In r data ->
  exists r', In r' (remove_exact_duplicates data)
             /\ record_str r' = record_str r.
Proof.
  revert r. induction data as [|x l IH] using rev_ind; [intros r []|].
  intros r Hin. rewrite remove_exact_duplicates_snoc.
  apply in_app_or in Hin. destruct Hin as [Hin|[<-|[]]].
  - destruct (IH r Hin) as [r' [Hr' Heq]].
    exists r'. split; [|exact Heq].
    destruct (existsb _ l); [exact Hr'|apply in_or_app; now left].
  - destruct (existsb _ l) eqn:E.
    + apply existsb_exists in E. destruct E as [y [Hy Hsame]].
      apply same_canonical_form_eq in Hsame.
      destruct (IH y Hy) as [r' [Hr' Heq]].
      exists r'. split; [exact Hr'|congruence].
    + exists x. split; [apply in_or_app; right; now left|reflexivity].
Qed.

(** Two records with the same items in a different insertion order:
    the first one stays. *)
Lemma remove_exact_duplicates_reordered (r1 r2 : record) :
  NoDup (keys r1) -> Permutation r1 r2 ->
  remove_exact_duplicates [r1; r2] = [r1].
Proof.
  intros Hnd HP.
  change [r1; r2] with ([r1] ++ [r2]).
  rewrite remove_exact_duplicates_snoc. simpl existsb.
  assert (E : same_canonical_form r2 r1 = true).
  { apply same_canonical_form_eq. symmetry.
    now apply CanonicalFacts.record_str_perm. }
  rewrite E. reflexivity.
Qed.

(** Wherever it stands in the input, a later record that has the items
    of an earlier one in a different insertion order is dropped. *)
Lemma remove_exact_duplicates_later_copy (l1 l2 : list record)
    (r1 r2 : record) :
  NoDup (keys r1) -> Permutation r1 r2 ->
  remove_exact_duplicates ((l1 ++ r1 :: l2) ++ [r2])
  = remove_exact_duplicates (l1 ++ r1 :: l2).
Proof.
  intros Hnd HP. rewrite remove_exact_duplicates_snoc.
  assert (E : existsb (same_canonical_form r2) (l1 ++ r1 :: l2) = true).
  { apply existsb_exists. exists r1. split.
    - apply in_or_app. right. now left.
    - apply same_canonical_form_eq. symmetry.
      now apply CanonicalFacts.record_str_perm. }
  now rewrite E.
Qed.

(** Only records with the same items have the same canonical form. *)
Lemma record_str_same_items (r r' : record) :
  record_str r = record_str r' -> Permutation r r'.
Proof.
  unfold record_str. intros H.
  rewrite <- (CanonicalFacts.sorted_items_perm r).
  rewrite <- (CanonicalFacts.sorted_items_perm r').
  now rewrite H.
Qed.

(** A record none of whose predecessors has its items is kept. *)
Lemma remove_exact_duplicates_fresh (l : list record) (r : record) :
  (forall r', In r' l -> ~ Permutation r' r) ->
  remove_exact_duplicates (l ++ [r]) = remove_exact_duplicates l ++ [r].
Proof.
  intros Hfresh. rewrite remove_exact_duplicates_snoc.
  destruct (existsb (same_canonical_form r) l) eqn:E; [|reflexivity].
  exfalso. apply existsb_exists in E. destruct E as [x [Hx Hs]].
  apply same_canonical_form_eq in Hs.
  apply (Hfresh x Hx). symmetry. now apply record_str_same_items.
Qed.

(** A record one of whose predecessors has its items is dropped. *)
Lemma remove_exact_duplicates_copy (l : list record) (r r' : record) :
  In r' l -> NoDup (keys r') -> Permutation r' r ->
  remove_exact_duplicates (l ++ [r]) = remove_exact_duplicates l.
Proof.
  intros Hin Hnd HP. rewrite remove_exact_duplicates_snoc.
  assert (E : existsb (same_canonical_form r) l = true).
  { apply existsb_exists. exists r'. split; [exact Hin|].
    apply same_canonical_form_eq. symmetry.
    now apply CanonicalFacts.record_str_perm. }
  now rewrite E.
Qed.

(** C7. Exact-duplicate removal: the canonical form of a record is its
    items sorted by key; a record is dropped exactly when an earlier
    input record has the same canonical form, which for records with
    distinct keys means the same items in whatever insertion order;
    records with different items are kept apart; kept records stay in
    input order, so the output is a subsequence of the input that holds
    each canonical form once, the first time it occurs; two records with
    the same items in a different insertion order collapse to the first,
    wherever they stand in the input, as do {"a":1,"b":2} and
    {"b":2,"a":1}, while {"a":1,"b":3} stays. *)
Theorem remove_exact_duplicates_first_seen :
  remove_exact_duplicates [] = []
  /\ (forall l r,
        remove_exact_duplicates (l ++ [r])
        = if existsb (same_canonical_form r) l
          then remove_exact_duplicates l
          else remove_exact_duplicates l ++ [r])
  /\ (forall data, subsequence (remove_exact_duplicates data) data)
  /\ (forall data, NoDup (map record_str (remove_exact_duplicates data)))
  /\ (forall data r, In r data ->
        exists r', In r' (remove_exact_duplicates data)
                   /\ record_str r' = record_str r)
  /\ (forall r1 r2, NoDup (keys r1) -> Permutation r1 r2 ->
        record_str r1 = record_str r2
        /\ remove_exact_duplicates [r1; r2] = [r1])
  /\ (forall l1 l2 r1 r2, NoDup (keys r1) -> Permutation r1 r2 ->
        remove_exact_duplicates ((l1 ++ r1 :: l2) ++ [r2])
        = remove_exact_duplicates (l1 ++ r1 :: l2))
  /\ remove_exact_duplicates
       [ [("a", VNum 1); ("b", VNum 2)]; [("b", VNum 2); ("a", VNum 1)] ]
     = [ [("a", VNum 1); ("b", VNum 2)] ]
  /\ (forall r, Permutation (record_str r) r)
  /\ (forall r, NoDup (keys r) -> StronglySorted key_lt (record_str r))
  /\ (forall r r', record_str r = record_str r' -> Permutation r r')
  /\ (forall r r', same_canonical_form r r' = true -> Permutation r r')
  /\ (forall r r', NoDup (keys r) -> Permutation r r' ->
        same_canonical_form r r' = true)
  /\ (forall l r,
        (forall r', In r' l -> ~ Permutation r' r) ->
        remove_exact_duplicates (l ++ [r])
        = remove_exact_duplicates l ++ [r])
  /\ (forall l r r',
        In r' l -> NoDup (keys r') -> Permutation r' r ->
        remove_exact_duplicates (l ++ [r]) = remove_exact_duplicates l)
  /\ (forall data r1 r2,
        In r1 (remove_exact_duplicates data) ->
        In r2 (remove_exact_duplicates data) ->
        Permutation r1 r2 -> NoDup (keys r1) -> r1 = r2)
  /\ remove_exact_duplicates
       [ [("a", VNum 1); ("b", VNum 2)];
         [("a", VNum 1); ("b", VNum 3)];
         [("b", VNum 2); ("a", VNum 1)];
         [("a", VNum 1)];
         [("a", VStr "1"); ("b", VNum 2)] ]
     = [ [("a", VNum 1); ("b", VNum 2)];
         [("a", VNum 1); ("b", VNum 3)];
         [("a", VNum 1)];
         [("a", VStr "1"); ("b", VNum 2)] ].
Proof.
  split; [reflexivity|].
  split; [exact remove_exact_duplicates_snoc|].
  split; [exact remove_exact_duplicates_subsequence|].
  split; [exact remove_exact_duplicates_NoDup|].
  split; [exact remove_exact_duplicates_covers|].
  split.
  { intros r1 r2 Hnd HP. split.
    - now apply CanonicalFacts.record_str_perm.
    - now apply remove_exact_duplicates_reordered. }
  split; [exact remove_exact_duplicates_later_copy|].
  split; [reflexivity|].
  split; [exact CanonicalFacts.sorted_items_perm|].
  split; [exact CanonicalFacts.sorted_items_sorted|].
  split; [exact record_str_same_items|].
  split.
  { intros r r' H. apply record_str_same_items.
    now apply same_canonical_form_eq. }
  split.
  { intros r r' Hnd HP. apply same_canonical_form_eq.
    now apply CanonicalFacts.record_str_perm. }
  split; [exact remove_exact_duplicates_fresh|].
  split; [exact remove_exact_duplicates_copy|].
  split; [|reflexivity].
  intros data r1 r2 H1 H2 HP Hnd.
  pose proof (remove_exact_duplicates_NoDup data) as ND.
  pose proof (CanonicalFacts.record_str_perm r1 r2 Hnd HP) as Heq.
  revert H1 H2 ND. generalize (remove_exact_duplicates data).
  induction l as [|x l IH]; [intros []|].
  simpl. intros H1 H2 ND. inversion ND as [|? ? Hnotin ND']; subst.
  destruct H1 as [->|H1], H2 as [->|H2].
  - reflexivity.
  - exfalso. apply Hnotin. rewrite Heq. now apply in_map.
  - exfalso. apply Hnotin. rewrite <- Heq. now apply in_map.
  - now apply IH.
Qed.

(** The order of the items inside a nested mapping is part of the
    printed form: such records are not exact duplicates. *)
Example nested_order_is_kept :
  remove_exact_duplicates
    [ [("m", VDict [("x", VNum 1); ("y", VNum 2)])];
      [("m", VDict [("y", VNum 2); ("x", VNum 1)])] ]
  = [ [("m", VDict [("x", VNum 1); ("y", VNum 2)])];
      [("m", VDict [("y", VNum 2); ("x", VNum 1)])] ].
Proof. reflexivity. Qed.

End DedupFacts.

(** ** The basic quality filter *)

Module QualityFacts.
Import EvaluatorAgent.

(** *** White space and trimming *)

Lemma is_space_iff (c : ascii) :
  PyStr.is_space c = true <-> is_whitespace c.
Proof.
  unfold PyStr.is_space, is_whitespace, whitespace_codes.
  generalize (nat_of_ascii c). intros n. cbn [In].
  rewrite !Bool.orb_true_iff, !Bool.andb_true_iff, !Nat.leb_le, !Nat.eqb_eq.
  lia.
Qed.

Lemma is_space_false (c : ascii) :
  PyStr.is_space c = false <-> ~ is_whitespace c.
Proof.
  rewrite <- is_space_iff. destruct (PyStr.is_space c).
  - split; [discriminate|]. intros H. exfalso. now apply H.
  - split; [intros _ H; discriminate|reflexivity].
Qed.

Lemma lstrip_whitespace (a x : string) :
  all_whitespace a -> PyStr.lstrip (String.append a x) = PyStr.lstrip x.
Proof.
  induction a as [|c a IH]; [reflexivity|].
  intros [Hc Ha]. cbn [String.append PyStr.lstrip].
  apply is_space_iff in Hc. rewrite Hc. now apply IH.
Qed.

Lemma lstrip_all_whitespace (b : string) :
  all_whitespace b -> PyStr.lstrip b = "".
Proof.
  induction b as [|c b IH]; [reflexivity|].
  intros [Hc Hb]. cbn [PyStr.lstrip].
  apply is_space_iff in Hc. rewrite Hc. now apply IH.
Qed.

Lemma rstrip_all_whitespace (b : string) :
  all_whitespace b -> PyStr.rstrip b = "".
Proof.
  induction b as [|c b IH]; [reflexivity|].
  intros [Hc Hb]. cbn [PyStr.rstrip]. rewrite (IH Hb).
  apply is_space_iff in Hc. now rewrite Hc.
Qed.

Lemma rstrip_whitespace (t b : string) :
  all_whitespace b -> PyStr.rstrip (String.append t b) = PyStr.rstrip t.
Proof.
  intros Hb. induction t as [|c t IH].
  - cbn [String.append]. now rewrite rstrip_all_whitespace.
  - cbn [String.append PyStr.rstrip]. now rewrite IH.
Qed.

Lemma append_last_inv (front : string) (c d : ascii) (t : string) :
  String.append front (String c "") = String d t ->
  (front = "" /\ c = d /\ t = "")
  \/ exists front', front = String d front'
                    /\ String.append front' (String c "") = t.
Proof.
  destruct front as [|f front]; cbn [String.append]; intros H.
  - left. now inversion H.
  - right. inversion H; subst. now exists front.
Qed.

Lemma append_last_nonempty (front : string) (c : ascii) :
  String.append front (String c "") <> "".
Proof. destruct front; discriminate. Qed.

Lemma rstrip_id (t : string) :
  ~ ends_with_whitespace t -> PyStr.rstrip t = t.
Proof.
  induction t as [|c t IH]; [reflexivity|].
  intros Hend. cbn [PyStr.rstrip].
  destruct t as [|d t'].
  - cbn [PyStr.rstrip].
    destruct (PyStr.is_space c) eqn:Ec; [|reflexivity].
    exfalso. apply Hend. exists "", c. split; [reflexivity|].
    now apply is_space_iff.
  - rewrite IH; [reflexivity|].
    intros [front [e [Heq He]]]. apply Hend.
    exists (String c front), e. split; [|exact He].
    cbn [String.append]. now rewrite <- Heq.
Qed.

Lemma lstrip_split (s : string) :
  exists a, s = String.append a (PyStr.lstrip s)
            /\ all_whitespace a
            /\ ~ starts_with_whitespace (PyStr.lstrip s).
Proof.
  induction s as [|c s IH].
  - exists "". repeat split. intros [c [rest [H _]]]. discriminate.
  - cbn [PyStr.lstrip]. destruct (PyStr.is_space c) eqn:Ec.
    + destruct IH as [a [Hs [Ha Hn]]]. exists (String c a).
      cbn [String.append all_whitespace]. rewrite <- Hs.
      repeat split; auto. now apply is_space_iff.
    + exists "". repeat split.
      intros [d [rest [H Hd]]]. inversion H; subst.
      apply is_space_iff in Hd. congruence.
Qed.

Lemma rstrip_split (x : string) :
  exists b, x = String.append (PyStr.rstrip x) b
            /\ all_whitespace b
            /\ ~ ends_with_whitespace (PyStr.rstrip x).
Proof.
  induction x as [|c x IH].
  - exists "". repeat split. intros [front [c [H _]]].
    symmetry in H. now apply append_last_nonempty in H.
  - destruct IH as [b [Hx [Hb Hn]]]. cbn [PyStr.rstrip].
    destruct (PyStr.rstrip x) as [|d r] eqn:Er.
    + cbn [String.append] in Hx. subst b.
      destruct (PyStr.is_space c) eqn:Ec.
      * exists (String c x). cbn [String.append all_whitespace].
        split; [reflexivity|]. split; [split; [now apply is_space_iff|exact Hb]|].
        intros [front [e [H _]]].
        symmetry in H. now apply append_last_nonempty in H.
      * exists x. split; [reflexivity|]. split; [exact Hb|].
        intros [front [e [H He]]]. symmetry in H.
        apply append_last_inv in H.
        destruct H as [[_ [-> _]]|[front' [_ H]]].
        -- apply is_space_iff in He. congruence.
        -- now apply append_last_nonempty in H.
    + exists b.
      split; [cbn [String.append]; f_equal; exact Hx|]. split; [exact Hb|].
      intros [front [e [H He]]]. symmetry in H.
      apply append_last_inv in H.
      destruct H as [[_ [_ H]]|[front' [_ H]]]; [discriminate|].
      apply Hn. exists front', e. split; [now symmetry|exact He].
Qed.

Lemma rstrip_first (x : string) (c : ascii) (r : string) :
  PyStr.rstrip x = String c r -> exists x', x = String c x'.
Proof.
  destruct x as [|d x]; [discriminate|]. cbn [PyStr.rstrip].
  destruct (PyStr.rstrip x); [destruct (PyStr.is_space d)|];
    intros H; inversion H; subst; eauto.
Qed.

(** [str.strip] computes the trimmed string, and there is just one. *)
Lemma trimmed_iff (s t : string) : trimmed s t <-> PyStr.strip s = t.
Proof.
  unfold PyStr.strip. split.
  - intros [a [b [-> [Ha [Hb [Hstart Hend]]]]]].
    rewrite (lstrip_whitespace a _ Ha).
    destruct t as [|c t].
    + cbn [String.append]. now rewrite (lstrip_all_whitespace b Hb).
    + assert (Ec : PyStr.is_space c = false).
      { apply is_space_false. intros Hc. apply Hstart. now exists c, t. }
      cbn [String.append PyStr.lstrip]. rewrite Ec.
      change (String c (String.append t b))
        with (String.append (String c t) b).
      rewrite (rstrip_whitespace _ b Hb). now apply rstrip_id.
  - intros <-.
    destruct (lstrip_split s) as [a [Hs [Ha Hstart]]].
    destruct (rstrip_split (PyStr.lstrip s)) as [b [Hx [Hb Hend]]].
    exists a, b. repeat split; auto.
    + now rewrite <- Hx.
    + intros [c [rest [H Hc]]]. apply Hstart.
      destruct (rstrip_first _ _ _ H) as [x' Hx'].
      now exists c, x'.
Qed.

Lemma short_iff (s : string) :
  PyStr.len (PyStr.strip s) < 3
  <-> exists t, trimmed s t /\ Z.of_nat (String.length t) < 3.
Proof.
  split.
  - intros H. exists (PyStr.strip s). split; [now apply trimmed_iff|exact H].
  - intros [t [Ht H]]. apply trimmed_iff in Ht. now subst t.
Qed.

(** *** Letter case *)

Lemma lower_char_same (c : ascii) :
  same_char_ignoring_case c (PyStr.lower_char c).
Proof.
  unfold PyStr.lower_char, same_char_ignoring_case, capital_of.
  destruct ((65 <=? nat_of_ascii c) && (nat_of_ascii c <=? 90)
            || (192 <=? nat_of_ascii c) && (nat_of_ascii c <=? 222)
               && negb (nat_of_ascii c =? 215))%nat eqn:E; [|now left].
  right. left.
  rewrite !Bool.orb_true_iff, !Bool.andb_true_iff, Bool.negb_true_iff,
    !Nat.leb_le, Nat.eqb_neq in E.
  split; [lia|]. apply nat_ascii_embedding. lia.
Qed.

Lemma capital_lower_char (u l : ascii) :
  capital_of u l -> PyStr.lower_char u = l.
Proof.
  unfold capital_of, PyStr.lower_char. intros [Hu Hl].
  assert (E : ((65 <=? nat_of_ascii u) && (nat_of_ascii u <=? 90)
               || (192 <=? nat_of_ascii u) && (nat_of_ascii u <=? 222)
                  && negb (nat_of_ascii u =? 215))%nat = true).
  { rewrite !Bool.orb_true_iff, !Bool.andb_true_iff, Bool.negb_true_iff,
      !Nat.leb_le, Nat.eqb_neq. lia. }
  rewrite E, <- Hl. apply ascii_nat_embedding.
Qed.

Lemma capital_not_fixed (u l : ascii) :
  capital_of u l -> PyStr.lower_char u <> u.
Proof.
  intros H Hfix. rewrite (capital_lower_char u l H) in Hfix. subst l.
  destruct H as [_ H]. lia.
Qed.

Lemma same_char_lower (c d : ascii) :
  same_char_ignoring_case c d -> PyStr.lower_char d = d ->
  PyStr.lower_char c = d.
Proof.
  intros [->|[H|H]] Hd.
  - exact Hd.
  - now apply capital_lower_char.
  - exfalso. now apply (capital_not_fixed d c).
Qed.

Lemma lower_matches (s : string) : matches_ignoring_case s (PyStr.lower s).
Proof.
  induction s as [|c s IH]; [exact I|].
  cbn [PyStr.lower matches_ignoring_case]. split; [|exact IH].
  apply lower_char_same.
Qed.

Lemma matches_lower (s token : string) :
  matches_ignoring_case s token -> PyStr.lower token = token ->
  PyStr.lower s = token.
Proof.
  revert token. induction s as [|c s IH]; intros [|d token];
    cbn [matches_ignoring_case PyStr.lower]; try tauto.
  intros [Hc Hs] Hfix. inversion Hfix as [[Hd Htoken]].
  rewrite Hd, Htoken.
  f_equal; [now apply same_char_lower|now apply IH].
Qed.

Lemma placeholders_tokens : placeholders = placeholder_tokens.
Proof. reflexivity. Qed.

Lemma placeholders_lower (token : string) :
  In token placeholders -> PyStr.lower token = token.
Proof.
  unfold placeholders. simpl.
  intros [<-|[<-|[<-|[<-|[<-|[]]]]]]; reflexivity.
Qed.

(** [value.lower() in [...]] says that the value is one of the five
    placeholder tokens up to the case of its letters. *)
Lemma mem_placeholders (s : string) :
  PyStr.mem (PyStr.lower s) placeholders = true
  <-> exists token, In token placeholder_tokens
                    /\ matches_ignoring_case s token.
Proof.
  unfold PyStr.mem. rewrite existsb_exists, <- placeholders_tokens.
  split; intros [token [Hin H]]; exists token; split; auto.
  - apply String.eqb_eq in H. rewrite <- H. apply lower_matches.
  - apply String.eqb_eq. apply matches_lower; [exact H|].
    now apply placeholders_lower.
Qed.

(** The rule for a string, in the code's terms. *)
Lemma field_violates_str (s : string) :
  field_violates (VStr s)
  <-> PyStr.len (PyStr.strip s) < 3
      \/ PyStr.mem (PyStr.lower s) placeholders = true.
Proof.
  cbn [field_violates]. now rewrite short_iff, mem_placeholders.
Qed.

Lemma record_violates_nil : ~ record_violates [].
Proof. intros [k [v [[] _]]]. Qed.

Lemma record_violates_cons (k : string) (v : value) (rest : record) :
  record_violates ((k, v) :: rest)
  <-> field_violates v \/ record_violates rest.
Proof.
  unfold record_violates. split.
  - intros [k' [v' [[Heq|Hin] Hv]]].
    + inversion Heq; subst. now left.
    + right. eauto.
  - intros [Hv|[k' [v' [Hin Hv]]]].
    + exists k, v. split; [now left|exact Hv].
    + exists k', v'. split; [now right|exact Hv].
Qed.

(** The inner loop breaks exactly on a field that violates the rules. *)
Lemma items_valid_cons (k : string) (v : value) (rest : record) :
  items_valid ((k, v) :: rest) = true
  <-> ~ field_violates v /\ items_valid rest = true.
Proof.
  destruct v as [s|n|d].
  - rewrite field_violates_str. cbn [items_valid].
    destruct (PyStr.len (PyStr.strip s) <? 3) eqn:Elen.
    + apply Z.ltb_lt in Elen. split; [discriminate|].
      intros [H _]. exfalso. apply H. now left.
    + apply Z.ltb_ge in Elen.
      destruct (PyStr.mem (PyStr.lower s) placeholders) eqn:Emem.
      * split; [discriminate|]. intros [H _]. exfalso. apply H. now right.
      * split; [|now intros [_ H]].
        intros H. split; [|exact H].
        intros [Hlt|Hmatch]; [lia|discriminate].
  - cbn [items_valid field_violates].
    split; [intros H; split; auto|now intros [_ H]].
  - cbn [items_valid field_violates]. destruct d as [|kv d].
    + split; [discriminate|]. intros [H _]. now exfalso.
    + split; [intros H; split; [discriminate|exact H]|now intros [_ H]].
Qed.

Lemma field_violates_dec (v : value) :
  field_violates v \/ ~ field_violates v.
Proof.
  destruct v as [s|n|d].
  - rewrite field_violates_str.
    destruct (Z_lt_dec (PyStr.len (PyStr.strip s)) 3) as [Hlt|Hge];
      [left; now left|].
    destruct (PyStr.mem (PyStr.lower s) placeholders) eqn:Emem.
    + left. now right.
    + right. intros [H|H]; [lia|discriminate].
  - right. intros [].
  - destruct d; [now left|right; discriminate].
Qed.

Lemma items_valid_iff (r : record) :
  items_valid r = true <-> ~ record_violates r.
Proof.
  induction r as [|[k v] rest IH].
  - split; [intros _; apply record_violates_nil|reflexivity].
  - rewrite items_valid_cons, record_violates_cons, IH. tauto.
Qed.

(** The filter's verdict on one record is the rule set's. *)
Lemma items_valid_false_iff (r : record) :
  items_valid r = false <-> record_violates r.
Proof.
  split.
  - induction r as [|[k v] rest IH]; [discriminate|].
    intros H. apply record_violates_cons.
    destruct (field_violates_dec v) as [Hv|Hv]; [now left|right].
    apply IH. destruct (items_valid rest) eqn:E; [|reflexivity].
    assert (items_valid ((k, v) :: rest) = true); [|congruence].
    apply items_valid_cons. now split.
  - intros Hv. destruct (items_valid r) eqn:E; [|reflexivity].
    exfalso. now apply (proj1 (items_valid_iff r)).
Qed.

Lemma basic_quality_check_acc (data acc : list record) :
  fold_left (fun valid_records r =>
               if items_valid r then valid_records ++ [r] else valid_records)
            data acc
  = acc ++ filter items_valid data.
Proof.
  revert acc. induction data as [|r data IH]; intros acc; simpl.
  - now rewrite app_nil_r.
  - rewrite IH. destruct (items_valid r); [|reflexivity].
    now rewrite <- app_assoc.
Qed.

(** The filter keeps, in order, the records whose inner loop ends
    without a [break]. *)
Lemma basic_quality_check_filter (data : list record) (fmt : string) :
  basic_quality_check data fmt = filter items_valid data.
Proof. unfold basic_quality_check. now rewrite basic_quality_check_acc. Qed.

Lemma filter_subsequence {A : Type} (f : A -> bool) (l : list A) :
  subsequence (filter f l) l.
Proof.
  induction l as [|x l IH]; simpl; [constructor|].
  destruct (f x); now constructor.
Qed.

Lemma basic_quality_check_length (data : list record) (fmt : string) :
  len (basic_quality_check data fmt) <= len data.
Proof.
  rewrite basic_quality_check_filter. unfold len.
  apply Nat2Z.inj_le.
  exact (subsequence_length _ _ (filter_subsequence items_valid data)).
Qed.




End QualityFacts.

(** ** The Batch Generation stage *)

Module GenerationFacts.
Import GeneratorAgent.

(** The three ways [generate_data_batch] returns; it never raises. *)
Lemma generate_data_batch_cases env self state w :
  exists state' w',
    generate_data_batch env self state w = (Ok state', w')
    /\ ((num_records state - len (generated_data state) <= 0
         /\ state' = set_status "generation_completed" state
         /\ w' = w)
        \/ (0 < num_records state - len (generated_data state)
            /\ exists msg,
                 state' = set_error_message (Some msg)
                            (set_status "generation_failed" state))
        \/ (0 < num_records state - len (generated_data state)
            /\ exists batch,
                 batch <> []
                 /\ generated_data state' = generated_data state ++ batch
                 /\ current_batch state' = current_batch state + 1
                 /\ total_batches state' = total_batches state
                 /\ num_records state' = num_records state
                 /\ file_path state' = file_path state
                 /\ (status state' = "generation_completed"
                     \/ status state' = "generating"))).
Proof.
  unfold generate_data_batch, try_except, bind.
  destruct (num_records state - len (generated_data state) <=? 0) eqn:Erem.
  - apply Z.leb_le in Erem. unfold ret. eauto 10.
  - apply Z.leb_gt in Erem.
    destruct (LLMService.generate_synthetic_data env (domain state)
                (data_format state)
                (Z.min (batch_size self)
                   (num_records state - len (generated_data state)))
                (parse_research (domain_research state))
                (context state) w) as [[batch|e] w1] eqn:Ecall.
    + destruct batch as [|r batch].
      * unfold ret. do 2 eexists. split; [reflexivity|].
        right; left. eauto.
      * match goal with
        | |- context [if ?c then _ else _] => destruct c
        end; unfold ret; do 2 eexists; (split; [reflexivity|]);
          right; right; (split; [exact Erem|]);
          exists (r :: batch); simpl; repeat split; auto; discriminate.
    + unfold ret. do 2 eexists. split; [reflexivity|].
      right; left. eauto.
Qed.

(** What [__call__] adds: the batch counters are set when
    [total_batches] is 0, then the batch is generated. *)
Lemma call_unfold env self state w :
  call env self state w
  = if total_batches state =? 0 then
      match calculate_batches self (num_records state) None with
      | Ok n => generate_data_batch env self
                  (set_current_batch 0 (set_total_batches n state)) w
      | Raise e => (Raise e, w)
      end
    else generate_data_batch env self state w.
Proof.
  unfold call, bind, ret, lift.
  destruct (total_batches state =? 0); [|reflexivity].
  destruct (calculate_batches self (num_records state) None); reflexivity.
Qed.

Lemma call_keeps_records env self state w state' w' :
  call env self state w = (Ok state', w') ->
  is_prefix (generated_data state) (generated_data state').
Proof.
  rewrite call_unfold. intros H.
  assert (G : forall st, generated_data st = generated_data state ->
              generate_data_batch env self st w = (Ok state', w') ->
              is_prefix (generated_data state) (generated_data state')).
  { intros st Hst Hrun.
    destruct (generate_data_batch_cases env self st w)
      as [st1 [w1 [E Hcases]]].
    rewrite E in Hrun. inversion Hrun; subst st1 w1. rewrite <- Hst.
    destruct Hcases as [[_ [-> _]]|[[_ [msg ->]]|[_ [batch [_ [-> _]]]]]];
      simpl; (apply is_prefix_refl || apply is_prefix_app). }
  destruct (total_batches state =? 0).
  - destruct (calculate_batches self (num_records state) None);
      [|discriminate].
    eapply G; [|exact H]. reflexivity.
  - eapply G; [|exact H]. reflexivity.
Qed.

(** After the first entry the agent's entry point is
    [generate_data_batch]: with the quota met it changes the status
    only. *)
Lemma call_quota_met env self state w state' w' :
  total_batches state <> 0 ->
  num_records state - len (generated_data state) <= 0 ->
  call env self state w = (Ok state', w') ->
  state' = set_status "generation_completed" state /\ w' = w.
Proof.
  intros Htb Hrem. rewrite call_unfold.
  apply Z.eqb_neq in Htb. rewrite Htb. intros H.
  destruct (generate_data_batch_cases env self state w)
    as [st1 [w1 [E Hcases]]].
  rewrite E in H. inversion H; subst st1 w1.
  destruct Hcases as [[_ [-> ->]]|[[Hpos _]|[Hpos _]]]; [auto|lia|lia].
Qed.

(** C6. A Batch Generation stage call keeps the records generated so
    far: [generate_data_batch] always returns a state whose
    [generated_data] starts with the input's (so its length does not
    decrease), and so does the agent's entry point whenever it
    returns; when the quota is already met on entry the stage only
    sets the status "generation_completed", leaving [generated_data],
    [current_batch] and [total_batches] as they were and calling no
    collaborator (through the entry point too, once the batch counters
    are initialised). *)
Theorem generate_data_batch_keeps_records :
  forall env self state w,
    (exists state' w',
       generate_data_batch env self state w = (Ok state', w')
       /\ is_prefix (generated_data state) (generated_data state')
       /\ len (generated_data state) <= len (generated_data state')
       /\ (num_records state - len (generated_data state) <= 0 ->
           status state' = "generation_completed"
           /\ generated_data state' = generated_data state
           /\ current_batch state' = current_batch state
           /\ total_batches state' = total_batches state
           /\ w' = w))
    /\ (forall state' w',
          call env self state w = (Ok state', w') ->
          is_prefix (generated_data state) (generated_data state'))
    /\ (forall state' w',
          total_batches state <> 0 ->
          num_records state - len (generated_data state) <= 0 ->
          call env self state w = (Ok state', w') ->
          status state' = "generation_completed"
          /\ generated_data state' = generated_data state
          /\ current_batch state' = current_batch state
          /\ total_batches state' = total_batches state
          /\ w' = w).
Proof.
  intros env self state w. split; [|split].
  - destruct (generate_data_batch_cases env self state w)
      as [state' [w' [E Hcases]]].
    exists state', w'. split; [exact E|].
    assert (P : is_prefix (generated_data state) (generated_data state')).
    { destruct Hcases
        as [[_ [-> _]]|[[_ [msg ->]]|[_ [batch [_ [-> _]]]]]];
        simpl; (apply is_prefix_refl || apply is_prefix_app). }
    split; [exact P|]. split; [now apply is_prefix_len|].
    intros Hrem.
    destruct Hcases as [[_ [-> ->]]|[[Hpos _]|[Hpos _]]]; [|lia|lia].
    simpl. repeat split; reflexivity.
  - intros state' w'. apply call_keeps_records.
  - intros state' w' Htb Hrem Hcall.
    destruct (call_quota_met env self state w state' w' Htb Hrem Hcall)
      as [-> ->].
    simpl. repeat split; reflexivity.
Qed.

End GenerationFacts.

(** ** The Evaluation stage *)

Module EvaluationFacts.
Import EvaluatorAgent.

(** C3. When the call of the evaluation service raises, for whatever
    records were passed to the model-based tier, [evaluate_with_llm]
    runs exact-duplicate removal and the basic quality filter on those
    records and returns the report made of the filtered records, the
    number of records removed as duplicates, the single issue "Basic
    validation only - LLM evaluation failed", and a pass flag that is
    true exactly when a record is left. *)
Theorem evaluate_with_llm_fallback :
  forall env data fmt w e w',
    LLMService.evaluate_data_quality env data fmt w = (Raise e, w') ->
    exists report,
      evaluate_with_llm env data fmt w = (Ok report, w')
      /\ valid_records report
         = basic_quality_check (remove_exact_duplicates data) fmt
      /\ duplicate_count report
         = len data - len (remove_exact_duplicates data)
      /\ 0 <= duplicate_count report
      /\ quality_issues report
         = ["Basic validation only - LLM evaluation failed"]
      /\ (passed_validation report = true
          <-> 0 < len (valid_records report)).
Proof.
  intros env data fmt w e w' Hraise.
  unfold evaluate_with_llm, try_except, bind. rewrite Hraise.
  unfold ret. eexists. split; [reflexivity|]. simpl.
  repeat split; try reflexivity.
  - pose proof (DedupFacts.remove_exact_duplicates_length data). lia.
  - apply Z.ltb_lt.
  - apply Z.ltb_lt.
Qed.

(** A failure of the model call itself does not leave the evaluation
    service: the service answers with its own report, which
    [evaluate_with_llm] passes on. *)
Lemma model_failure_stays_in_service env data fmt w e :
  with_structured_output env (clock w) = Ok tt ->
  ainvoke_evaluate env (S (clock w)) data fmt = Raise e ->
  exists report w',
    evaluate_with_llm env data fmt w = (Ok report, w')
    /\ valid_records report = data
    /\ duplicate_count report = 0
    /\ quality_issues report
       = ["LLM evaluation failed - using basic validation"].
Proof.
  intros Hclient Hmodel.
  unfold evaluate_with_llm, LLMService.evaluate_data_quality.
  unfold_m. simpl. rewrite Hclient. simpl. rewrite Hmodel.
  do 2 eexists. split; [reflexivity|]. simpl. auto.
Qed.

(** The two ways [evaluate_and_save] returns; it never raises. *)
Lemma evaluate_and_save_cases env state w :
  exists state' w',
    evaluate_and_save env state w = (Ok state', w')
    /\ ((exists msg,
           state' = set_error_message (Some msg)
                      (set_status "evaluation_failed" state)
           /\ (msg = "No valid records after evaluation"
               \/ exists e, msg = String.append "Evaluation failed: " e))
        \/ (exists final path,
              final <> []
              /\ state' = set_status "completed"
                            (set_file_path (Some path)
                               (set_generated_data final state)))).
Proof.
  unfold evaluate_and_save, try_except, bind.
  destruct (evaluate_with_llm env
              (basic_quality_check
                 (remove_exact_duplicates (generated_data state))
                 (data_format state))
              (data_format state) w) as [[report|e] w1] eqn:Eeval.
  - destruct (valid_records report) as [|r final] eqn:Efinal.
    + unfold ret. do 2 eexists. split; [reflexivity|]. left. eauto.
    + destruct (FileService.save_to_csv env (r :: final) (domain state)
                  (data_format state) w1) as [[path|e] w2] eqn:Esave.
      * unfold ret. do 2 eexists. split; [reflexivity|]. right.
        exists (r :: final), path. split; [discriminate|reflexivity].
      * unfold ret. do 2 eexists. split; [reflexivity|]. left. eauto.
  - unfold ret. do 2 eexists. split; [reflexivity|]. left. eauto.
Qed.

(** C10. The full Evaluation pass fails without touching the data: it
    always returns, with status "evaluation_failed" or "completed";
    when the status is "evaluation_failed" (no valid record, or an
    exception such as a failed write) [generated_data] and [file_path]
    are those of the entry state and the message is "No valid records
    after evaluation" or carries the exception; [generated_data] is
    replaced only together with a file path and status "completed". *)
Theorem evaluate_and_save_atomic :
  forall env state w,
    exists state' w',
      evaluate_and_save env state w = (Ok state', w')
      /\ (status state' = "evaluation_failed" \/ status state' = "completed")
      /\ (status state' = "evaluation_failed" ->
          generated_data state' = generated_data state
          /\ file_path state' = file_path state
          /\ (error_message state'
              = Some "No valid records after evaluation"
              \/ exists e,
                   error_message state'
                   = Some (String.append "Evaluation failed: " e)))
      /\ (status state' = "completed" ->
          generated_data state' <> []
          /\ exists path, file_path state' = Some path)
      /\ (generated_data state' <> generated_data state ->
          status state' = "completed" /\ file_path state' <> None).
Proof.
  intros env state w.
  destruct (evaluate_and_save_cases env state w)
    as [state' [w' [E [[msg [-> Hmsg]]|[final [path [Hne ->]]]]]]];
    eexists; exists w'; (split; [exact E|]); simpl.
  - split; [now left|]. split; [|split].
    + intros _. split; [reflexivity|]. split; [reflexivity|].
      destruct Hmsg as [->|[e ->]]; [now left|right; exists e; reflexivity].
    + discriminate.
    + intros H. now exfalso.
  - split; [now right|]. split; [discriminate|]. split.
    + intros _. split; [exact Hne|eauto].
    + intros _. split; [reflexivity|discriminate].
Qed.

End EvaluationFacts.

(** ** The orchestrator *)

Module WorkflowFacts.
Import SyntheticDataWorkflow.

(** The Research stage always returns, with one of its two statuses,
    and leaves the records and the file path alone. *)
Lemma research_node_effect env state w :
  exists state' w',
    research_node env state w = (Ok state', w')
    /\ file_path state' = file_path state
    /\ generated_data state' = generated_data state
    /\ total_batches state' = total_batches state
    /\ num_records state' = num_records state
    /\ ((status state' = "research_completed"
         /\ error_message state' = error_message state)
        \/ (status state' = "research_failed"
            /\ exists e, error_message state'
                         = Some (String.append "Research failed: " e))).
Proof.
  unfold research_node, ResearchAgent.call, ResearchAgent.research_domain.
  unfold try_except at 1.
  match goal with
  | |- context [match ?m w with _ => _ end] =>
      destruct (m w) as [[st1|e] w1] eqn:E
  end.
  - unfold bind in E.
    repeat match type of E with
           | context [match ?x with _ => _ end] =>
               destruct x as [[?|?] ?]; try discriminate
           end.
    unfold ret in E. inversion E; subst.
    do 2 eexists. split; [reflexivity|]. simpl. auto 10.
  - unfold ret. do 2 eexists. split; [reflexivity|]. simpl.
    repeat split; auto. right. split; [reflexivity|]. now exists e.
Qed.

(** The Batch Generation stage, when it returns, leaves one of its
    three statuses and does not touch the file path. *)
Lemma generate_node_effect env self state w state' w' :
  generate_node env self state w = (Ok state', w') ->
  file_path state' = file_path state
  /\ (status state' = "generation_completed"
      \/ status state' = "generation_failed"
      \/ status state' = "generating").
Proof.
  unfold generate_node. rewrite GenerationFacts.call_unfold.
  assert (G : forall st, file_path st = file_path state ->
              GeneratorAgent.generate_data_batch env (generator_agent self)
                st w = (Ok state', w') ->
              file_path state' = file_path state
              /\ (status state' = "generation_completed"
                  \/ status state' = "generation_failed"
                  \/ status state' = "generating")).
  { intros st Hst Hrun.
    destruct (GenerationFacts.generate_data_batch_cases env
                (generator_agent self) st w) as [st1 [w1 [E Hcases]]].
    rewrite E in Hrun. inversion Hrun; subst st1 w1. rewrite <- Hst.
    destruct Hcases
      as [[_ [-> _]]|[[_ [msg ->]]
                     |[_ [batch [_ [_ [_ [_ [_ [Hfp Hst']]]]]]]]]];
      simpl; auto.
    split; [exact Hfp|]. destruct Hst'; auto. }
  destruct (total_batches state =? 0).
  - destruct (GeneratorAgent.calculate_batches _ _ _); [|discriminate].
    apply G. reflexivity.
  - apply G. reflexivity.
Qed.

(** The Evaluation node always returns: either the file path is
    untouched and the status is "evaluation_failed" or "generating",
    or a path is set together with the status "completed". *)
Lemma evaluate_node_effect env state w :
  exists state' w',
    evaluate_node env state w = (Ok state', w')
    /\ ((file_path state' = file_path state
         /\ (status state' = "evaluation_failed"
             \/ status state' = "generating"))
        \/ (exists path, file_path state' = Some path)
           /\ status state' = "completed").
Proof.
  unfold evaluate_node, EvaluatorAgent.call.
  destruct (_ || _).
  - destruct (EvaluationFacts.evaluate_and_save_cases env state w)
      as [state' [w' [E [[msg [-> _]]|[final [path [_ ->]]]]]]];
      do 2 eexists; (split; [exact E|]); simpl.
    + left. auto.
    + right. split; [now exists path|reflexivity].
  - unfold ret. do 2 eexists. split; [reflexivity|]. simpl. left. auto.
Qed.

Lemma exec_node_unfold env self n state w :
  exec_node env self n state w
  = match n with
    | Research => research_node env state
    | Generate => generate_node env self state
    | Evaluate => evaluate_node env state
    | END => ret state
    end {| clock := clock w; trace := trace w ++ [EvNode n] |}.
Proof. reflexivity. Qed.

Lemma continue_not_completed (state : GenerationState) :
  next_node Evaluate state = Some Generate ->
  status state <> "completed".
Proof.
  unfold next_node, should_continue_generation.
  destruct (PyStr.mem _ _); [discriminate|].
  destruct (String.eqb (status state) "completed") eqn:E; [discriminate|].
  intros _. now apply String.eqb_neq.
Qed.

Lemma next_node_after_evaluate (state : GenerationState) (nd : node) :
  next_node Evaluate state = Some nd -> nd = Generate \/ nd = END.
Proof.
  unfold next_node.
  destruct (should_continue_generation_rows state) as [-> | ->];
    simpl; intros H; inversion H; auto.
Qed.

Lemma reachable_file_invariant env self d f n c nd state :
  reachable env self d f n c nd state -> file_invariant nd state.
Proof.
  induction 1 as [|nd st w st' w' nd' Hreach IH Hexec Hnext].
  - simpl. split; [reflexivity|discriminate].
  - rewrite exec_node_unfold in Hexec.
    destruct nd; simpl in IH, Hnext.
    + (* research *)
      inversion Hnext; subst nd'.
      destruct (research_node_effect env st
                  {| clock := clock w; trace := trace w ++ [EvNode Research] |})
        as [st1 [w1 [E [Hfp [_ [_ [_ Hst]]]]]]].
      rewrite E in Hexec. inversion Hexec; subst st1 w1.
      simpl. split; [rewrite Hfp; tauto|].
      destruct Hst as [[-> _]|[-> _]]; discriminate.
    + (* generate *)
      inversion Hnext; subst nd'.
      apply generate_node_effect in Hexec. destruct Hexec as [Hfp Hst].
      simpl. split; [rewrite Hfp; tauto|].
      destruct Hst as [-> |[-> | ->]]; discriminate.
    + (* evaluate *)
      destruct (evaluate_node_effect env st
                  {| clock := clock w; trace := trace w ++ [EvNode Evaluate] |})
        as [st1 [w1 [E Hcases]]].
      rewrite E in Hexec. inversion Hexec; subst st1 w1.
      destruct (next_node_after_evaluate _ _ Hnext) as [-> | ->]; simpl.
      * pose proof (continue_not_completed _ Hnext) as Hnc.
        split; [|exact Hnc].
        destruct Hcases as [[Hfp _]|[_ Hst]]; [|contradiction].
        rewrite Hfp. tauto.
      * destruct Hcases as [[Hfp Hst]|[[path Hfp] Hst]].
        { rewrite Hfp. destruct IH as [-> _].
          split; [intros H; now exfalso|].
          destruct Hst as [-> | ->]; discriminate. }
        { rewrite Hfp, Hst. split; [reflexivity|discriminate]. }
    + (* END *)
      unfold ret in Hexec. inversion Hexec; subst.
      inversion Hnext; subst. exact IH.
Qed.

Lemma file_invariant_iff (nd : node) (state : GenerationState) :
  file_invariant nd state ->
  (file_path state <> None <-> status state = "completed").
Proof.
  destruct nd; simpl; try tauto.
Qed.

(** What [run_from] returns is a state of the graph at its exit. *)
Lemma run_from_reachable env self d f n c fuel :
  forall nd state w,
    reachable env self d f n c nd state ->
    match run_from env self fuel nd state w with
    | (Ok state', _) => reachable env self d f n c END state'
    | (Raise _, _) => True
    end.
Proof.
  induction fuel as [|fuel IH]; intros nd state w Hreach.
  - destruct nd; simpl; auto.
  - assert (Step :
      nd <> END ->
      match (bind (exec_node env self nd state)
               (fun state' =>
                  match next_node nd state' with
                  | Some n' => run_from env self fuel n' state'
                  | None => throw "KeyError"
                  end)) w with
      | (Ok state', _) => reachable env self d f n c END state'
      | (Raise _, _) => True
      end).
    { intros _. unfold bind at 1.
      destruct (exec_node env self nd state w) as [[st1|e] w1] eqn:E;
        [|exact I].
      destruct (next_node nd st1) as [nd'|] eqn:En; [|exact I].
      apply IH. eapply reach_step; eassumption. }
    destruct nd; try (apply Step; discriminate).
    simpl. exact Hreach.
Qed.

(** [run_workflow] returns a state of the run. *)
Lemma run_workflow_run_state env self d f n c w :
  run_state env self d f n c (fst (run_workflow env self d f n c w)).
Proof.
  unfold run_workflow, ainvoke.
  pose proof (run_from_reachable env self d f n c (recursion_limit self)
                Research (new_state d f n c "pending" None) w
                (reach_entry env self d f n c)) as H.
  destruct (run_from env self (recursion_limit self) Research
              (new_state d f n c "pending" None) w) as [[st|e] w1]; simpl.
  - eapply in_graph. exact H.
  - apply caught.
Qed.


End WorkflowFacts.

(** ** Binary64 division and the ceiling *)

Module FloatFacts.
Import PyFloat.

Lemma ceil_div_spec a b : 0 < b -> (ceil_div a b - 1) * b < a <= ceil_div a b * b.
Proof.
  intros Hb. unfold ceil_div.
  pose proof (Z.div_mod (- a) b ltac:(lia)) as E.
  pose proof (Z.mod_pos_bound (- a) b Hb) as B.
  nia.
Qed.

Lemma ceil_div_unique a b c : 0 < b -> (c - 1) * b < a <= c * b -> ceil_div a b = c.
Proof.
  intros Hb H. pose proof (ceil_div_spec a b Hb) as S.
  assert (ceil_div a b < c + 1) by nia.
  assert (c < ceil_div a b + 1) by nia.
  lia.
Qed.

Lemma round_half_even_cases n d :
  0 < d ->
  let q := n / d in let r := n mod d in
  n = d * q + r /\ 0 <= r < d /\
  ((round_half_even n d = q /\ 2 * r <= d) \/ (round_half_even n d = q + 1 /\ d <= 2 * r)).
Proof.
  intros Hd q r. 
  pose proof (Z.div_mod n d ltac:(lia)) as E.
  pose proof (Z.mod_pos_bound n d Hd) as B.
  split; [exact E|]. split; [exact B|].
  unfold round_half_even. fold q r.
  destruct (d <? 2 * r) eqn:E1; cbn [orb andb].
  - apply Z.ltb_lt in E1. right. split; [reflexivity|lia].
  - apply Z.ltb_ge in E1. destruct (d =? 2 * r) eqn:E2; cbn [orb andb].
    + apply Z.eqb_eq in E2.
      destruct (Z.odd q); [right|left]; (split; [reflexivity|lia]).
    + left. split; [reflexivity|lia].
Qed.

Lemma round_half_even_up n d : 0 < d -> d < 2 * (n mod d) -> round_half_even n d = n / d + 1.
Proof.
  intros Hd H. unfold round_half_even. apply Z.ltb_lt in H. now rewrite H.
Qed.

(** The heart of the matter: rounding the quotient to 53 bits and then
    taking the ceiling gives the ceiling of the exact quotient, as long
    as the dividend is at most [2 ^ 53]. [P] is the weight of the last
    bit kept; the quotient is normal ([b * 2 ^ 52 <= a * P]) or the
    divisor is below twice that weight. *)
Lemma round_ceil (a b P : Z) :
  0 < a -> 0 < b -> 0 < P -> a <= 2 ^ 53 ->
  (b * 2 ^ 52 <= a * P \/ b < 2 * P) ->
  ceil_div (round_half_even (a * P) b) P = ceil_div a b.
Proof.
  intros Ha Hb HP Ha53 Hcase.
  pose proof (ceil_div_spec a b Hb) as [Clo Chi].
  set (c := ceil_div a b) in *.
  destruct (round_half_even_cases (a * P) b Hb) as [E [B R]].
  set (q := a * P / b) in *. set (r := (a * P) mod b) in *.
  apply ceil_div_unique; [exact HP|].
  assert (Hq_hi : q <= c * P).
  { apply Z.div_le_upper_bound; [lia|]. nia. }
  assert (Hq_lo : (c - 1) * P <= q).
  { apply Z.div_le_lower_bound; [lia|]. nia. }
  split.
  - (* lower *)
    destruct (Z.eq_dec q ((c - 1) * P)) as [Hq|Hq].
    + (* must round up *)
      assert (Hr : P <= r) by nia.
      assert (H2P : b < 2 * P).
      { destruct Hcase as [Hn|Hs]; [|exact Hs].
        assert (2 ^ 52 <= q) by (apply Z.div_le_lower_bound; lia).
        destruct (Z_lt_le_dec b (2 * P)) as [?|Hge]; [assumption|exfalso].
        assert (2 ^ 53 <= 2 * q) by lia.
        assert ((c - 1) * b < a) by lia.
        assert (0 <= c - 1) by nia.
        nia. }
      rewrite round_half_even_up; [lia|lia|fold r; lia].
    + destruct R as [[-> _]|[-> _]]; lia.
  - (* upper *)
    destruct (Z.eq_dec q (c * P)) as [Hq|Hq].
    + assert (r = 0) by nia.
      destruct R as [[-> _]|[-> ?]]; lia.
    + destruct R as [[-> _]|[-> _]]; lia.
Qed.

Lemma scale_nonpos a b e : e <= 0 -> scale a b e = (a * 2 ^ (- e), b).
Proof.
  intros He. unfold scale. destruct (0 <=? e) eqn:E; [|reflexivity].
  apply Z.leb_le in E. assert (e = 0) by lia. subst e.
  simpl. f_equal; lia.
Qed.

Lemma ceil_nonpos m e : e <= 0 -> ceil (mkFloat m e) = ceil_div m (2 ^ (- e)).
Proof.
  intros He. unfold ceil, ceil_div. simpl.
  destruct (0 <=? e) eqn:E; [|reflexivity].
  apply Z.leb_le in E. assert (e = 0) by lia. subst e.
  simpl. rewrite Z.div_1_r. lia.
Qed.

Lemma quotient_exponent_props a b :
  0 < a -> 0 < b -> Z.log2 a - Z.log2 b <= 52 -> b <= 2 ^ 1074 ->
  let e := quotient_exponent a b in
  e <= 0 /\ (b * 2 ^ 52 <= a * 2 ^ (- e) \/ b < 2 * 2 ^ (- e)).
Proof.
  intros Ha Hb Hlog Hb74. unfold quotient_exponent.
  set (e0 := Z.log2 a - Z.log2 b - 53).
  assert (He0 : e0 <= -1) by (unfold e0; lia).
  rewrite scale_nonpos by lia.
  destruct (Z.log2_spec a Ha) as [La _].
  destruct (Z.log2_spec b Hb) as [_ Lb].
  pose proof (Z.log2_nonneg a) as Na. pose proof (Z.log2_nonneg b) as Nb.
  assert (N0 : b * 2 ^ 52 <= a * 2 ^ (- e0)).
  { assert (E : 2 ^ Z.log2 a * 2 ^ (- e0) = 2 ^ Z.succ (Z.log2 b) * 2 ^ 52).
    { rewrite <- !Z.pow_add_r by lia. f_equal. unfold e0. lia. }
    assert (0 < 2 ^ (- e0)) by (apply Z.pow_pos_nonneg; lia).
    assert (0 < 2 ^ 52) by (apply Z.pow_pos_nonneg; lia).
    nia. }
  set (e1 := if 2 ^ 53 <=? a * 2 ^ (- e0) / b then e0 + 1 else e0).
  assert (H1 : e1 <= 0 /\ b * 2 ^ 52 <= a * 2 ^ (- e1)).
  { unfold e1. destruct (2 ^ 53 <=? a * 2 ^ (- e0) / b) eqn:E.
    - apply Z.leb_le in E. split; [lia|].
      assert (E2 : 2 ^ (- e0) = 2 * 2 ^ (- (e0 + 1))).
      { replace (- e0) with (1 + - (e0 + 1)) at 1 by lia.
        rewrite Z.pow_add_r by lia. reflexivity. }
      pose proof (Z.mul_div_le (a * 2 ^ (- e0)) b Hb) as D.
      assert (b * 2 ^ 53 <= a * 2 ^ (- e0)) by nia.
      change (2 ^ 53) with (2 * 2 ^ 52) in H.
      rewrite E2 in H. lia.
    - split; [lia|exact N0]. }
  destruct H1 as [H1 H2].
  unfold emin.
  destruct (Z.max_spec e1 (-1074)) as [[Hlt ->]|[Hle ->]].
  - split; [lia|]. right. change (- -1074) with 1074.
    assert (0 < 2 ^ 1074) by (apply Z.pow_pos_nonneg; lia). lia.
  - split; [lia|]. now left.
Qed.


Lemma ceil_div_1 m : ceil_div m 1 = m.
Proof. unfold ceil_div. rewrite Z.div_1_r. lia. Qed.

Lemma log2_gap a b :
  1 <= a <= 2 ^ 53 -> 1 <= b -> ~ (a = 2 ^ 53 /\ b = 1) ->
  Z.log2 a - Z.log2 b <= 52.
Proof.
  intros Ha Hb Hne.
  pose proof (Z.log2_nonneg b) as Nb.
  destruct (Z.eq_dec a (2 ^ 53)) as [->|Hlt].
  - rewrite Z.log2_pow2 by lia.
    assert (2 <= b) by (destruct (Z.eq_dec b 1); [tauto|lia]).
    pose proof (Z.log2_le_mono 2 b ltac:(lia)) as L.
    change (Z.log2 2) with 1 in L. lia.
  - assert (a < 2 ^ 53) by lia.
    apply Z.log2_lt_pow2 in H; lia.
Qed.

(** [math.ceil(a / b)] is the exact ceiling for [a] up to [2 ^ 53]
    and [b] up to [2 ^ 1074]. *)
Lemma true_divide_ceil a b :
  1 <= a <= 2 ^ 53 -> 1 <= b <= 2 ^ 1074 ->
  exists q, true_divide a b = Ok q /\ ceil q = ceil_div a b.
Proof.
  intros Ha Hb.
  destruct (Z.eq_dec a (2 ^ 53)) as [Ea|Ea];
    [destruct (Z.eq_dec b 1) as [Eb|Eb]|].
  { subst. eexists. split; vm_compute; reflexivity. }
  all: assert (Hlog : Z.log2 a - Z.log2 b <= 52)
         by (apply log2_gap; lia || tauto).
  all: destruct (quotient_exponent_props a b ltac:(lia) ltac:(lia) Hlog
                   ltac:(lia)) as [He Hcase].
  all: unfold true_divide.
  all: destruct (Z.eqb_spec b 0) as [?|_]; [lia|].
  all: destruct (Z.eqb_spec a 0) as [?|_]; [lia|].
  all: rewrite (Z.abs_eq a), (Z.abs_eq b) by lia.
  all: unfold div_pos.
  all: set (e := quotient_exponent a b) in *.
  all: rewrite scale_nonpos by exact He.
  all: set (m := round_half_even (a * 2 ^ (- e)) b).
  all: assert (HP : 0 < 2 ^ (- e)) by (apply Z.pow_pos_nonneg; lia).
  all: assert (Hm : ceil_div m (2 ^ (- e)) = ceil_div a b)
         by (apply round_ceil; lia || assumption).
  all: assert (Hov : (0 <=? e) && (2 ^ 1024 <=? m * 2 ^ e) = false).
  1,3: destruct (0 <=? e) eqn:E0; [|reflexivity];
       apply Z.leb_le in E0; assert (e = 0) by lia;
       cbn [andb]; apply Z.leb_gt;
       replace (2 ^ e) with 1 by (subst e; reflexivity || (rewrite H; reflexivity));
       rewrite H in Hm; change (2 ^ (- 0)) with 1 in Hm;
       rewrite ceil_div_1 in Hm;
       pose proof (ceil_div_spec a b ltac:(lia)) as [Clo _];
       assert (m <= a) by nia;
       assert (2 ^ 53 < 2 ^ 1024) by (apply Z.pow_lt_mono_r; lia);
       lia.
  all: rewrite Hov.
  all: eexists; split; [reflexivity|].
  all: cbn [mant expo].
  all: rewrite !Z.sgn_pos by lia.
  all: replace (1 * 1 * m) with m by lia.
  all: rewrite ceil_nonpos by exact He.
  all: exact Hm.
Qed.

(** The division agrees with the Standard Library's IEEE 754
    specification of binary64 division on a grid of small operands, on
    operands around [2 ^ 53] and on negative ones. *)
Lemma true_divide_agrees_with_ieee :
  agree_on (range 1 40) (range 1 40) = true
  /\ agree_on [2 ^ 53 - 1; 2 ^ 53; 2 ^ 52 + 1; 12345678901234; 1000; 7; 1]
              [2 ^ 53 - 1; 2 ^ 53; 2 ^ 52 + 1; 12345678901234; 1000; 7; 1]
     = true
  /\ agree_on [-5; -1; 3; 40] [-3; 7; 15; -15] = true.
Proof. repeat split; vm_compute; reflexivity. Qed.

End FloatFacts.

(** ** The batch count and the batch sizes *)

Module BatchFacts.
Import GeneratorAgent SyntheticDataWorkflow Scenario.

Lemma requested_sizes_app (t1 t2 : list event) :
  requested_sizes (t1 ++ t2) = requested_sizes t1 ++ requested_sizes t2.
Proof.
  induction t1 as [|ev t1 IH]; [reflexivity|].
  destruct ev; simpl; now rewrite IH.
Qed.

(** The generation service logs its request and nothing else. *)
Lemma generate_synthetic_data_trace env d f k r c w :
  trace (snd (LLMService.generate_synthetic_data env d f k r c w))
  = trace w ++ [EvGenerateCall k].
Proof.
  unfold LLMService.generate_synthetic_data. unfold_m. simpl.
  destruct (with_structured_output env (clock w)); [|reflexivity].
  simpl. destruct (ainvoke_generate env _ d f k r c); reflexivity.
Qed.

(** One stage call makes at most one request, of the size
    [min(batch_size, remaining)]. *)
Lemma generate_data_batch_trace env self state w :
  trace (snd (generate_data_batch env self state w))
  = trace w
    ++ (if num_records state - len (generated_data state) <=? 0 then []
        else [EvGenerateCall
                (Z.min (batch_size self)
                   (num_records state - len (generated_data state)))]).
Proof.
  unfold generate_data_batch, try_except, bind.
  destruct (num_records state - len (generated_data state) <=? 0).
  - unfold ret. simpl. now rewrite app_nil_r.
  - pose proof (generate_synthetic_data_trace env (domain state)
                  (data_format state)
                  (Z.min (batch_size self)
                     (num_records state - len (generated_data state)))
                  (parse_research (domain_research state))
                  (context state) w) as T.
    destruct (LLMService.generate_synthetic_data env _ _ _ _ _ w)
      as [[batch|e] w1]; simpl in T.
    + destruct batch; [exact T|].
      match goal with
      | |- context [if ?c then _ else _] => destruct c
      end; exact T.
    + exact T.
Qed.

Lemma calculate_batches_in_range self n :
  1 <= n <= 2 ^ 53 -> 1 <= batch_size self <= 2 ^ 1074 ->
  calculate_batches self n None = Ok (ceil_div n (batch_size self))
  /\ 1 <= ceil_div n (batch_size self).
Proof.
  intros Hn Hb. unfold calculate_batches.
  destruct (FloatFacts.true_divide_ceil n (batch_size self) Hn Hb)
    as [q [-> ->]].
  split; [reflexivity|].
  pose proof (FloatFacts.ceil_div_spec n (batch_size self) ltac:(lia)).
  nia.
Qed.

(** The stage in range: it returns, and the batch count is the
    ceiling after the first entry and untouched later. *)
Lemma call_in_range env self state w :
  1 <= num_records state <= 2 ^ 53 ->
  1 <= batch_size self <= 2 ^ 1074 ->
  exists state' w',
    call env self state w = (Ok state', w')
    /\ num_records state' = num_records state
    /\ total_batches state'
       = (if total_batches state =? 0
          then ceil_div (num_records state) (batch_size self)
          else total_batches state)
    /\ requested_sizes (trace w')
       = requested_sizes (trace w)
         ++ (if num_records state - len (generated_data state) <=? 0
             then []
             else [Z.min (batch_size self)
                     (num_records state - len (generated_data state))]).
Proof.
  intros Hn Hb. rewrite GenerationFacts.call_unfold.
  destruct (calculate_batches_in_range self (num_records state) Hn Hb)
    as [Hcalc _].
  assert (G : forall st,
            num_records st = num_records state ->
            generated_data st = generated_data state ->
            exists state' w',
              generate_data_batch env self st w = (Ok state', w')
              /\ num_records state' = num_records state
              /\ total_batches state' = total_batches st
              /\ requested_sizes (trace w')
                 = requested_sizes (trace w)
                   ++ (if num_records state - len (generated_data state)
                          <=? 0
                       then []
                       else [Z.min (batch_size self)
                               (num_records state
                                - len (generated_data state))])).
  { intros st Hnum Hdata.
    pose proof (generate_data_batch_trace env self st w) as T.
    destruct (GenerationFacts.generate_data_batch_cases env self st w)
      as [st1 [w1 [E Hcases]]].
    rewrite E in T. simpl in T. rewrite Hnum, Hdata in T.
    exists st1, w1. split; [exact E|].
    split; [|split].
    - destruct Hcases
        as [[_ [-> _]]|[[_ [msg ->]]|[_ [b [_ [_ [_ [_ [Hn' _]]]]]]]]];
        simpl; congruence.
    - destruct Hcases
        as [[_ [-> _]]|[[_ [msg ->]]|[_ [b [_ [_ [_ [Ht _]]]]]]]];
        simpl; congruence.
    - rewrite T, requested_sizes_app. f_equal.
      destruct (_ <=? 0); reflexivity. }
  destruct (total_batches state =? 0) eqn:Etb.
  - rewrite Hcalc.
    destruct (G (set_current_batch 0
                   (set_total_batches
                      (ceil_div (num_records state) (batch_size self))
                      state)) eq_refl eq_refl)
      as [state' [w' [E [H1 [H2 H3]]]]].
    exists state', w'. auto.
  - destruct (G state eq_refl eq_refl) as [state' [w' [E [H1 [H2 H3]]]]].
    exists state', w'. auto.
Qed.

(** Through a run the batch count is 0 until the first entry into the
    Batch Generation stage and the ceiling ever after. *)
Lemma reachable_total_batches env wf d f n c nd state :
  1 <= n <= 2 ^ 53 ->
  1 <= batch_size (generator_agent wf) <= 2 ^ 1074 ->
  reachable env wf d f n c nd state ->
  num_records state = n
  /\ match nd with
     | Research => total_batches state = 0
     | Generate =>
         total_batches state = 0
         \/ total_batches state
            = ceil_div n (batch_size (generator_agent wf))
     | Evaluate | END =>
         total_batches state = ceil_div n (batch_size (generator_agent wf))
     end.
Proof.
  intros Hn Hb.
  induction 1 as [|nd st w st' w' nd' Hreach [IHn IHt] Hexec Hnext].
  - simpl. auto.
  - rewrite WorkflowFacts.exec_node_unfold in Hexec.
    destruct nd.
    + (* research *)
      simpl in Hnext. inversion Hnext; subst nd'.
      destruct (WorkflowFacts.research_node_effect env st
                  {| clock := clock w; trace := trace w ++ [EvNode Research] |})
        as [st1 [w1 [E [_ [_ [Ht [Hnum _]]]]]]].
      rewrite E in Hexec. inversion Hexec; subst st1 w1.
      split; [congruence|]. left. congruence.
    + (* generate *)
      simpl in Hnext. inversion Hnext; subst nd'.
      unfold generate_node in Hexec.
      destruct (call_in_range env (generator_agent wf) st
                  {| clock := clock w; trace := trace w ++ [EvNode Generate] |}
                  ltac:(lia) Hb) as [st1 [w1 [E [Hnum [Ht _]]]]].
      rewrite E in Hexec. inversion Hexec; subst st1 w1.
      split; [congruence|]. rewrite Ht, IHn.
      destruct (total_batches st =? 0) eqn:E0; [reflexivity|].
      apply Z.eqb_neq in E0. destruct IHt; [contradiction|assumption].
    + (* evaluate *)
      assert (Keep : num_records st' = num_records st
                     /\ total_batches st' = total_batches st).
      { unfold evaluate_node, EvaluatorAgent.call in Hexec.
        destruct (_ || _).
        - destruct (EvaluationFacts.evaluate_and_save_cases env st
                      {| clock := clock w;
                         trace := trace w ++ [EvNode Evaluate] |})
            as [st1 [w1 [E [[msg [-> _]]|[final [path [_ ->]]]]]]];
            rewrite E in Hexec; inversion Hexec; subst; simpl; auto.
        - unfold ret in Hexec. inversion Hexec; subst. simpl. auto. }
      destruct Keep as [K1 K2].
      split; [congruence|].
      destruct (WorkflowFacts.next_node_after_evaluate _ _ Hnext)
        as [-> | ->]; [right|]; congruence.
    + (* END *)
      unfold ret in Hexec. inversion Hexec; subst.
      simpl in Hnext. inversion Hnext; subst. auto.
Qed.

End BatchFacts.

(** ** The batch count through a run *)

Module RunFacts.
Import GeneratorAgent SyntheticDataWorkflow Scenario.

(** C5, where the code departs from it. [calculate_batches] takes the
    ceiling of the binary64 quotient [total_records / batch_size], not
    of the exact one: for [2 ^ 53 + 1] records in batches of 1 the
    quotient rounds to [2 ^ 53], and that is what the stage stores on
    its first entry, one batch short of the ceiling; and for 1 record
    with a batch size of [2 ^ 1076] the quotient rounds to zero, so
    that no batch is counted. *)
Lemma total_batches_beyond_binary64 :
  0 < num_records huge_request
  /\ 0 < batch_size single
  /\ total_batches huge_request = 0
  /\ ceil_div (num_records huge_request) (batch_size single) = 2 ^ 53 + 1
  /\ calculate_batches single (num_records huge_request) None = Ok (2 ^ 53)
  /\ (exists state' w',
        call healthy single huge_request world0 = (Ok state', w')
        /\ total_batches state' = 2 ^ 53
        /\ total_batches state'
           <> ceil_div (num_records huge_request) (batch_size single))
  /\ 0 < batch_size oversized
  /\ ceil_div 1 (batch_size oversized) = 1
  /\ calculate_batches oversized 1 None = Ok 0.
Proof.
  assert (Big : 0 < batch_size oversized
                /\ ceil_div 1 (batch_size oversized) = 1
                /\ calculate_batches oversized 1 None = Ok 0)
    by (repeat split; vm_compute; reflexivity).
  destruct Big as [B1 [B2 B3]].
  split; [reflexivity|]. split; [reflexivity|]. split; [reflexivity|].
  split; [vm_compute; reflexivity|]. split; [vm_compute; reflexivity|].
  destruct (call healthy single huge_request world0) as [[state'|e] w']
    eqn:E.
  - split; [|auto].
    exists state', w'. split; [reflexivity|].
    assert (T : match call healthy single huge_request world0 with
                | (Ok s, _) => total_batches s
                | (Raise _, _) => 0
                end = 2 ^ 53) by (vm_compute; reflexivity).
    rewrite E in T. split; [exact T|].
    rewrite T. vm_compute. discriminate.
  - exfalso.
    assert (T : match call healthy single huge_request world0 with
                | (Ok _, _) => true
                | (Raise _, _) => false
                end = true) by (vm_compute; reflexivity).
    rewrite E in T. discriminate.
Qed.

End RunFacts.

(** ** Where the graph departs from the stated failure policy *)

Module FailureFacts.
Import SyntheticDataWorkflow Scenario.

(** What the Research stage does on failure, as stated: the status is
    "research_failed" and the message carries the exception. *)
Lemma research_failure_recorded env state w e :
  enrich_context_with_web_data env (clock w) (domain state)
    (get_domain_context env (domain state) (context state))
    (context state) = Raise e ->
  research_node env state w
  = (Ok (set_error_message (Some (String.append "Research failed: " e))
           (set_status "research_failed" state)),
     {| clock := S (clock w); trace := trace w |}).
Proof.
  intros H.
  unfold research_node, ResearchAgent.call, ResearchAgent.research_domain.
  unfold_m. rewrite H. reflexivity.
Qed.

(** Whatever the Research stage leaves, the graph enters the Generate
    node next. *)
Lemma after_research_comes_generate env wf state w :
  exists s1 w1,
    run_steps env wf 1 Research state w = Some (Generate, s1, w1)
    /\ (status s1 = "research_completed" \/ status s1 = "research_failed").
Proof.
  cbn [run_steps]. rewrite WorkflowFacts.exec_node_unfold.
  destruct (WorkflowFacts.research_node_effect env state
              {| clock := clock w; trace := trace w ++ [EvNode Research] |})
    as [s1 [w1 [E [_ [_ [_ [_ Hst]]]]]]].
  rewrite E. cbn [next_node]. exists s1, w1. split; [reflexivity|].
  destruct Hst as [[H _]|[H _]]; auto.
Qed.

(** C2 on the code. The edge from the Research node to the Generate
    node is unconditional, whatever the status: after the Research
    node, failed or not, the graph enters the Generate node. With the web
    enrichment block raising, the Research stage leaves the status
    "research_failed" and its message, and the run goes on: the
    Generate node runs and requests 10 records, the Evaluate node
    saves them, and the run ends "completed" with a file, the research
    message still in place. *)
Theorem research_failure_is_not_terminal :
  (forall state, next_node Research state = Some Generate)
  /\ (forall env wf state w,
        exists s1 w1,
          run_steps env wf 1 Research state w = Some (Generate, s1, w1)
          /\ (status s1 = "research_completed"
              \/ status s1 = "research_failed"))
  /\ (exists s1 w1,
        run_steps research_down workflow 1 Research (request 10) world0
        = Some (Generate, s1, w1)
        /\ status s1 = "research_failed"
        /\ error_message s1 = Some "Research failed: Session is closed")
  /\ nodes_run
       (trace (snd (run_workflow research_down workflow "healthcare" "qna"
                      10 None world0)))
     = [Research; Generate; Evaluate]
  /\ requested_sizes
       (trace (snd (run_workflow research_down workflow "healthcare" "qna"
                      10 None world0)))
     = [10]
  /\ status (fst (run_workflow research_down workflow "healthcare" "qna"
                    10 None world0)) = "completed"
  /\ file_path (fst (run_workflow research_down workflow "healthcare" "qna"
                       10 None world0))
     = Some "responses/healthcare_qna.csv"
  /\ error_message
       (fst (run_workflow research_down workflow "healthcare" "qna"
               10 None world0))
     = Some "Research failed: Session is closed".
Proof.
  split; [reflexivity|]. split; [exact after_research_comes_generate|].
  split.
  { do 2 eexists. split; [vm_compute; reflexivity|].
    split; reflexivity. }
  repeat split; vm_compute; reflexivity.
Qed.

(** The pass-through branch of the Evaluate node overwrites the status
    of a failed batch, and the decision then loops back. *)
Lemma failed_batch_loops_back env state w :
  status state = "generation_failed" ->
  len (generated_data state) < num_records state ->
  evaluate_node env state w = (Ok (set_status "generating" state), w)
  /\ next_node Evaluate (set_status "generating" state) = Some Generate.
Proof.
  intros Hst Hlen. unfold evaluate_node, next_node,
    should_continue_generation. simpl. rewrite Hst.
  destruct (Z.leb_spec (num_records state) (len (generated_data state)));
    [lia|].
  destruct (Z.ltb_spec (len (generated_data state)) (num_records state));
    [|lia].
  split; reflexivity.
Qed.

(** The Batch Generation stage on an empty batch, as stated: status
    "generation_failed" and a message, the records untouched. *)
Lemma empty_batch_recorded env self state w w1 :
  0 < num_records state - len (generated_data state) ->
  LLMService.generate_synthetic_data env (domain state) (data_format state)
    (Z.min (batch_size self)
       (num_records state - len (generated_data state)))
    (GeneratorAgent.parse_research (domain_research state))
    (context state) w = (Ok [], w1) ->
  GeneratorAgent.generate_data_batch env self state w
  = (Ok (set_error_message (Some "Failed to generate data batch")
           (set_status "generation_failed" state)), w1).
Proof.
  intros Hrem Hcall.
  unfold GeneratorAgent.generate_data_batch, try_except, bind.
  destruct (Z.leb_spec (num_records state - len (generated_data state)) 0);
    [lia|].
  rewrite Hcall. reflexivity.
Qed.

(** C4 on the code. When the generation service returns an empty list
    the Batch Generation stage sets "generation_failed" and its
    message, as stated; but the Evaluate node, the quota being unmet,
    resets the status to "generating", and the decision loops back to
    generation. With a generation model that fails once, the second
    request succeeds and the run ends "completed" with a file saved. *)
Theorem empty_batch_is_retried :
  (forall env self state w w1,
     0 < num_records state - len (generated_data state) ->
     LLMService.generate_synthetic_data env (domain state)
       (data_format state)
       (Z.min (batch_size self)
          (num_records state - len (generated_data state)))
       (GeneratorAgent.parse_research (domain_research state))
       (context state) w = (Ok [], w1) ->
     GeneratorAgent.generate_data_batch env self state w
     = (Ok (set_error_message (Some "Failed to generate data batch")
              (set_status "generation_failed" state)), w1))
  /\ (forall env state w,
     status state = "generation_failed" ->
     len (generated_data state) < num_records state ->
     evaluate_node env state w = (Ok (set_status "generating" state), w)
     /\ next_node Evaluate (set_status "generating" state) = Some Generate)
  /\ (exists s2 w2,
        run_steps first_batch_empty workflow 2 Research (request 10) world0
        = Some (Evaluate, s2, w2)
        /\ status s2 = "generation_failed"
        /\ error_message s2 = Some "Failed to generate data batch"
        /\ generated_data s2 = []
        /\ requested_sizes (trace w2) = [10])
  /\ (exists s3 w3,
        run_steps first_batch_empty workflow 3 Research (request 10) world0
        = Some (Generate, s3, w3)
        /\ status s3 = "generating"
        /\ file_path s3 = None)
  /\ nodes_run
       (trace (snd (run_workflow first_batch_empty workflow "healthcare"
                      "qna" 10 None world0)))
     = [Research; Generate; Evaluate; Generate; Evaluate]
  /\ requested_sizes
       (trace (snd (run_workflow first_batch_empty workflow "healthcare"
                      "qna" 10 None world0)))
     = [10; 10]
  /\ status (fst (run_workflow first_batch_empty workflow "healthcare"
                    "qna" 10 None world0)) = "completed"
  /\ file_path (fst (run_workflow first_batch_empty workflow "healthcare"
                       "qna" 10 None world0))
     = Some "responses/healthcare_qna.csv"
  /\ saves (trace (snd (run_workflow first_batch_empty workflow
                          "healthcare" "qna" 10 None world0))) = 1%nat.
Proof.
  split; [exact empty_batch_recorded|].
  split; [exact failed_batch_loops_back|]. split.
  { do 2 eexists. split; [vm_compute; reflexivity|].
    repeat split; reflexivity. }
  split.
  { do 2 eexists. split; [vm_compute; reflexivity|].
    repeat split; reflexivity. }
  repeat split; vm_compute; reflexivity.
Qed.

(** With a generation service that never answers the run does not end
    on "generation_failed" either: it loops until the graph runtime's
    bound and leaves through the outer [except], with status "failed"
    and twelve requests made. *)
Example stalled_generation_runs_to_the_bound :
  status (fst (run_workflow client_down workflow "healthcare" "qna" 10
                 None world0)) = "failed"
  /\ List.length
       (requested_sizes
          (trace (snd (run_workflow client_down workflow "healthcare"
                         "qna" 10 None world0)))) = 12%nat.
Proof. split; vm_compute; reflexivity. Qed.

End FailureFacts.

(** ** The theorems at concrete inputs *)

Module Witnesses.
Import SyntheticDataWorkflow Scenario.

(** C3, at a concrete input: the structured client cannot be built, so
    the evaluation service raises; two of the three records are the
    same up to insertion order. *)
Lemma evaluate_with_llm_fallback_witness :
  exists report,
    EvaluatorAgent.evaluate_with_llm client_down
      [ [("a", VStr "alpha"); ("b", VNum 2)];
        [("b", VNum 2); ("a", VStr "alpha")];
        [("a", VStr "Hi")] ] "qna" world0
    = (Ok report,
       {| clock := 1; trace := [EvEvaluateCall
                                  [ [("a", VStr "alpha"); ("b", VNum 2)];
                                    [("b", VNum 2); ("a", VStr "alpha")];
                                    [("a", VStr "Hi")] ]] |})
    /\ valid_records report = [ [("a", VStr "alpha"); ("b", VNum 2)] ]
    /\ duplicate_count report = 1
    /\ quality_issues report
       = ["Basic validation only - LLM evaluation failed"]
    /\ passed_validation report = true.
Proof.
  destruct (EvaluationFacts.evaluate_with_llm_fallback client_down
              [ [("a", VStr "alpha"); ("b", VNum 2)];
                [("b", VNum 2); ("a", VStr "alpha")];
                [("a", VStr "Hi")] ] "qna" world0
              "NotImplementedError"
              {| clock := 1; trace := [EvEvaluateCall
                                  [ [("a", VStr "alpha"); ("b", VNum 2)];
                                    [("b", VNum 2); ("a", VStr "alpha")];
                                    [("a", VStr "Hi")] ]] |}
              eq_refl)
    as [report [E [Hv [Hd [_ [Hq Hp]]]]]].
  exists report. split; [exact E|].
  split; [rewrite Hv; reflexivity|].
  split; [rewrite Hd; reflexivity|].
  split; [exact Hq|].
  apply Hp. rewrite Hv. reflexivity.
Defined.


End Witnesses.

(* ===================================================================== *)
(** * Part III: further properties of the code                            *)
(* ===================================================================== *)

(** ** The two basic tiers together *)

Module TierFacts.
Import EvaluatorAgent.

(** Records with the same canonical form have the same items. *)
Lemma record_str_eq_perm (r r' : record) :
  record_str r = record_str r' -> Permutation r r'.
Proof.
  unfold record_str. intros H.
  rewrite <- (CanonicalFacts.sorted_items_perm r).
  rewrite <- (CanonicalFacts.sorted_items_perm r').
  now rewrite H.
Qed.

Lemma record_violates_perm (r r' : record) :
  Permutation r r' -> record_violates r -> record_violates r'.
Proof.
  intros HP [k [v [Hin Hv]]]. exists k, v. split; [|exact Hv].
  eapply Permutation_in; eassumption.
Qed.

(** The verdict of the quality filter does not depend on the order of
    the items of a record. *)
Lemma items_valid_perm (r r' : record) :
  Permutation r r' -> items_valid r = items_valid r'.
Proof.
  intros HP.
  destruct (items_valid r) eqn:E, (items_valid r') eqn:E'; try reflexivity.
  - apply QualityFacts.items_valid_false_iff in E'.
    apply QualityFacts.items_valid_iff in E. exfalso. apply E.
    eapply record_violates_perm; [symmetry; exact HP|exact E'].
  - apply QualityFacts.items_valid_false_iff in E.
    apply QualityFacts.items_valid_iff in E'. exfalso. apply E'.
    eapply record_violates_perm; [exact HP|exact E].
Qed.

Lemma same_canonical_form_valid (r r' : record) :
  same_canonical_form r r' = true -> items_valid r = items_valid r'.
Proof.
  intros H. apply items_valid_perm, record_str_eq_perm.
  now apply same_canonical_form_eq.
Qed.

(** Among valid records, an earlier record with the same canonical form
    is found in the filtered list exactly when it is found in the whole
    list. *)
Lemma existsb_same_filter (l : list record) (r : record) :
  items_valid r = true ->
  existsb (same_canonical_form r) (filter items_valid l)
  = existsb (same_canonical_form r) l.
Proof.
  intros Hr. induction l as [|x l IH]; [reflexivity|]. simpl.
  destruct (items_valid x) eqn:Ex; simpl.
  - now rewrite IH.
  - rewrite IH.
    destruct (same_canonical_form r x) eqn:Es; [|reflexivity].
    apply same_canonical_form_valid in Es. congruence.
Qed.

(** Filtering and exact-duplicate removal can be done in either order. *)
Lemma filter_dedup_commute (data : list record) :
  filter items_valid (remove_exact_duplicates data)
  = remove_exact_duplicates (filter items_valid data).
Proof.
  induction data as [|r l IH] using rev_ind; [reflexivity|].
  rewrite DedupFacts.remove_exact_duplicates_snoc, filter_app. simpl.
  destruct (items_valid r) eqn:Er.
  - rewrite DedupFacts.remove_exact_duplicates_snoc.
    rewrite existsb_same_filter by exact Er.
    destruct (existsb (same_canonical_form r) l); [exact IH|].
    rewrite filter_app. simpl. rewrite Er. f_equal. exact IH.
  - rewrite app_nil_r.
    destruct (existsb (same_canonical_form r) l); [exact IH|].
    rewrite filter_app. simpl. rewrite Er, app_nil_r. exact IH.
Qed.

(** A list whose canonical forms differ pairwise is left as it is. *)
Lemma remove_exact_duplicates_distinct (data : list record) :
  NoDup (map record_str data) -> remove_exact_duplicates data = data.
Proof.
  induction data as [|r l IH] using rev_ind; [reflexivity|].
  rewrite map_app. simpl. intros Hnd.
  assert (Hnd' : NoDup (record_str r :: map record_str l)).
  { eapply Permutation_NoDup; [|exact Hnd].
    symmetry. apply Permutation_cons_append. }
  inversion Hnd' as [|? ? Hnotin Hl]; subst.
  rewrite DedupFacts.remove_exact_duplicates_snoc.
  destruct (existsb (same_canonical_form r) l) eqn:E.
  - exfalso. apply Hnotin. apply existsb_exists in E.
    destruct E as [x [Hx Hs]]. apply same_canonical_form_eq in Hs.
    rewrite Hs. now apply in_map.
  - now rewrite IH.
Qed.

Lemma remove_exact_duplicates_idempotent (data : list record) :
  remove_exact_duplicates (remove_exact_duplicates data)
  = remove_exact_duplicates data.
Proof.
  apply remove_exact_duplicates_distinct,
    DedupFacts.remove_exact_duplicates_NoDup.
Qed.

Lemma filter_idempotent {A : Type} (f : A -> bool) (l : list A) :
  filter f (filter f l) = filter f l.
Proof.
  induction l as [|x l IH]; [reflexivity|]. simpl.
  destruct (f x) eqn:E; simpl; [rewrite E|]; now rewrite ?IH.
Qed.

Lemma subsequence_trans {A : Type} (l1 l2 l3 : list A) :
  subsequence l1 l2 -> subsequence l2 l3 -> subsequence l1 l3.
Proof.
  intros H12 H23. revert l1 H12.
  induction H23 as [|x l2 l3 H23 IH|x l2 l3 H23 IH]; intros l1 H12.
  - exact H12.
  - inversion H12; subst.
    + constructor. now apply IH.
    + apply sub_skip. now apply IH.
  - apply sub_skip. now apply IH.
Qed.

(** What the two tiers leave is a fixed point of both. *)
Lemma basic_tiers_fixpoint (data : list record) (fmt : string) :
  remove_exact_duplicates
    (basic_quality_check (remove_exact_duplicates data) fmt)
  = basic_quality_check (remove_exact_duplicates data) fmt
  /\ basic_quality_check
       (remove_exact_duplicates
          (basic_quality_check (remove_exact_duplicates data) fmt)) fmt
     = basic_quality_check (remove_exact_duplicates data) fmt.
Proof.
  rewrite !QualityFacts.basic_quality_check_filter.
  assert (E1 : remove_exact_duplicates
                 (filter items_valid (remove_exact_duplicates data))
               = filter items_valid (remove_exact_duplicates data)).
  { rewrite filter_dedup_commute.
    apply remove_exact_duplicates_idempotent. }
  split; [exact E1|]. rewrite E1. apply filter_idempotent.
Qed.

(** X1. The two basic tiers only shrink the data: exact-duplicate
    removal returns a subsequence of its input, the quality filter
    returns a subsequence of its input, and so does their composition;
    the records left by the quality filter are at most those left by
    exact-duplicate removal, which are at most the input; every record
    left is a record of the input, has no rule violation, and no two of
    them share a canonical form. *)
Theorem basic_tiers_shrink :
  forall data fmt,
    len (basic_quality_check (remove_exact_duplicates data) fmt)
      <= len (remove_exact_duplicates data)
    /\ len (remove_exact_duplicates data) <= len data
    /\ subsequence (basic_quality_check (remove_exact_duplicates data) fmt)
         data
    /\ NoDup (map record_str
                (basic_quality_check (remove_exact_duplicates data) fmt))
    /\ (forall r,
          In r (basic_quality_check (remove_exact_duplicates data) fmt) ->
          In r data /\ ~ record_violates r)
    /\ subsequence (remove_exact_duplicates data) data
    /\ subsequence (basic_quality_check data fmt) data
    /\ subsequence (basic_quality_check (remove_exact_duplicates data) fmt)
         (remove_exact_duplicates data).
Proof.
  intros data fmt.
  split; [apply QualityFacts.basic_quality_check_length|].
  split; [apply DedupFacts.remove_exact_duplicates_length|].
  assert (S1 : subsequence
                 (basic_quality_check (remove_exact_duplicates data) fmt)
                 (remove_exact_duplicates data)).
  { rewrite QualityFacts.basic_quality_check_filter.
    apply QualityFacts.filter_subsequence. }
  split; [|split; [|split; [|split; [|split]]]].
  - eapply subsequence_trans; [exact S1|].
    apply DedupFacts.remove_exact_duplicates_subsequence.
  - rewrite QualityFacts.basic_quality_check_filter, filter_dedup_commute.
    apply DedupFacts.remove_exact_duplicates_NoDup.
  - intros r Hin.
    rewrite QualityFacts.basic_quality_check_filter in Hin.
    apply filter_In in Hin. destruct Hin as [Hin Hv]. split.
    + eapply subsequence_In;
        [apply DedupFacts.remove_exact_duplicates_subsequence|exact Hin].
    + now apply QualityFacts.items_valid_iff.
  - apply DedupFacts.remove_exact_duplicates_subsequence.
  - rewrite QualityFacts.basic_quality_check_filter.
    apply QualityFacts.filter_subsequence.
  - exact S1.
Qed.

(** X2. The two tiers commute and are idempotent: filtering then
    removing duplicates gives the same list as removing duplicates then
    filtering, and running both tiers again on their own output changes
    nothing and removes no record. *)
Theorem basic_tiers_commute_idempotent :
  forall data fmt,
    basic_quality_check (remove_exact_duplicates data) fmt
    = remove_exact_duplicates (basic_quality_check data fmt)
    /\ remove_exact_duplicates (remove_exact_duplicates data)
       = remove_exact_duplicates data
    /\ basic_quality_check (basic_quality_check data fmt) fmt
       = basic_quality_check data fmt
    /\ remove_exact_duplicates
         (basic_quality_check (remove_exact_duplicates data) fmt)
       = basic_quality_check (remove_exact_duplicates data) fmt
    /\ basic_quality_check
         (remove_exact_duplicates
            (basic_quality_check (remove_exact_duplicates data) fmt)) fmt
       = basic_quality_check (remove_exact_duplicates data) fmt.
Proof.
  intros data fmt. rewrite !QualityFacts.basic_quality_check_filter.
  assert (E1 : remove_exact_duplicates
                 (filter items_valid (remove_exact_duplicates data))
               = filter items_valid (remove_exact_duplicates data)).
  { rewrite filter_dedup_commute.
    apply remove_exact_duplicates_idempotent. }
  split; [apply filter_dedup_commute|].
  split; [apply remove_exact_duplicates_idempotent|].
  split; [apply filter_idempotent|].
  split; [exact E1|].
  rewrite E1. apply filter_idempotent.
Qed.

End TierFacts.

(** ** What the Evaluation stage sends out *)

Module EvaluationTraceFacts.
Import EvaluatorAgent.

Lemma evaluations_app (t1 t2 : list event) :
  evaluations (t1 ++ t2) = (evaluations t1 + evaluations t2)%nat.
Proof.
  induction t1 as [|ev t1 IH]; [reflexivity|].
  destruct ev; simpl; now rewrite IH.
Qed.

Lemma saved_data_app (t1 t2 : list event) :
  saved_data (t1 ++ t2) = saved_data t1 ++ saved_data t2.
Proof.
  induction t1 as [|ev t1 IH]; [reflexivity|].
  destruct ev; simpl; now rewrite IH.
Qed.

Lemma saves_app (t1 t2 : list event) :
  Scenario.saves (t1 ++ t2) = (Scenario.saves t1 + Scenario.saves t2)%nat.
Proof.
  induction t1 as [|ev t1 IH]; [reflexivity|].
  destruct ev; simpl; now rewrite IH.
Qed.

(** The model-based tier always returns a report, and logs one request
    to the evaluation service. *)
Lemma evaluate_with_llm_total env data fmt w :
  exists report w',
    evaluate_with_llm env data fmt w = (Ok report, w')
    /\ trace w' = trace w ++ [EvEvaluateCall data].
Proof.
  unfold evaluate_with_llm, LLMService.evaluate_data_quality.
  unfold_m. simpl.
  destruct (with_structured_output env (clock w)) as [[]|e]; simpl.
  - destruct (ainvoke_evaluate env (S (clock w)) data fmt) as [rep|e];
      simpl; do 2 eexists; split; reflexivity.
  - do 2 eexists; split; reflexivity.
Qed.

(** [save_to_csv] logs its request whatever happens next; an empty list
    is refused before anything is written. *)
Lemma save_to_csv_trace env data dom fmt w :
  trace (snd (FileService.save_to_csv env data dom fmt w))
  = trace w ++ [EvSaveCall data].
Proof.
  unfold FileService.save_to_csv. unfold_m. simpl.
  destruct data as [|r data]; [reflexivity|].
  destruct (write_csv env _ (r :: data) dom fmt); reflexivity.
Qed.

(** The full pass in detail: the model-based tier is asked once, with
    the survivors of the two basic tiers; its valid records, when there
    are any, are handed to [save_to_csv] once, and they are the data of
    a completed state. *)
Lemma evaluate_and_save_detail env state w :
  exists report w1 state' w',
    evaluate_with_llm env
      (basic_quality_check (remove_exact_duplicates (generated_data state))
         (data_format state)) (data_format state) w = (Ok report, w1)
    /\ evaluate_and_save env state w = (Ok state', w')
    /\ trace w'
       = trace w
         ++ EvEvaluateCall
              (basic_quality_check
                 (remove_exact_duplicates (generated_data state))
                 (data_format state))
         :: match valid_records report with
            | [] => []
            | _ => [EvSaveCall (valid_records report)]
            end
    /\ (valid_records report = [] ->
        state' = set_error_message (Some "No valid records after evaluation")
                   (set_status "evaluation_failed" state))
    /\ (status state' = "completed" \/ status state' = "evaluation_failed")
    /\ (status state' = "completed" ->
        generated_data state' = valid_records report
        /\ valid_records report <> []
        /\ file_path state' <> None)
    /\ (status state' = "evaluation_failed" ->
        error_message state' <> None
        /\ generated_data state' = generated_data state
        /\ file_path state' = file_path state).
Proof.
  destruct (evaluate_with_llm_total env
              (basic_quality_check
                 (remove_exact_duplicates (generated_data state))
                 (data_format state)) (data_format state) w)
    as [report [w1 [E T]]].
  exists report, w1.
  unfold evaluate_and_save, try_except, bind. rewrite E.
  destruct (valid_records report) as [|r final] eqn:Ef.
  - unfold ret. do 2 eexists. split; [reflexivity|]. split; [reflexivity|].
    simpl. split; [exact T|]. split; [reflexivity|].
    split; [now right|]. split; [discriminate|].
    intros _. repeat split; discriminate.
  - pose proof (save_to_csv_trace env (r :: final) (domain state)
                  (data_format state) w1) as Ts.
    destruct (FileService.save_to_csv env (r :: final) (domain state)
                (data_format state) w1) as [[path|e] w2]; simpl in Ts;
      unfold ret; do 2 eexists; (split; [reflexivity|]);
      (split; [reflexivity|]); simpl.
    + split; [rewrite Ts, T, <- app_assoc; reflexivity|].
      split; [discriminate|]. split; [now left|]. split; [|discriminate].
      intros _. repeat split; discriminate.
    + split; [rewrite Ts, T, <- app_assoc; reflexivity|].
      split; [discriminate|]. split; [now right|]. split; [discriminate|].
      intros _. repeat split; discriminate.
Qed.

(** X3. When the evaluation service is of no help (its call raises, or
    the model call inside it fails and the service answers with its own
    report), the full pass is the two basic tiers alone: the report
    keeps exactly their survivors and counts no duplicate, re-running
    the tiers on their own output removing nothing; with no survivor the
    stage fails with "No valid records after evaluation", otherwise the
    survivors are what is handed to [save_to_csv] and what a completed
    state holds. *)
Theorem basic_validation_only :
  forall env state w,
    (exists e w1,
       LLMService.evaluate_data_quality env
         (basic_quality_check
            (remove_exact_duplicates (generated_data state))
            (data_format state)) (data_format state) w = (Raise e, w1))
    \/ (with_structured_output env (clock w) = Ok tt
        /\ exists e,
             ainvoke_evaluate env (S (clock w))
               (basic_quality_check
                  (remove_exact_duplicates (generated_data state))
                  (data_format state)) (data_format state) = Raise e) ->
    exists report w1 state' w',
      evaluate_with_llm env
        (basic_quality_check
           (remove_exact_duplicates (generated_data state))
           (data_format state)) (data_format state) w = (Ok report, w1)
      /\ valid_records report
         = basic_quality_check
             (remove_exact_duplicates (generated_data state))
             (data_format state)
      /\ duplicate_count report = 0
      /\ evaluate_and_save env state w = (Ok state', w')
      /\ (basic_quality_check
            (remove_exact_duplicates (generated_data state))
            (data_format state) = [] ->
          status state' = "evaluation_failed"
          /\ error_message state' = Some "No valid records after evaluation"
          /\ saved_data (trace w') = saved_data (trace w))
      /\ (basic_quality_check
            (remove_exact_duplicates (generated_data state))
            (data_format state) <> [] ->
          saved_data (trace w')
          = saved_data (trace w)
            ++ [basic_quality_check
                  (remove_exact_duplicates (generated_data state))
                  (data_format state)])
      /\ (status state' = "completed" ->
          generated_data state'
          = basic_quality_check
              (remove_exact_duplicates (generated_data state))
              (data_format state)).
Proof.
  intros env state w H.
  set (input := basic_quality_check
                  (remove_exact_duplicates (generated_data state))
                  (data_format state)) in *.
  destruct (evaluate_and_save_detail env state w)
    as [report [w1 [state' [w' [E [Es [T [Hnil [_ [Hdone _]]]]]]]]]].
  fold input in E, T.
  assert (R : valid_records report = input /\ duplicate_count report = 0).
  { destruct H as [[e [w2 Hraise]]|[Hclient [e Hmodel]]].
    - unfold evaluate_with_llm, try_except, bind in E.
      rewrite Hraise in E. unfold ret in E. inversion E; subst report w1.
      cbn [valid_records duplicate_count].
      destruct (TierFacts.basic_tiers_fixpoint
                  (generated_data state) (data_format state)) as [I1 I2].
      fold input in I1, I2.
      split; [exact I2|]. rewrite I1. lia.
    - destruct (EvaluationFacts.model_failure_stays_in_service env input
                  (data_format state) w e Hclient Hmodel)
        as [rep [w2 [E' [Hv [Hd _]]]]].
      rewrite E in E'. inversion E'; subst rep. auto. }
  destruct R as [Rv Rd].
  exists report, w1, state', w'.
  split; [exact E|]. split; [exact Rv|]. split; [exact Rd|].
  split; [exact Es|]. rewrite Rv in *. split; [|split].
  - intros Hempty. rewrite Hempty in *. rewrite (Hnil eq_refl). simpl.
    split; [reflexivity|]. split; [reflexivity|].
    rewrite T, saved_data_app. simpl. now rewrite app_nil_r.
  - intros Hne. rewrite T, saved_data_app. simpl.
    destruct input; [contradiction|reflexivity].
  - intros Hc. now apply Hdone.
Qed.

End EvaluationTraceFacts.

(** ** How a run ends *)

Module OutcomeFacts.
Import SyntheticDataWorkflow EvaluationTraceFacts.

Lemma run_from_step env wf fuel nd state w :
  nd <> END ->
  run_from env wf (S fuel) nd state w
  = match exec_node env wf nd state w with
    | (Ok state', w') =>
        match next_node nd state' with
        | Some nd' => run_from env wf fuel nd' state' w'
        | None => (Raise "KeyError", w')
        end
    | (Raise e, w') => (Raise e, w')
    end.
Proof.
  intros Hnd. destruct nd; try contradiction; cbn [run_from]; unfold bind;
    destruct (exec_node env wf _ state w) as [[st1|e] w1]; try reflexivity;
    destruct (next_node _ st1); reflexivity.
Qed.

(** The Research stage sends nothing to the evaluation service or the
    record store. *)
Lemma research_node_quiet env state w :
  trace (snd (research_node env state w)) = trace w.
Proof.
  unfold research_node, ResearchAgent.call, ResearchAgent.research_domain,
    LLMService.research_domain.
  unfold_m. simpl.
  destruct (enrich_context_with_web_data env _ _ _ _); [|reflexivity].
  simpl. destruct (with_structured_output env _) as [[]|e]; [|reflexivity].
  simpl. destruct (ainvoke_research env _ _ _); reflexivity.
Qed.

(** Neither does the Batch Generation stage. *)
Lemma generate_node_quiet env wf state w :
  evaluations (trace (snd (generate_node env wf state w)))
  = evaluations (trace w)
  /\ saved_data (trace (snd (generate_node env wf state w)))
     = saved_data (trace w).
Proof.
  unfold generate_node. rewrite GenerationFacts.call_unfold.
  assert (G : forall st,
            evaluations
              (trace (snd (GeneratorAgent.generate_data_batch env
                             (generator_agent wf) st w)))
            = evaluations (trace w)
            /\ saved_data
                 (trace (snd (GeneratorAgent.generate_data_batch env
                                (generator_agent wf) st w)))
               = saved_data (trace w)).
  { intros st. rewrite BatchFacts.generate_data_batch_trace.
    rewrite evaluations_app, saved_data_app.
    destruct (_ <=? 0); simpl; rewrite ?app_nil_r; split; auto; lia. }
  destruct (total_batches state =? 0); [|apply G].
  destruct (GeneratorAgent.calculate_batches _ _ _); [apply G|].
  split; reflexivity.
Qed.

(** The Evaluate node in its pass-through mode: the quota is unmet, the
    status becomes "generating", nothing is sent out, and generation is
    next. *)
Lemma evaluate_node_pass_through env state w :
  len (generated_data state) < num_records state ->
  status state <> "generation_completed" ->
  evaluate_node env state w = (Ok (set_status "generating" state), w)
  /\ next_node Evaluate (set_status "generating" state) = Some Generate.
Proof.
  intros Hlen Hst. unfold evaluate_node, next_node,
    should_continue_generation. simpl.
  destruct (Z.leb_spec (num_records state) (len (generated_data state)));
    [lia|].
  destruct (Z.ltb_spec (len (generated_data state)) (num_records state));
    [|lia].
  apply String.eqb_neq in Hst. rewrite Hst. split; reflexivity.
Qed.

Lemma evaluate_node_modes env state w :
  (len (generated_data state) < num_records state
   /\ status state <> "generation_completed")
  \/ evaluate_node env state w = EvaluatorAgent.evaluate_and_save env state w.
Proof.
  unfold evaluate_node, EvaluatorAgent.call.
  destruct (Z.leb_spec (num_records state) (len (generated_data state)));
    [now right|].
  destruct (String.eqb_spec (status state) "generation_completed");
    [now right|]. now left.
Qed.

(** After a full pass the decision is to stop. *)
Lemma next_node_after_full_pass state :
  status state = "completed" \/ status state = "evaluation_failed" ->
  next_node Evaluate state = Some END.
Proof.
  unfold next_node, should_continue_generation.
  intros [-> | ->]; reflexivity.
Qed.

(** What [run_from] does from a node of the graph on: when it returns
    a state, the evaluation service was called exactly once, and either
    the state is completed and its records are the one list handed to
    the record store, or it is "evaluation_failed" with a message and at
    most one list was handed over; when it leaves by an exception,
    either neither the evaluation service nor the record store was
    called, or the evaluation service was called once and the record
    store at most once (the budget ran out on the full evaluation). *)
Lemma run_from_outcome env wf fuel :
  forall nd state w,
    nd <> END ->
    match run_from env wf fuel nd state w with
    | (Ok state', w') =>
        evaluations (trace w') = S (evaluations (trace w))
        /\ ((status state' = "completed"
             /\ generated_data state' <> []
             /\ file_path state' <> None
             /\ saved_data (trace w')
                = saved_data (trace w) ++ [generated_data state'])
            \/ (status state' = "evaluation_failed"
                /\ error_message state' <> None
                /\ exists rest,
                     saved_data (trace w') = saved_data (trace w) ++ rest
                     /\ (List.length rest <= 1)%nat))
    | (Raise _, w') =>
        (evaluations (trace w') = evaluations (trace w)
         /\ saved_data (trace w') = saved_data (trace w))
        \/ (evaluations (trace w') = S (evaluations (trace w))
            /\ exists rest,
                 saved_data (trace w') = saved_data (trace w) ++ rest
                 /\ (List.length rest <= 1)%nat)
    end.
Proof.
  induction fuel as [|fuel IH]; intros nd state w Hnd.
  - simpl. left. split; reflexivity.
  - rewrite run_from_step by exact Hnd.
    rewrite WorkflowFacts.exec_node_unfold.
    remember {| clock := clock w; trace := trace w ++ [EvNode nd] |}
      as w0 eqn:Hw0.
    assert (E0 : evaluations (trace w0) = evaluations (trace w)
                 /\ saved_data (trace w0) = saved_data (trace w)).
    { rewrite Hw0. simpl. rewrite evaluations_app, saved_data_app. simpl.
      rewrite app_nil_r. split; [lia|reflexivity]. }
    destruct E0 as [Ee Es]. clear Hw0.
    destruct nd; try contradiction.
    + (* research *)
      pose proof (research_node_quiet env state w0) as Q.
      destruct (WorkflowFacts.research_node_effect env state w0)
        as [st1 [w1 [E _]]].
      rewrite E in *. simpl in Q. cbn [next_node].
      specialize (IH Generate st1 w1 ltac:(discriminate)).
      rewrite Q, Ee, Es in IH. exact IH.
    + (* generate *)
      destruct (generate_node_quiet env wf state w0) as [Qe Qs].
      destruct (generate_node env wf state w0) as [[st1|e] w1];
        simpl in Qe, Qs.
      * cbn [next_node].
        specialize (IH Evaluate st1 w1 ltac:(discriminate)).
        rewrite Qe, Qs, Ee, Es in IH. exact IH.
      * rewrite Qe, Qs, Ee, Es. left. split; reflexivity.
    + (* evaluate *)
      destruct (evaluate_node_modes env state w0) as [[Hlen Hst]|Hfull].
      * destruct (evaluate_node_pass_through env state w0 Hlen Hst)
          as [-> ->].
        specialize (IH Generate (set_status "generating" state) w0
                      ltac:(discriminate)).
        rewrite Ee, Es in IH. exact IH.
      * rewrite Hfull.
        destruct (evaluate_and_save_detail env state w0)
          as [report [w1 [st' [w' [_ [E [T [_ [Hst [Hdone Hfail]]]]]]]]]].
        rewrite E.
        rewrite (next_node_after_full_pass st' Hst).
        destruct fuel as [|fuel].
        { cbn [run_from]. unfold throw.
          rewrite T, evaluations_app, saved_data_app, Ee, Es.
          right.
          destruct (valid_records report); simpl; (split; [lia|]);
            eexists; (split; [reflexivity|]); simpl; lia. }
        change (run_from env wf (S fuel) END st' w') with (Ok st', w').
        cbv beta iota.
        rewrite T, evaluations_app, saved_data_app, Ee, Es.
        destruct (valid_records report) as [|r0 fin] eqn:Ev; simpl;
          (split; [lia|]).
        { right. destruct Hst as [Hc|Hf].
          - destruct (Hdone Hc) as [_ [Hne _]]. contradiction.
          - destruct (Hfail Hf) as [Hm _].
            split; [exact Hf|]. split; [exact Hm|].
            exists []. split; [reflexivity|simpl; lia]. }
        { destruct Hst as [Hc|Hf].
          - left. destruct (Hdone Hc) as [Hd [Hne Hfp]].
            split; [exact Hc|]. rewrite Hd.
            split; [exact Hne|]. split; [exact Hfp|reflexivity].
          - right. destruct (Hfail Hf) as [Hm _].
            split; [exact Hf|]. split; [exact Hm|].
            eexists. split; [reflexivity|simpl; lia]. }
Qed.

(** X4. Every run of [run_workflow] ends in one of three ways: status
    "completed" with a file path and at least one record; status
    "evaluation_failed" with an error message and no file path; or,
    when an exception left the graph, status "failed" with the
    exception's text, no record and no file path. The statuses of the
    stages in between are never what a caller gets. *)
Theorem run_workflow_outcome :
  forall env wf d f n c w,
    (status (fst (run_workflow env wf d f n c w)) = "completed"
     /\ file_path (fst (run_workflow env wf d f n c w)) <> None
     /\ generated_data (fst (run_workflow env wf d f n c w)) <> [])
    \/ (status (fst (run_workflow env wf d f n c w)) = "evaluation_failed"
        /\ error_message (fst (run_workflow env wf d f n c w)) <> None
        /\ file_path (fst (run_workflow env wf d f n c w)) = None)
    \/ (status (fst (run_workflow env wf d f n c w)) = "failed"
        /\ error_message (fst (run_workflow env wf d f n c w)) <> None
        /\ file_path (fst (run_workflow env wf d f n c w)) = None
        /\ generated_data (fst (run_workflow env wf d f n c w)) = []).
Proof.
  intros env wf d f n c w.
  pose proof (WorkflowFacts.run_workflow_run_state env wf d f n c w) as RS.
  unfold run_workflow, ainvoke in *.
  pose proof (run_from_outcome env wf (recursion_limit wf) Research
                (new_state d f n c "pending" None) w ltac:(discriminate))
    as O.
  destruct (run_from env wf (recursion_limit wf) Research
              (new_state d f n c "pending" None) w) as [[st|e] w'];
    simpl in *.
  - destruct O as [_ [[Hc [Hne [Hfp _]]]|[Hf [Hm _]]]].
    + left. auto.
    + right; left. split; [exact Hf|]. split; [exact Hm|].
      inversion RS as [nd st0 Hreach|e0 He0]; subst.
      * pose proof (WorkflowFacts.reachable_file_invariant _ _ _ _ _ _ _ _
                      Hreach) as Inv.
        apply WorkflowFacts.file_invariant_iff in Inv.
        destruct (file_path st) eqn:Efp; [|reflexivity].
        assert (status st = "completed") by (apply Inv; discriminate).
        congruence.
      * reflexivity.
  - right; right. repeat split; discriminate.
Qed.


End OutcomeFacts.

(** ** Progress of the generation loop *)

Module ProgressFacts.
Import SyntheticDataWorkflow Scenario.

Section Answering.
Variable env : Collaborators.
Variable wf : SyntheticDataWorkflow.

(** The structured client can always be built, and the generation model
    answers every request for at least one record with at least one
    record. *)
Hypothesis client_ok : forall t, with_structured_output env t = Ok tt.
Hypothesis model_answers :
  forall t d f k r c,
    1 <= k ->
    exists r0 rest, ainvoke_generate env t d f k r c = Ok (r0 :: rest).

Hypothesis batch_size_ok : 1 <= batch_size (generator_agent wf) <= 2 ^ 1074.

Lemma generate_synthetic_data_answers d f k r c w :
  1 <= k ->
  exists r0 rest w',
    LLMService.generate_synthetic_data env d f k r c w = (Ok (r0 :: rest), w')
    /\ trace w' = trace w ++ [EvGenerateCall k].
Proof.
  intros Hk. unfold LLMService.generate_synthetic_data. unfold_m. simpl.
  rewrite client_ok. simpl.
  destruct (model_answers (S (clock w)) d f k r c Hk) as [r0 [rest ->]].
  simpl. do 3 eexists. split; reflexivity.
Qed.

(** With the quota unmet, one stage call adds at least one record. *)
Lemma generate_data_batch_progress state w :
  0 < num_records state - len (generated_data state) ->
  exists r0 rest state' w',
    GeneratorAgent.generate_data_batch env (generator_agent wf) state w
    = (Ok state', w')
    /\ generated_data state' = generated_data state ++ r0 :: rest
    /\ num_records state' = num_records state
    /\ current_batch state' = current_batch state + 1
    /\ total_batches state' = total_batches state
    /\ (status state' = "generation_completed"
        <-> num_records state <= len (generated_data state'))
    /\ trace w'
       = trace w
         ++ [EvGenerateCall
               (Z.min (batch_size (generator_agent wf))
                  (num_records state - len (generated_data state)))].
Proof.
  intros Hrem.
  unfold GeneratorAgent.generate_data_batch, try_except, bind.
  destruct (Z.leb_spec (num_records state - len (generated_data state)) 0);
    [lia|].
  destruct (generate_synthetic_data_answers (domain state) (data_format state)
              (Z.min (batch_size (generator_agent wf))
                 (num_records state - len (generated_data state)))
              (GeneratorAgent.parse_research (domain_research state))
              (context state) w ltac:(lia)) as [r0 [rest [w' [-> T]]]].
  exists r0, rest.
  cbn [num_records generated_data set_generated_data set_current_batch].
  destruct (Z.leb_spec (num_records state)
              (len (generated_data state ++ r0 :: rest))) as [Hq|Hq];
    unfold ret; do 2 eexists; (split; [reflexivity|]); simpl;
    repeat split; auto; try discriminate; try lia.
Qed.

Lemma call_progress state w :
  1 <= num_records state <= 2 ^ 53 ->
  0 < num_records state - len (generated_data state) ->
  exists r0 rest state' w',
    generate_node env wf state w = (Ok state', w')
    /\ generated_data state' = generated_data state ++ r0 :: rest
    /\ num_records state' = num_records state
    /\ (status state' = "generation_completed"
        <-> num_records state <= len (generated_data state'))
    /\ trace w'
       = trace w
         ++ [EvGenerateCall
               (Z.min (batch_size (generator_agent wf))
                  (num_records state - len (generated_data state)))].
Proof.
  intros Hn Hrem. unfold generate_node. rewrite GenerationFacts.call_unfold.
  destruct (BatchFacts.calculate_batches_in_range (generator_agent wf)
              (num_records state) Hn batch_size_ok) as [-> _].
  destruct (total_batches state =? 0).
  - destruct (generate_data_batch_progress
                (set_current_batch 0
                   (set_total_batches
                      (ceil_div (num_records state)
                         (batch_size (generator_agent wf))) state)) w Hrem)
      as [r0 [rest [st' [w' [E [Hd [Hnum [_ [_ [Hst T]]]]]]]]]].
    exists r0, rest, st', w'. auto.
  - destruct (generate_data_batch_progress state w Hrem)
      as [r0 [rest [st' [w' [E [Hd [Hnum [_ [_ [Hst T]]]]]]]]]].
    exists r0, rest, st', w'. auto.
Qed.

(** From the Generate node, with [m] records at most still to come and
    two node executions left for each of them, the graph reaches the
    full evaluation: after [j] rounds of Generate and Evaluate
    ([j <= m]) the evaluation service has been asked once, the state is
    "completed" or "evaluation_failed", and only the end of the graph
    is left to reach with what is left of the budget. The loop has made
    [j] requests, each for at least 1 record and at most the batch
    size. *)
Lemma generation_loop_returns (m : nat) :
  forall fuel state w,
    1 <= num_records state <= 2 ^ 53 ->
    0 < num_records state - len (generated_data state) <= Z.of_nat m ->
    (2 * m <= fuel)%nat ->
    exists state' w' sizes,
      run_from env wf fuel Generate state w
      = run_from env wf (fuel - 2 * List.length sizes) END state' w'
      /\ (status state' = "completed" \/ status state' = "evaluation_failed")
      /\ evaluations (trace w') = S (evaluations (trace w))
      /\ requested_sizes (trace w') = requested_sizes (trace w) ++ sizes
      /\ (1 <= List.length sizes <= m)%nat
      /\ Forall (fun k => 1 <= k <= batch_size (generator_agent wf)) sizes.
Proof.
  induction m as [|m IH]; intros fuel state w Hn Hrem Hfuel; [lia|].
  destruct fuel as [|[|fuel]]; try lia.
  rewrite OutcomeFacts.run_from_step by discriminate.
  rewrite WorkflowFacts.exec_node_unfold.
  destruct (call_progress state
              {| clock := clock w; trace := trace w ++ [EvNode Generate] |}
              Hn ltac:(lia))
    as [r0 [rest [st1 [w1 [E [Hd [Hnum [Hst T]]]]]]]].
  rewrite E. cbn [next_node].
  rewrite OutcomeFacts.run_from_step by discriminate.
  rewrite WorkflowFacts.exec_node_unfold.
  assert (Hlen : len (generated_data st1)
                 = len (generated_data state) + 1 + len rest).
  { rewrite Hd, len_app. unfold len. cbn [List.length]. lia. }
  pose proof (len_nonneg rest) as Hrest.
  assert (Hk : 1 <= Z.min (batch_size (generator_agent wf))
                     (num_records state - len (generated_data state))
               <= batch_size (generator_agent wf)) by lia.
  assert (T1 : requested_sizes (trace w1)
               = requested_sizes (trace w)
                 ++ [Z.min (batch_size (generator_agent wf))
                       (num_records state - len (generated_data state))]).
  { rewrite T. simpl trace. rewrite !BatchFacts.requested_sizes_app.
    simpl. now rewrite app_nil_r. }
  assert (V1 : evaluations (trace w1) = evaluations (trace w)).
  { rewrite T. simpl trace.
    rewrite !EvaluationTraceFacts.evaluations_app. simpl. lia. }
  remember {| clock := clock w1; trace := trace w1 ++ [EvNode Evaluate] |}
    as w2 eqn:Hw2.
  assert (T2 : requested_sizes (trace w2) = requested_sizes (trace w1)).
  { rewrite Hw2. simpl. rewrite BatchFacts.requested_sizes_app. simpl.
    now rewrite app_nil_r. }
  assert (V2 : evaluations (trace w2) = evaluations (trace w1)).
  { rewrite Hw2. simpl. rewrite EvaluationTraceFacts.evaluations_app.
    simpl. lia. }
  clear Hw2.
  destruct (OutcomeFacts.evaluate_node_modes env st1 w2) as [[Hl Hs]|Hfull].
  - (* the quota is still unmet: one more turn *)
    destruct (OutcomeFacts.evaluate_node_pass_through env st1 w2 Hl Hs)
      as [-> ->].
    destruct (IH fuel (set_status "generating" st1) w2)
      as [st' [w' [sizes [R [Hstat [Ev [Tr [Hlen' Hall]]]]]]]].
    + simpl. lia.
    + simpl. lia.
    + lia.
    + exists st', w',
        (Z.min (batch_size (generator_agent wf))
           (num_records state - len (generated_data state)) :: sizes).
      split; [|split; [exact Hstat|split; [|split; [|split]]]].
      * rewrite R. f_equal. cbn [List.length]. lia.
      * rewrite Ev, V2, V1. reflexivity.
      * rewrite Tr, T2, T1, <- app_assoc. reflexivity.
      * cbn [List.length]. lia.
      * constructor; assumption.
  - (* full evaluation: only the end of the graph is left *)
    rewrite Hfull.
    destruct (EvaluationTraceFacts.evaluate_and_save_detail env st1 w2)
      as [report [w3 [st' [w' [_ [Es [Tr [_ [Hstat _]]]]]]]]].
    rewrite Es, (OutcomeFacts.next_node_after_full_pass st' Hstat).
    exists st', w',
      [Z.min (batch_size (generator_agent wf))
         (num_records state - len (generated_data state))].
    split; [|split; [exact Hstat|split; [|split; [|split]]]].
    + f_equal. cbn [List.length]. lia.
    + rewrite Tr, EvaluationTraceFacts.evaluations_app, V2, V1.
      destruct (valid_records report); simpl; lia.
    + rewrite Tr, BatchFacts.requested_sizes_app, T2, T1.
      replace (requested_sizes (EvEvaluateCall _ :: _)) with (@nil Z);
        [now rewrite app_nil_r|].
      simpl. destruct (valid_records report); reflexivity.
    + cbn [List.length]. lia.
    + constructor; [exact Hk|constructor].
Qed.

End Answering.

(** X6. The generation loop ends on a full evaluation. With a
    structured client that can be built, a generation model that answers
    every request with at least one record, a record count from 1 to
    [2 ^ 53], a batch size from 1 to [2 ^ 1074] and a bound of at least
    [2 * num_records + 1] node executions, a run reaches the full
    evaluation: the evaluation service is asked exactly once, after at
    most [num_records] generation requests, each for at least one record
    and at most the batch size. With a bound of at least
    [2 * num_records + 2] the run is never "failed": it ends "completed"
    or "evaluation_failed". *)
Theorem run_reaches_the_evaluation :
  forall env wf d f n c,
    (forall t, with_structured_output env t = Ok tt) ->
    (forall t d' f' k r c',
       1 <= k ->
       exists r0 rest, ainvoke_generate env t d' f' k r c' = Ok (r0 :: rest)) ->
    1 <= batch_size (generator_agent wf) <= 2 ^ 1074 ->
    1 <= n <= 2 ^ 53 ->
    (2 * Z.to_nat n + 1 <= recursion_limit wf)%nat ->
    evaluations (trace (snd (run_workflow env wf d f n c world0))) = 1%nat
    /\ 1 <= Z.of_nat
              (List.length
                 (requested_sizes
                    (trace (snd (run_workflow env wf d f n c world0))))) <= n
    /\ Forall (fun k => 1 <= k <= batch_size (generator_agent wf))
         (requested_sizes
            (trace (snd (run_workflow env wf d f n c world0))))
    /\ ((2 * Z.to_nat n + 2 <= recursion_limit wf)%nat ->
        status (fst (run_workflow env wf d f n c world0)) = "completed"
        \/ status (fst (run_workflow env wf d f n c world0))
           = "evaluation_failed").
Proof.
  intros env wf d f n c Hclient Hmodel Hb Hn Hfuel.
  unfold run_workflow, ainvoke.
  destruct (recursion_limit wf) as [|fuel] eqn:Efuel; [lia|].
  rewrite OutcomeFacts.run_from_step by discriminate.
  rewrite WorkflowFacts.exec_node_unfold.
  remember {| clock := clock world0;
              trace := trace world0 ++ [EvNode Research] |} as w0 eqn:Hw0.
  pose proof (OutcomeFacts.research_node_quiet env
                (new_state d f n c "pending" None) w0) as Q.
  destruct (WorkflowFacts.research_node_effect env
              (new_state d f n c "pending" None) w0)
    as [st1 [w1 [E [_ [Hd [_ [Hnum _]]]]]]].
  rewrite E in *. simpl in Q. cbn [next_node].
  destruct (generation_loop_returns env wf Hclient Hmodel Hb (Z.to_nat n)
              fuel st1 w1)
    as [st' [w' [sizes [R [Hstat [Ev [Tr [Hlen Hall]]]]]]]].
  - rewrite Hnum. simpl. exact Hn.
  - rewrite Hnum, Hd. simpl. unfold len. simpl. lia.
  - lia.
  - rewrite R.
    assert (T0 : requested_sizes (trace w1) = []
                 /\ evaluations (trace w1) = 0%nat).
    { rewrite Q, Hw0. split; reflexivity. }
    destruct T0 as [T0 V0]. rewrite T0 in Tr. rewrite V0 in Ev.
    destruct (fuel - 2 * List.length sizes)%nat as [|left] eqn:Eleft;
      cbn [run_from]; unfold throw, ret; cbn [fst snd];
      rewrite Tr, Ev; cbn [app];
      (split; [reflexivity|]); (split; [lia|]); (split; [exact Hall|]).
    + intros Hmore. lia.
    + intros _. exact Hstat.
Qed.

End ProgressFacts.

(** ** A generation model that answers in full *)

Module PlanFacts.
Import SyntheticDataWorkflow Scenario.

Lemma ceil_div_pos a b : 0 < b -> 0 < a -> 1 <= ceil_div a b.
Proof.
  intros Hb Ha. pose proof (FloatFacts.ceil_div_spec a b Hb). nia.
Qed.

Lemma ceil_div_small a b : 0 < a <= b -> ceil_div a b = 1.
Proof. intros H. apply FloatFacts.ceil_div_unique; lia. Qed.

Lemma ceil_div_step a b :
  0 < b -> ceil_div (a - b) b = ceil_div a b - 1.
Proof.
  intros Hb. pose proof (FloatFacts.ceil_div_spec a b Hb).
  apply FloatFacts.ceil_div_unique; [exact Hb|]. nia.
Qed.

Lemma batch_plan_done fuel bs remaining :
  remaining <= 0 -> batch_plan fuel bs remaining = [].
Proof.
  intros H. destruct fuel; [reflexivity|]. simpl.
  destruct (Z.leb_spec remaining 0); [reflexivity|lia].
Qed.

(** The plan has as many batches as the ceiling says, they add up to
    the records wanted, and each is between 1 and the batch size. *)
Lemma batch_plan_shape fuel bs :
  1 <= bs ->
  forall remaining,
    0 <= remaining ->
    ceil_div remaining bs <= Z.of_nat fuel ->
    Z.of_nat (List.length (batch_plan fuel bs remaining))
    = ceil_div remaining bs
    /\ total (batch_plan fuel bs remaining) = remaining
    /\ Forall (fun k => 1 <= k <= bs) (batch_plan fuel bs remaining).
Proof.
  intros Hbs. induction fuel as [|fuel IH]; intros remaining Hrem Hc.
  - assert (remaining = 0).
    { destruct (Z.eq_dec remaining 0); [assumption|].
      pose proof (ceil_div_pos remaining bs ltac:(lia) ltac:(lia)). lia. }
    subst. repeat split; constructor.
  - cbn [batch_plan]. destruct (Z.leb_spec remaining 0) as [H0|H0].
    + assert (remaining = 0) by lia. subst. repeat split; constructor.
    + destruct (Z.min_spec bs remaining) as [[Hlt ->]|[Hge ->]].
      * destruct (IH (remaining - bs) ltac:(lia)) as [L [T F]].
        { rewrite ceil_div_step by lia. lia. }
        cbn [List.length total fold_right]. fold (total (batch_plan fuel bs (remaining - bs))).
        rewrite Nat2Z.inj_succ, L, T, ceil_div_step by lia.
        split; [lia|]. split; [lia|]. constructor; [lia|exact F].
      * replace (remaining - remaining) with 0 by lia.
        rewrite batch_plan_done by lia.
        rewrite ceil_div_small by lia.
        split; [reflexivity|]. split; [simpl; lia|].
        constructor; [lia|constructor].
Qed.

Section AnsweringInFull.
Variable env : Collaborators.
Variable wf : SyntheticDataWorkflow.

(** The structured client can always be built, and the generation model
    answers every request with exactly the number of records asked. *)
Hypothesis client_ok : forall t, with_structured_output env t = Ok tt.
Hypothesis model_in_full :
  forall t d f k r c,
    1 <= k ->
    exists batch, ainvoke_generate env t d f k r c = Ok batch /\ len batch = k.

Hypothesis batch_size_ok : 1 <= batch_size (generator_agent wf) <= 2 ^ 1074.

Lemma model_in_full_answers :
  forall t d f k r c,
    1 <= k ->
    exists r0 rest, ainvoke_generate env t d f k r c = Ok (r0 :: rest).
Proof.
  intros t d f k r c Hk.
  destruct (model_in_full t d f k r c Hk) as [[|r0 rest] [E L]].
  - unfold len in L. simpl in L. lia.
  - eauto.
Qed.

(** One Generate node: the records wanted arrive, the batch counter goes
    up by one from its value after initialisation. *)
Lemma generate_node_in_full state w :
  1 <= num_records state <= 2 ^ 53 ->
  0 < num_records state - len (generated_data state) ->
  exists state' w',
    generate_node env wf state w = (Ok state', w')
    /\ len (generated_data state')
       = len (generated_data state)
         + Z.min (batch_size (generator_agent wf))
             (num_records state - len (generated_data state))
    /\ num_records state' = num_records state
    /\ total_batches state'
       = (if total_batches state =? 0
          then ceil_div (num_records state) (batch_size (generator_agent wf))
          else total_batches state)
    /\ current_batch state'
       = (if total_batches state =? 0 then 0 else current_batch state) + 1
    /\ (status state' = "generation_completed"
        <-> num_records state <= len (generated_data state'))
    /\ trace w'
       = trace w
         ++ [EvGenerateCall
               (Z.min (batch_size (generator_agent wf))
                  (num_records state - len (generated_data state)))].
Proof.
  intros Hn Hrem. unfold generate_node. rewrite GenerationFacts.call_unfold.
  destruct (BatchFacts.calculate_batches_in_range (generator_agent wf)
              (num_records state) Hn batch_size_ok) as [-> _].
  assert (G : forall st,
            num_records st = num_records state ->
            generated_data st = generated_data state ->
            exists state' w',
              GeneratorAgent.generate_data_batch env (generator_agent wf)
                st w = (Ok state', w')
              /\ len (generated_data state')
                 = len (generated_data state)
                   + Z.min (batch_size (generator_agent wf))
                       (num_records state - len (generated_data state))
              /\ num_records state' = num_records state
              /\ total_batches state' = total_batches st
              /\ current_batch state' = current_batch st + 1
              /\ (status state' = "generation_completed"
                  <-> num_records state <= len (generated_data state'))
              /\ trace w'
                 = trace w
                   ++ [EvGenerateCall
                         (Z.min (batch_size (generator_agent wf))
                            (num_records state
                             - len (generated_data state)))]).
  { intros st Hnum Hdata.
    unfold GeneratorAgent.generate_data_batch, try_except, bind.
    rewrite Hnum, Hdata.
    destruct (Z.leb_spec (num_records state - len (generated_data state)) 0);
      [lia|].
    unfold LLMService.generate_synthetic_data. unfold_m. simpl.
    rewrite client_ok. simpl.
    destruct (model_in_full (S (clock w)) (domain st) (data_format st)
                (Z.min (batch_size (generator_agent wf))
                   (num_records state - len (generated_data state)))
                (GeneratorAgent.parse_research (domain_research st))
                (context st) ltac:(lia)) as [batch [-> L]].
    simpl. destruct batch as [|r0 rest].
    { unfold len in *. cbn [List.length] in L. lia. }
    rewrite Hnum.
    destruct (Z.leb_spec (num_records state)
                (len (generated_data state ++ r0 :: rest))) as [Hq|Hq];
      do 2 eexists; (split; [reflexivity|]); simpl;
      rewrite len_app, L; repeat split; auto; try discriminate; try lia;
      rewrite len_app, L in Hq; lia. }
  destruct (total_batches state =? 0).
  - destruct (G (set_current_batch 0
                   (set_total_batches
                      (ceil_div (num_records state)
                         (batch_size (generator_agent wf))) state))
                eq_refl eq_refl)
      as [st' [w' [E [H1 [H2 [H3 [H4 [H5 H6]]]]]]]].
    exists st', w'. simpl in H3, H4. auto 10.
  - destruct (G state eq_refl eq_refl)
      as [st' [w' [E [H1 [H2 [H3 [H4 [H5 H6]]]]]]]].
    exists st', w'. auto 10.
Qed.

(** From the Generate node the graph follows the plan up to the full
    evaluation: two node executions per batch of the plan, after which
    the evaluation service has been asked once, the state is
    "completed" or "evaluation_failed", and only the end of the graph
    is left to reach with what is left of the budget. *)
Lemma generation_loop_follows_plan (m : nat) :
  forall fuel state w,
    1 <= num_records state <= 2 ^ 53 ->
    0 < num_records state - len (generated_data state) ->
    ceil_div (num_records state - len (generated_data state))
      (batch_size (generator_agent wf)) <= Z.of_nat m ->
    (2 * m <= fuel)%nat ->
    exists state' w',
      run_from env wf fuel Generate state w
      = run_from env wf
          (fuel
           - 2 * List.length
                   (batch_plan m (batch_size (generator_agent wf))
                      (num_records state - len (generated_data state))))
          END state' w'
      /\ (status state' = "completed" \/ status state' = "evaluation_failed")
      /\ evaluations (trace w') = S (evaluations (trace w))
      /\ requested_sizes (trace w')
         = requested_sizes (trace w)
           ++ batch_plan m (batch_size (generator_agent wf))
                (num_records state - len (generated_data state))
      /\ total_batches state'
         = (if total_batches state =? 0
            then ceil_div (num_records state)
                   (batch_size (generator_agent wf))
            else total_batches state)
      /\ current_batch state'
         = (if total_batches state =? 0 then 0 else current_batch state)
           + Z.of_nat
               (List.length
                  (batch_plan m (batch_size (generator_agent wf))
                     (num_records state - len (generated_data state)))).
Proof.
  induction m as [|m IH]; intros fuel state w Hn Hrem Hc Hfuel.
  { pose proof (ceil_div_pos _ (batch_size (generator_agent wf))
                  ltac:(lia) Hrem). lia. }
  destruct fuel as [|[|fuel]]; try lia.
  rewrite OutcomeFacts.run_from_step by discriminate.
  rewrite WorkflowFacts.exec_node_unfold.
  destruct (generate_node_in_full state
              {| clock := clock w; trace := trace w ++ [EvNode Generate] |}
              Hn Hrem)
    as [st1 [w1 [E [Hlen [Hnum [Htb [Hcb [Hst T]]]]]]]].
  rewrite E. cbn [next_node].
  rewrite OutcomeFacts.run_from_step by discriminate.
  rewrite WorkflowFacts.exec_node_unfold.
  set (bs := batch_size (generator_agent wf)) in *.
  set (rem := num_records state - len (generated_data state)) in *.
  assert (T1 : requested_sizes (trace w1)
               = requested_sizes (trace w) ++ [Z.min bs rem]).
  { rewrite T. simpl trace. rewrite !BatchFacts.requested_sizes_app.
    simpl. now rewrite app_nil_r. }
  assert (V1 : evaluations (trace w1) = evaluations (trace w)).
  { rewrite T. simpl trace.
    rewrite !EvaluationTraceFacts.evaluations_app. simpl. lia. }
  remember {| clock := clock w1; trace := trace w1 ++ [EvNode Evaluate] |}
    as w2 eqn:Hw2.
  assert (T2 : requested_sizes (trace w2) = requested_sizes (trace w1)).
  { rewrite Hw2. simpl. rewrite BatchFacts.requested_sizes_app. simpl.
    now rewrite app_nil_r. }
  assert (V2 : evaluations (trace w2) = evaluations (trace w1)).
  { rewrite Hw2. simpl. rewrite EvaluationTraceFacts.evaluations_app.
    simpl. lia. }
  clear Hw2.
  assert (Htb1 : total_batches st1 <> 0).
  { rewrite Htb. destruct (Z.eqb_spec (total_batches state) 0); [|assumption].
    pose proof (ceil_div_pos (num_records state) bs ltac:(lia) ltac:(lia)).
    lia. }
  cbn [batch_plan]. destruct (Z.leb_spec rem 0) as [?|_]; [lia|].
  destruct (OutcomeFacts.evaluate_node_modes env st1 w2) as [[Hl Hs]|Hfull].
  - (* the quota is still unmet: the batch was a full one *)
    destruct (OutcomeFacts.evaluate_node_pass_through env st1 w2 Hl Hs)
      as [-> ->].
    assert (Hmin : Z.min bs rem = bs) by lia.
    destruct (IH fuel (set_status "generating" st1) w2)
      as [st' [w' [R [Hstat [Ev [Tr [Htb' Hcb']]]]]]].
    + simpl. lia.
    + simpl. lia.
    + simpl. rewrite Hnum, Hlen, Hmin.
      replace (num_records state - (len (generated_data state) + bs))
        with (rem - bs) by (unfold rem; lia).
      rewrite ceil_div_step by lia. lia.
    + lia.
    + simpl in R, Tr, Htb', Hcb'.
      rewrite Hnum, Hlen in R, Tr, Hcb'.
      replace (num_records state
               - (len (generated_data state) + Z.min bs rem))
        with (rem - Z.min bs rem) in R, Tr, Hcb' by (unfold rem; lia).
      apply Z.eqb_neq in Htb1. rewrite Htb1 in Htb', Hcb'.
      exists st', w'.
      split; [|split; [exact Hstat|split; [|split; [|split]]]].
      * rewrite R. f_equal. cbn [List.length]. lia.
      * rewrite Ev, V2, V1. reflexivity.
      * rewrite Tr, T2, T1, <- app_assoc. reflexivity.
      * rewrite Htb'. exact Htb.
      * rewrite Hcb', Hcb. cbn [List.length]. lia.
  - (* the quota is met: full evaluation, only the end is left *)
    rewrite Hfull.
    assert (Hmet : num_records st1 <= len (generated_data st1)).
    { destruct (Z.le_gt_cases (num_records st1) (len (generated_data st1)))
        as [?|Hlt]; [assumption|].
      exfalso.
      unfold evaluate_node, EvaluatorAgent.call in Hfull.
      destruct (Z.leb_spec (num_records st1) (len (generated_data st1)));
        [lia|].
      destruct (String.eqb_spec (status st1) "generation_completed")
        as [Hcomp|Hnc].
      - apply Hst in Hcomp. lia.
      - simpl in Hfull.
        destruct (EvaluationFacts.evaluate_and_save_cases env st1 w2)
          as [x [y [Ex [[msg [-> _]]|[fin [path [_ ->]]]]]]];
          rewrite Ex in Hfull; inversion Hfull as [Hq];
          apply (f_equal status) in Hq; simpl in Hq; discriminate. }
    assert (Hmin : Z.min bs rem = rem) by lia.
    rewrite Hmin. replace (rem - rem) with 0 by lia.
    rewrite batch_plan_done by lia.
    destruct (EvaluationFacts.evaluate_and_save_cases env st1 w2)
      as [st' [w' [Es Hcases]]].
    destruct (EvaluationTraceFacts.evaluate_and_save_detail env st1 w2)
      as [report [w3 [st'' [w'' [_ [Es' [Tr [_ [Hstat _]]]]]]]]].
    rewrite Es in Es'. inversion Es'; subst st'' w''.
    rewrite Es, (OutcomeFacts.next_node_after_full_pass st' Hstat).
    exists st', w'.
    split; [|split; [exact Hstat|split; [|split; [|split]]]].
    + f_equal. cbn [List.length]. lia.
    + rewrite Tr, EvaluationTraceFacts.evaluations_app, V2, V1.
      destruct (valid_records report); simpl; lia.
    + rewrite Tr, BatchFacts.requested_sizes_app, T2, T1, Hmin.
      replace (requested_sizes (EvEvaluateCall _ :: _)) with (@nil Z);
        [now rewrite app_nil_r|].
      simpl. destruct (valid_records report); reflexivity.
    + destruct Hcases as [[msg [-> _]]|[fin [path [_ ->]]]]; exact Htb.
    + destruct Hcases as [[msg [-> _]]|[fin [path [_ ->]]]]; simpl;
        rewrite Hcb; lia.
Qed.

End AnsweringInFull.

(** X7. With a generation model that answers every request in full (and
    a structured client that can be built, a record count from 1 to
    [2 ^ 53], a batch size from 1 to [2 ^ 1074], and a budget of two
    node executions per batch plus one), a run follows the batch plan up
    to the full evaluation: it makes exactly
    [ceil(num_records / batch_size)] requests, every one for the batch
    size but the last, which is for what remains; the sizes add up to
    [num_records]; and the evaluation service is asked once. With one
    more node in the budget the run returns from the graph, and the
    state has [current_batch] equal to [total_batches], the ceiling of
    [num_records / batch_size]. With exactly that budget the runtime
    raises after the last Evaluate node, and the run ends "failed" with
    the fresh state of the outer handler. *)
Theorem run_follows_the_batch_plan :
  forall env wf d f n c,
    (forall t, with_structured_output env t = Ok tt) ->
    (forall t d' f' k r c',
       1 <= k ->
       exists batch,
         ainvoke_generate env t d' f' k r c' = Ok batch /\ len batch = k) ->
    1 <= batch_size (generator_agent wf) <= 2 ^ 1074 ->
    1 <= n <= 2 ^ 53 ->
    (2 * Z.to_nat (ceil_div n (batch_size (generator_agent wf))) + 1
     <= recursion_limit wf)%nat ->
    requested_sizes (trace (snd (run_workflow env wf d f n c world0)))
    = batch_plan (Z.to_nat (ceil_div n (batch_size (generator_agent wf))))
        (batch_size (generator_agent wf)) n
    /\ Z.of_nat
         (List.length
            (requested_sizes
               (trace (snd (run_workflow env wf d f n c world0)))))
       = ceil_div n (batch_size (generator_agent wf))
    /\ total (requested_sizes
                (trace (snd (run_workflow env wf d f n c world0)))) = n
    /\ Forall (fun k => 1 <= k <= batch_size (generator_agent wf))
         (requested_sizes
            (trace (snd (run_workflow env wf d f n c world0))))
    /\ evaluations (trace (snd (run_workflow env wf d f n c world0))) = 1%nat
    /\ ((2 * Z.to_nat (ceil_div n (batch_size (generator_agent wf))) + 2
         <= recursion_limit wf)%nat ->
        total_batches (fst (run_workflow env wf d f n c world0))
        = ceil_div n (batch_size (generator_agent wf))
        /\ current_batch (fst (run_workflow env wf d f n c world0))
           = total_batches (fst (run_workflow env wf d f n c world0))
        /\ (status (fst (run_workflow env wf d f n c world0)) = "completed"
            \/ status (fst (run_workflow env wf d f n c world0))
               = "evaluation_failed"))
    /\ (recursion_limit wf
        = (2 * Z.to_nat (ceil_div n (batch_size (generator_agent wf))) + 1)%nat
        ->
        status (fst (run_workflow env wf d f n c world0)) = "failed"
        /\ error_message (fst (run_workflow env wf d f n c world0))
           = Some (recursion_error wf)
        /\ total_batches (fst (run_workflow env wf d f n c world0)) = 0
        /\ generated_data (fst (run_workflow env wf d f n c world0)) = []
        /\ file_path (fst (run_workflow env wf d f n c world0)) = None).
Proof.
  intros env wf d f n c Hclient Hmodel Hb Hn Hfuel.
  set (bs := batch_size (generator_agent wf)) in *.
  pose proof (ceil_div_pos n bs ltac:(lia) ltac:(lia)) as Hc1.
  destruct (batch_plan_shape (Z.to_nat (ceil_div n bs)) bs ltac:(lia) n
              ltac:(lia) ltac:(lia)) as [PL [PT PF]].
  unfold run_workflow, ainvoke.
  destruct (recursion_limit wf) as [|fuel] eqn:Efuel; [lia|].
  rewrite OutcomeFacts.run_from_step by discriminate.
  rewrite WorkflowFacts.exec_node_unfold.
  remember {| clock := clock world0;
              trace := trace world0 ++ [EvNode Research] |} as w0 eqn:Hw0.
  pose proof (OutcomeFacts.research_node_quiet env
                (new_state d f n c "pending" None) w0) as Q.
  destruct (WorkflowFacts.research_node_effect env
              (new_state d f n c "pending" None) w0)
    as [st1 [w1 [E [_ [Hd [Htb [Hnum _]]]]]]].
  rewrite E in *. simpl in Q, Hd, Htb, Hnum. cbn [next_node].
  assert (Hrem : num_records st1 - len (generated_data st1) = n).
  { rewrite Hnum, Hd. unfold len. simpl. lia. }
  destruct (generation_loop_follows_plan env wf Hclient Hmodel Hb
              (Z.to_nat (ceil_div n bs)) fuel st1 w1)
    as [st' [w' [R [Hstat [Ev [Tr [Htb' Hcb']]]]]]].
  - rewrite Hnum. exact Hn.
  - rewrite Hrem. lia.
  - rewrite Hrem. fold bs. lia.
  - lia.
  - assert (T0 : requested_sizes (trace w1) = []
                 /\ evaluations (trace w1) = 0%nat).
    { rewrite Q, Hw0. split; reflexivity. }
    destruct T0 as [T0 V0].
    rewrite Hrem in R, Tr, Hcb'. fold bs in R, Tr, Hcb', Htb'.
    rewrite Htb, Hnum in *. simpl in Htb', Hcb'.
    rewrite T0 in Tr. rewrite V0 in Ev. rewrite R.
    assert (PL' : List.length (batch_plan (Z.to_nat (ceil_div n bs)) bs n)
                  = Z.to_nat (ceil_div n bs)) by lia.
    rewrite PL'.
    destruct (fuel - 2 * Z.to_nat (ceil_div n bs))%nat as [|left] eqn:Eleft;
      cbn [run_from]; unfold throw, ret; cbn [fst snd];
      rewrite Tr, Ev; cbn [app];
      (split; [reflexivity|]); (split; [exact PL|]); (split; [exact PT|]);
      (split; [exact PF|]); (split; [reflexivity|]).
    + split; [intros Hmore; lia|]. intros _. simpl. auto.
    + split; [|intros Heq; inversion Heq; lia]. intros _.
      split; [exact Htb'|]. split; [|exact Hstat].
      rewrite Hcb', Htb', PL. lia.
Qed.

End PlanFacts.

(** ** The Research stage and its model *)

Module ResearchFacts.
Import SyntheticDataWorkflow.

(** X8. The Research stage absorbs a failure of its model: when the
    scraper block and the structured client answer, the stage ends
    "research_completed" after three calls to the outside, whatever the
    model call does, and touches no error message; the research stored
    is the dump of the model's summary, or, when the model call fails,
    of a summary made of the enriched context alone (no key concept, no
    terminology). *)
Theorem research_absorbs_model_failure :
  forall env state w enriched,
    enrich_context_with_web_data env (clock w) (domain state)
      (get_domain_context env (domain state) (context state))
      (context state) = Ok enriched ->
    with_structured_output env (S (clock w)) = Ok tt ->
    exists state',
      research_node env state w
      = (Ok state', {| clock := S (S (S (clock w))); trace := trace w |})
      /\ status state' = "research_completed"
      /\ error_message state' = error_message state
      /\ generated_data state' = generated_data state
      /\ (forall r,
            ainvoke_research env (S (S (clock w))) (domain state) enriched
            = Ok r ->
            domain_research state' = Some (model_dump_json env r))
      /\ (forall e,
            ainvoke_research env (S (S (clock w))) (domain state) enriched
            = Raise e ->
            domain_research state'
            = Some (model_dump_json env
                      {| domain_info := enriched;
                         key_concepts := [];
                         terminology := [];
                         context_enriched := enriched |})).
Proof.
  intros env state w enriched Henrich Hclient.
  unfold research_node, ResearchAgent.call, ResearchAgent.research_domain,
    LLMService.research_domain.
  unfold_m. simpl. rewrite Henrich. simpl. rewrite Hclient. simpl.
  destruct (ainvoke_research env (S (S (clock w))) (domain state) enriched)
    as [r|e]; simpl; eexists; (split; [reflexivity|]); simpl;
    repeat split; try reflexivity; try discriminate.
  intros r' Hr. inversion Hr; subst r'. destruct r; reflexivity.
Qed.

End ResearchFacts.

(** ** The properties with a premise, at concrete inputs *)

Module Instances.
Import SyntheticDataWorkflow Scenario Cases.

(** X3, at a concrete input: the structured client cannot be built; of
    the three records the basic tiers keep the first. *)
Lemma basic_validation_only_witness :
  exists state' w',
    EvaluatorAgent.evaluate_and_save client_down drafts world0
    = (Ok state', w')
    /\ saved_data (trace w') = [ [ [("a", VStr "alpha"); ("b", VNum 2)] ] ].
Proof.
  destruct (EvaluationTraceFacts.basic_validation_only client_down drafts
              world0)
    as [report [w1 [state' [w' [_ [_ [_ [Es [_ [Hsaved _]]]]]]]]]].
  - left. do 2 eexists. reflexivity.
  - exists state', w'. split; [exact Es|].
    rewrite Hsaved; [reflexivity|discriminate].
Defined.

(** X6, at a concrete input: ten records from collaborators that all
    answer, in batches of 15 and within 25 node executions. *)
Lemma run_reaches_the_evaluation_witness :
  evaluations
    (trace (snd (run_workflow healthy workflow "healthcare" "qna" 10 None
                   world0))) = 1%nat.
Proof.
  apply (ProgressFacts.run_reaches_the_evaluation healthy workflow
           "healthcare" "qna" 10 None).
  - intros t. reflexivity.
  - intros t d' f' k r c' Hk. simpl.
    destruct (Z.to_nat k) as [|m] eqn:Ek; [lia|].
    unfold qna_batch. simpl. eauto.
  - split; [simpl; lia|]. apply Z.leb_le. reflexivity.
  - split; [lia|]. apply Z.leb_le. reflexivity.
  - apply Nat.leb_le. reflexivity.
Defined.

(** X7, at a concrete input: forty records in batches of 15. *)
Lemma run_follows_the_batch_plan_witness :
  requested_sizes
    (trace (snd (run_workflow healthy workflow "healthcare" "qna" 40 None
                   world0))) = [15; 15; 10]
  /\ total_batches
       (fst (run_workflow healthy workflow "healthcare" "qna" 40 None
               world0)) = 3.
Proof.
  destruct (PlanFacts.run_follows_the_batch_plan healthy workflow
              "healthcare" "qna" 40 None)
    as [Hsizes [_ [_ [_ [_ [Hmore _]]]]]].
  - intros t. reflexivity.
  - intros t d' f' k r c' Hk. eexists. split; [reflexivity|].
    unfold len, qna_batch. rewrite length_map, length_seq. lia.
  - split; [simpl; lia|]. apply Z.leb_le. reflexivity.
  - split; [lia|]. apply Z.leb_le. reflexivity.
  - apply Nat.leb_le. reflexivity.
  - split; [rewrite Hsizes; reflexivity|].
    destruct Hmore as [Htotal _]; [apply Nat.leb_le; reflexivity|].
    rewrite Htotal. reflexivity.
Defined.

(** X8, at a concrete input: the research model is down. *)
Lemma research_absorbs_model_failure_witness :
  exists state',
    research_node research_model_down (request 10) world0
    = (Ok state', {| clock := 3; trace := [] |})
    /\ status state' = "research_completed".
Proof.
  destruct (ResearchFacts.research_absorbs_model_failure research_model_down
              (request 10) world0 "Healthcare domain" eq_refl eq_refl)
    as [state' [E [Hs _]]].
  exists state'. split; [exact E|exact Hs].
Defined.

End Instances.

(** ** The web scraper *)

Module ScraperFacts.
Import ScraperService.

Lemma solid_append a b : solid a -> solid (String.append a b).
Proof. destruct a; [contradiction|exact (fun H => H)]. Qed.

Lemma append_assoc a b c :
  String.append (String.append a b) c = String.append a (String.append b c).
Proof. induction a as [|x a IH]; simpl; [reflexivity|now rewrite IH]. Qed.

Lemma lstrip_solid s : solid s -> PyStr.lstrip s = s.
Proof. destruct s as [|c s]; [contradiction|]. simpl. now intros ->. Qed.

Lemma rstrip_keeps c s :
  PyStr.is_space c = false ->
  PyStr.rstrip (String c s) = String c (PyStr.rstrip s).
Proof.
  intros H. simpl. rewrite H. destruct (PyStr.rstrip s); reflexivity.
Qed.

Lemma rstrip_solid s : solid s -> solid (PyStr.rstrip s).
Proof.
  destruct s as [|c s]; [contradiction|]. intros H.
  rewrite (rstrip_keeps c s H). exact H.
Qed.

Lemma solid_nonempty s : solid s -> nonempty s = true.
Proof. destruct s; [contradiction|reflexivity]. Qed.

(** A string that starts with such a character is not blank. *)
Lemma strip_solid s : solid s -> solid (PyStr.strip s).
Proof.
  intros H. unfold PyStr.strip. rewrite (lstrip_solid s H).
  now apply rstrip_solid.
Qed.

(** What follows a kept character is kept with it. *)
Lemma rstrip_append a b :
  nonempty (PyStr.rstrip b) = true ->
  PyStr.rstrip (String.append a b) = String.append a (PyStr.rstrip b).
Proof.
  intros H. induction a as [|c a IH]; [reflexivity|].
  cbn [String.append PyStr.rstrip]. rewrite IH.
  destruct (String.append a (PyStr.rstrip b)) eqn:E; [|reflexivity].
  destruct a; simpl in E; [|discriminate].
  rewrite E in H. discriminate.
Qed.

Lemma concat_solid sep p ps : solid p -> solid (String.concat sep (p :: ps)).
Proof.
  intros H. destruct ps; [exact H|]. cbn [String.concat].
  now apply solid_append.
Qed.

Lemma fold_left_snoc_app {A B : Type} (f : B -> list A) (l : list B) :
  forall acc,
    fold_left (fun acc x => acc ++ f x) l acc = acc ++ flat_map f l.
Proof.
  induction l as [|x l IH]; intros acc; simpl.
  - now rewrite app_nil_r.
  - rewrite IH. now rewrite app_assoc.
Qed.

(** Every part collected from an answer starts with its label. *)
Lemma content_parts_solid data : Forall solid (content_parts data).
Proof.
  unfold content_parts.
  set (step := fun parts topic =>
                 match topic with
                 | TopicDict (Some text) =>
                     if nonempty text
                     then parts ++ [String.append "Related: " text]
                     else parts
                 | _ => parts
                 end).
  assert (F : forall l acc, Forall solid acc ->
                            Forall solid (fold_left step l acc)).
  { induction l as [|t l IH]; intros acc Hacc; [exact Hacc|].
    simpl. apply IH. unfold step.
    destruct t as [[text|]|]; try exact Hacc.
    destruct (nonempty text); [|exact Hacc].
    apply Forall_app. split; [exact Hacc|].
    constructor; [reflexivity|constructor]. }
  assert (P : Forall solid
                (fold_left step (firstn 3 (RelatedTopics data))
                   (if nonempty (Abstract data)
                    then [String.append "Overview: " (Abstract data)]
                    else []))).
  { apply F. destruct (nonempty (Abstract data)); repeat constructor. }
  destruct (nonempty (Answer data)); [|exact P].
  apply Forall_app. split; [exact P|]. repeat constructor.
Qed.

(** The five base queries fill the limit. *)
Lemma get_search_queries_eq domain context :
  get_search_queries domain context
  = [ String.append domain " best practices";
      String.append domain " terminology glossary";
      String.append domain " industry standards";
      String.append domain " common procedures";
      String.append domain " key concepts" ].
Proof.
  unfold get_search_queries.
  rewrite (fold_left_snoc_app
             (fun keyword =>
                [String.append keyword
                   (String.append " " (String.append domain " guide"))])).
  destruct context as [c|]; [destruct (nonempty c)|];
    rewrite <- ?app_assoc; reflexivity.
Qed.

(** X9. The scraper always asks the same five questions about a domain:
    the keyword queries and the query made from the user's context are
    appended after them and cut off by the limit of five, so neither the
    keywords of the domain nor the context ever reach the search. *)
Theorem get_search_queries_base :
  forall domain context,
    get_search_queries domain context
    = [ String.append domain " best practices";
        String.append domain " terminology glossary";
        String.append domain " industry standards";
        String.append domain " common procedures";
        String.append domain " key concepts" ]
    /\ get_search_queries domain context = get_search_queries domain None.
Proof.
  intros domain context. split; [apply get_search_queries_eq|].
  now rewrite !get_search_queries_eq.
Qed.

Section Session.
Variable session_get : nat -> string -> result SearchAnswer.

(** One search: one call to the session, and an answer that starts with
    a label whatever the session did. *)
Lemma search_and_extract_effect query w :
  exists text,
    search_and_extract session_get query w
    = (Ok text, {| clock := S (clock w); trace := trace w |})
    /\ solid text
    /\ (forall e, session_get (clock w) query = Raise e ->
        text = String.append "General knowledge about " query)
    /\ (forall data, session_get (clock w) query = Ok data ->
        content_parts data = [] ->
        text = String.append "Basic information about " query).
Proof.
  unfold search_and_extract. unfold_m. cbn [clock trace].
  destruct (session_get (clock w) query) as [data|e].
  - pose proof (content_parts_solid data) as Hs.
    destruct (content_parts data) as [|p ps] eqn:E.
    + eexists. split; [reflexivity|]. split; [reflexivity|].
      split; [intros e He; discriminate|reflexivity].
    + inversion Hs as [|? ? Sp _]; subst.
      eexists. split; [reflexivity|].
      split; [exact (concat_solid " | " p ps Sp)|].
      split; [intros e He; discriminate|].
      intros data' Hd Hnil. inversion Hd; subst data'.
      rewrite E in Hnil. discriminate.
  - eexists. split; [reflexivity|]. split; [reflexivity|].
    split; [reflexivity|intros data Hd; discriminate].
Qed.

(** X10. [search_and_extract] never raises and never answers with a
    blank text: it makes one call to the session, and what it returns
    is not empty after [strip] (which removes nothing at its start),
    whether the session answered with content, answered without
    ("Basic information about ...") or failed ("General knowledge about
    ..."). *)
Theorem search_and_extract_never_blank :
  forall query w,
    exists text,
      search_and_extract session_get query w
      = (Ok text, {| clock := S (clock w); trace := trace w |})
      /\ nonempty (PyStr.strip text) = true
      /\ PyStr.lstrip text = text
      /\ (forall e, session_get (clock w) query = Raise e ->
          text = String.append "General knowledge about " query)
      /\ (forall data, session_get (clock w) query = Ok data ->
          content_parts data = [] ->
          text = String.append "Basic information about " query).
Proof.
  intros query w.
  destruct (search_and_extract_effect query w)
    as [text [E [Hs [R B]]]].
  exists text. split; [exact E|].
  split; [apply solid_nonempty, strip_solid, Hs|].
  split; [apply lstrip_solid, Hs|]. split; assumption.
Qed.

(** A round of searches: every result is a text and counts as valid. *)
Lemma gather_searches queries :
  forall w,
    exists texts,
      gather (map (search_and_extract session_get) queries) w
      = (Ok (map Ok texts),
         {| clock := (List.length queries + clock w)%nat;
            trace := trace w |})
      /\ List.length texts = List.length queries
      /\ Forall solid texts
      /\ valid_results (map Ok texts) = texts
      /\ ((forall t q e, session_get t q <> Ok e) ->
          texts = map (String.append "General knowledge about ") queries).
Proof.
  induction queries as [|q queries IH]; intros w.
  - exists []. simpl. unfold ret. destruct w; repeat split; constructor.
  - destruct (search_and_extract_effect q w) as [text [E [Hs [R _]]]].
    destruct (IH {| clock := S (clock w); trace := trace w |})
      as [texts [G [L [F [V D]]]]].
    exists (text :: texts). cbn [map gather]. rewrite E, G. simpl.
    rewrite (solid_nonempty _ (strip_solid _ Hs)), V, L.
    split; [do 2 f_equal; f_equal; lia|].
    split; [reflexivity|]. split; [constructor; assumption|].
    split; [reflexivity|].
    intros Hdown. f_equal; [|exact (D Hdown)].
    destruct (session_get (clock w) q) as [data|e] eqn:Es.
    + exfalso. exact (Hdown _ _ _ Es).
    + exact (R e eq_refl).
Qed.

(** The five searches of [scrape_domain_info] all count. *)
Lemma scrape_domain_info_effect domain context w :
  exists texts,
    scrape_domain_info session_get domain context w
    = (Ok {| scraped_content := String.concat " | " texts;
             source_queries := get_search_queries domain context;
             domain_keywords_found := domain_keywords domain;
             search_success := true |},
       {| clock := (5 + clock w)%nat; trace := trace w |})
    /\ List.length texts = 5%nat
    /\ Forall solid texts
    /\ ((forall t q e, session_get t q <> Ok e) ->
        texts = map (String.append "General knowledge about ")
                  (get_search_queries domain context)).
Proof.
  pose proof (get_search_queries_eq domain context) as Q.
  destruct (gather_searches (get_search_queries domain context) w)
    as [texts [G [L [F [V D]]]]].
  exists texts. unfold scrape_domain_info. unfold_m. rewrite G, V.
  assert (L5 : List.length texts = 5%nat) by (rewrite L, Q; reflexivity).
  split; [|split; [exact L5|split; [exact F|exact D]]].
  rewrite <- L, L5. destruct texts as [|t texts]; [discriminate|].
  unfold len. rewrite L5. reflexivity.
Qed.

(** X11. [scrape_domain_info] always reports a successful search: its
    five searches all count as valid, so the description of the domain
    is never used in their place and [search_success] is [True] even
    when every request to the search API failed, in which case the
    content is "General knowledge about ..." five times over; the
    content is the five answers joined by " | ". *)
Theorem scrape_domain_info_always_succeeds :
  forall domain context w,
    exists texts,
      scrape_domain_info session_get domain context w
      = (Ok {| scraped_content := String.concat " | " texts;
               source_queries := get_search_queries domain context;
               domain_keywords_found := domain_keywords domain;
               search_success := true |},
         {| clock := (5 + clock w)%nat; trace := trace w |})
      /\ List.length texts = 5%nat
      /\ Forall (fun text => nonempty (PyStr.strip text) = true) texts
      /\ ((forall t q e, session_get t q <> Ok e) ->
          texts = map (String.append "General knowledge about ")
                    (get_search_queries domain context)).
Proof.
  intros domain context w.
  destruct (scrape_domain_info_effect domain context w)
    as [texts [E [L [F D]]]].
  exists texts. split; [exact E|]. split; [exact L|]. split; [|exact D].
  eapply Forall_impl; [|exact F].
  intros text Hs. apply solid_nonempty, strip_solid, Hs.
Qed.

(** X12. [enrich_context_with_web_data] never raises and never falls
    back to the bare base context: after five calls to the session it
    returns the enriched text, which starts with "Base Context: ",
    carries the base context and the search results verbatim and, from
    "Domain Keywords:" on, is trimmed of the white space at its end. *)
Theorem enrich_context_layout :
  forall domain base_context user_context w,
    exists info,
      scrape_domain_info session_get domain user_context w
      = (Ok info, {| clock := (5 + clock w)%nat; trace := trace w |})
      /\ enrich_context_with_web_data session_get domain base_context
           user_context w
         = (Ok (String.concat ""
                  [ "Base Context: "; base_context; nl; nl;
                    "Web Research Results: "; scraped_content info; nl; nl;
                    "Domain Keywords:";
                    PyStr.rstrip
                      (String.concat ""
                         [ " "; String.concat ", " (domain_keywords domain);
                           nl;
                           if truthy user_context
                           then String.append nl
                                  (String.append "User Specific Context: "
                                     match user_context with
                                     | Some c => c
                                     | None => EmptyString
                                     end)
                           else EmptyString ]) ]),
            {| clock := (5 + clock w)%nat; trace := trace w |}).
Proof.
  intros domain base_context user_context w.
  destruct (scrape_domain_info_effect domain user_context w)
    as [texts [E _]].
  eexists. split; [exact E|].
  unfold enrich_context_with_web_data. unfold_m. rewrite E.
  cbn [scraped_content domain_keywords_found].
  f_equal. f_equal.
  set (kw := String.concat ", " (domain_keywords domain)).
  set (content := String.concat " | " texts).
  set (extra := if truthy user_context
                then String.append nl
                       (String.append "User Specific Context: "
                          match user_context with
                          | Some c => c
                          | None => EmptyString
                          end)
                else EmptyString).
  assert (Shape :
    (match user_context with
     | Some c =>
         if nonempty c
         then String.append
                (String.concat ""
                   [nl; "Base Context: "; base_context; nl; nl;
                    "Web Research Results: "; content; nl; nl;
                    "Domain Keywords: "; kw; nl])
                (String.append nl (String.append "User Specific Context: " c))
         else String.concat ""
                [nl; "Base Context: "; base_context; nl; nl;
                 "Web Research Results: "; content; nl; nl;
                 "Domain Keywords: "; kw; nl]
     | None => String.concat ""
                 [nl; "Base Context: "; base_context; nl; nl;
                  "Web Research Results: "; content; nl; nl;
                  "Domain Keywords: "; kw; nl]
     end)
    = String.append nl
        (String.append
           (String.concat ""
              [ "Base Context: "; base_context; nl; nl;
                "Web Research Results: "; content; nl; nl;
                "Domain Keywords" ])
           (String ":"
              (String.concat "" [" "; kw; nl; extra])))).
  { unfold extra.
    destruct user_context as [c|]; [destruct (nonempty c) eqn:Ec|];
      cbn [truthy]; rewrite ?Ec;
      cbn [String.concat String.append nl];
      repeat (rewrite append_assoc; cbn [String.append]);
      reflexivity. }
  rewrite Shape. unfold PyStr.strip.
  change (PyStr.lstrip (String.append nl ?x)) with (PyStr.lstrip x).
  rewrite lstrip_solid by reflexivity.
  rewrite rstrip_append by (rewrite rstrip_keeps by reflexivity; reflexivity).
  rewrite rstrip_keeps by reflexivity.
  cbn [String.concat String.append nl].
  repeat (rewrite append_assoc; cbn [String.append]).
  reflexivity.
Qed.

End Session.
End ScraperFacts.

(** ** The API *)

Module ApiFacts.
Import SyntheticDataWorkflow Main.

Lemma mem_In x l : PyStr.mem x l = true <-> In x l.
Proof.
  unfold PyStr.mem. rewrite existsb_exists. split.
  - intros [y [Hy E]]. apply String.eqb_eq in E. now subst.
  - intros H. exists x. split; [exact H|apply String.eqb_refl].
Qed.

(** The enumerations of the API and the tables of the configuration
    name the same domains and the same formats. *)
Lemma domain_supported domain :
  PyStr.mem domain (map fst SUPPORTED_DOMAINS) = true
  <-> exists d, DomainEnum_value d = domain.
Proof.
  rewrite mem_In. split.
  - simpl. intros [H|[H|[H|[H|[H|[H|[]]]]]]]; subst;
      [exists HEALTHCARE|exists FINANCE|exists BUSINESS|exists LAW
      |exists TECHNOLOGY|exists EDUCATION]; reflexivity.
  - intros [d <-]. destruct d; simpl; tauto.
Qed.

Lemma format_supported data_format :
  PyStr.mem data_format (map fst SUPPORTED_FORMATS) = true
  <-> exists f, DataFormatEnum_value f = data_format.
Proof.
  rewrite mem_In. split.
  - simpl. intros [H|[H|[H|[H|[]]]]]; subst;
      [exists QNA|exists ENTITY_RELATIONSHIPS|exists RAG_CHUNKS
      |exists FINE_TUNING]; reflexivity.
  - intros [f <-]. destruct f; simpl; tauto.
Qed.

Lemma validate_request_data_keys domain data_format n :
  map fst (validate_request_data domain data_format n)
  = (if PyStr.mem domain (map fst SUPPORTED_DOMAINS) then [] else ["domain"])
    ++ (if PyStr.mem data_format (map fst SUPPORTED_FORMATS)
        then [] else ["data_format"])
    ++ (if (n <? 1) || (1000 <? n) then ["num_records"] else []).
Proof.
  unfold validate_request_data.
  destruct (PyStr.mem domain (map fst SUPPORTED_DOMAINS));
    destruct (PyStr.mem data_format (map fst SUPPORTED_FORMATS));
    destruct ((n <? 1) || (1000 <? n)); reflexivity.
Qed.

Lemma count_out_of_range n :
  (n <? 1) || (1000 <? n) = true <-> n < 1 \/ 1000 < n.
Proof. rewrite orb_true_iff, !Z.ltb_lt. tauto. Qed.

Lemma validate_request_data_nil domain data_format n :
  validate_request_data domain data_format n = []
  <-> PyStr.mem domain (map fst SUPPORTED_DOMAINS) = true
      /\ PyStr.mem data_format (map fst SUPPORTED_FORMATS) = true
      /\ (n <? 1) || (1000 <? n) = false.
Proof.
  split.
  - intros H. apply (f_equal (map fst)) in H.
    rewrite validate_request_data_keys in H.
    destruct (PyStr.mem domain (map fst SUPPORTED_DOMAINS));
      destruct (PyStr.mem data_format (map fst SUPPORTED_FORMATS));
      destruct ((n <? 1) || (1000 <? n)); try discriminate; auto.
  - intros [H1 [H2 H3]]. unfold validate_request_data.
    rewrite H1, H2, H3. reflexivity.
Qed.

Lemma error_keys (a b c : bool) :
  (In "domain"
     ((if a then [] else ["domain"])
      ++ (if b then [] else ["data_format"])
      ++ (if c then ["num_records"] else [])) <-> a = false)
  /\ (In "data_format"
        ((if a then [] else ["domain"])
         ++ (if b then [] else ["data_format"])
         ++ (if c then ["num_records"] else [])) <-> b = false)
  /\ (In "num_records"
        ((if a then [] else ["domain"])
         ++ (if b then [] else ["data_format"])
         ++ (if c then ["num_records"] else [])) <-> c = true).
Proof.
  destruct a, b, c; simpl; repeat split; intros H; try reflexivity;
    try discriminate; try tauto;
    repeat (destruct H as [H|H]; try discriminate; try contradiction).
Qed.

Lemma false_iff_none {A : Type} (b : bool) (P : A -> Prop) :
  (b = true <-> exists x, P x) -> (b = false <-> forall x, ~ P x).
Proof.
  intros H. rewrite <- not_true_iff_false, H. firstorder.
Qed.

(** X13. [validate_request_data] reports a parameter exactly when it is
    out of its set: the domain when it is not the value of a
    [DomainEnum], the format when it is not the value of a
    [DataFormatEnum], the count when it is below 1 or above 1000; the
    dictionary is empty exactly when all three are in. *)
Theorem validate_request_data_reports :
  forall domain data_format n,
    (In "domain" (map fst (validate_request_data domain data_format n))
     <-> forall d, DomainEnum_value d <> domain)
    /\ (In "data_format"
          (map fst (validate_request_data domain data_format n))
        <-> forall f, DataFormatEnum_value f <> data_format)
    /\ (In "num_records"
          (map fst (validate_request_data domain data_format n))
        <-> n < 1 \/ 1000 < n)
    /\ (validate_request_data domain data_format n = []
        <-> (exists d, DomainEnum_value d = domain)
            /\ (exists f, DataFormatEnum_value f = data_format)
            /\ 1 <= n <= 1000).
Proof.
  intros domain data_format n.
  rewrite validate_request_data_nil, validate_request_data_keys.
  destruct (error_keys (PyStr.mem domain (map fst SUPPORTED_DOMAINS))
              (PyStr.mem data_format (map fst SUPPORTED_FORMATS))
              ((n <? 1) || (1000 <? n))) as [-> [-> ->]].
  rewrite (false_iff_none _ _ (domain_supported domain)).
  rewrite (false_iff_none _ _ (format_supported data_format)).
  rewrite count_out_of_range, domain_supported, format_supported.
  rewrite <- not_true_iff_false, count_out_of_range.
  repeat split; try tauto; intros; lia.
Qed.

(** A request object always passes [validate_request_data]; its
    validator repeats the bounds of the field. *)
Lemma request_passes_validation request :
  SyntheticDataRequest.valid request = true ->
  validate_request_data
    (DomainEnum_value (SyntheticDataRequest.domain request))
    (DataFormatEnum_value (SyntheticDataRequest.data_format request))
    (SyntheticDataRequest.num_records request) = [].
Proof.
  intros V. apply validate_request_data_nil.
  split; [apply domain_supported; eauto|].
  split; [apply format_supported; eauto|].
  unfold SyntheticDataRequest.valid, SyntheticDataRequest.field_constraints
    in V.
  apply andb_true_iff in V. destruct V as [V _].
  apply andb_true_iff in V. destruct V as [V1 V2].
  apply Z.leb_le in V1, V2. apply orb_false_iff.
  split; apply Z.ltb_ge; lia.
Qed.

(** How a run ends, as the endpoint reads it. *)
Lemma run_workflow_summary env wf d f n c w :
  (status (fst (run_workflow env wf d f n c w)) = "completed" ->
   generated_data (fst (run_workflow env wf d f n c w)) <> []
   /\ file_path (fst (run_workflow env wf d f n c w)) <> None)
  /\ (status (fst (run_workflow env wf d f n c w)) <> "completed" ->
      error_message (fst (run_workflow env wf d f n c w)) <> None).
Proof.
  unfold run_workflow, ainvoke.
  pose proof (OutcomeFacts.run_from_outcome env wf (recursion_limit wf)
                Research (new_state d f n c "pending" None) w
                ltac:(discriminate)) as O.
  destruct (run_from env wf (recursion_limit wf) Research
              (new_state d f n c "pending" None) w) as [[st|e] w'];
    simpl in *.
  - destruct O as [_ [[Hc [Hne [Hfp _]]]|[Hf [Hm _]]]].
    + split; [auto|]. intros H. contradiction.
    + split; [|auto]. intros Hc. rewrite Hf in Hc. discriminate.
  - split; [discriminate|]. intros _. discriminate.
Qed.

Lemma or_else_nonempty x default :
  default <> EmptyString ->
  or_else x default <> EmptyString
  /\ (x = Some (or_else x default)
      \/ (or_else x default = default
          /\ (x = None \/ x = Some EmptyString))).
Proof.
  intros H. destruct x as [[|c s]|]; simpl; split; auto; discriminate.
Qed.

Lemma process_data_generation_unfold env wf fe request w :
  process_data_generation env wf fe request w
  = (Ok (if String.eqb (status (fst (request_run env wf request w)))
              "completed"
         then {| SyntheticDataResponse.status := COMPLETED;
                 SyntheticDataResponse.total_records :=
                   len (generated_data (fst (request_run env wf request w)));
                 SyntheticDataResponse.file_path :=
                   or_else (file_path (fst (request_run env wf request w)))
                     "unknown";
                 SyntheticDataResponse.generation_time :=
                   fe (clock w) (clock (snd (request_run env wf request w)));
                 SyntheticDataResponse.message :=
                   Some "Data generation completed successfully" |}
         else {| SyntheticDataResponse.status := FAILED;
                 SyntheticDataResponse.total_records :=
                   len (generated_data (fst (request_run env wf request w)));
                 SyntheticDataResponse.file_path := EmptyString;
                 SyntheticDataResponse.generation_time :=
                   fe (clock w) (clock (snd (request_run env wf request w)));
                 SyntheticDataResponse.message :=
                   Some (String.append "Data generation failed: "
                           (or_else
                              (error_message
                                 (fst (request_run env wf request w)))
                              "Unknown error occurred")) |}),
     snd (request_run env wf request w)).
Proof.
  unfold process_data_generation, request_run, try_except, bind, ret.
  destruct (run_workflow env wf _ _ _ _ w) as [final w1]. simpl.
  destruct (String.eqb (status final) "completed"); reflexivity.
Qed.

(** X14. The generation endpoint, for every request object: it never
    answers 400 (a request object always passes the second validation);
    it answers 200 exactly when the run ends "completed", with status
    COMPLETED, at least one record counted and a file path that is never
    empty; in every other case it raises a 500 whose message is "Data
    generation failed: " followed by the error message of the final
    state, which is never missing. The handlers "Generation failed: ..."
    and "Internal server error: ..." are never reached, and the endpoint
    makes no call of its own to the outside. *)
Theorem generation_endpoint_outcome :
  forall env wf fe iso request w,
    SyntheticDataRequest.valid request = true ->
    (status (fst (request_run env wf request w)) = "completed" ->
     exists path,
       generate_synthetic_data env wf fe iso request w
       = (Respond
            {| SyntheticDataResponse.status := COMPLETED;
               SyntheticDataResponse.total_records :=
                 len (generated_data (fst (request_run env wf request w)));
               SyntheticDataResponse.file_path := path;
               SyntheticDataResponse.generation_time :=
                 fe (clock w) (clock (snd (request_run env wf request w)));
               SyntheticDataResponse.message :=
                 Some "Data generation completed successfully" |},
          snd (request_run env wf request w))
       /\ path <> EmptyString
       /\ (file_path (fst (request_run env wf request w)) = Some path
           \/ (file_path (fst (request_run env wf request w))
               = Some EmptyString /\ path = "unknown"))
       /\ 1 <= len (generated_data (fst (request_run env wf request w))))
    /\ (status (fst (request_run env wf request w)) <> "completed" ->
        exists msg,
          generate_synthetic_data env wf fe iso request w
          = (HTTPException 500
               (GenerationFailed
                  (Some (String.append "Data generation failed: " msg))
                  (fe (clock w)
                     (clock (snd (request_run env wf request w))))),
             snd (request_run env wf request w))
          /\ msg <> EmptyString
          /\ (error_message (fst (request_run env wf request w)) = Some msg
              \/ (error_message (fst (request_run env wf request w))
                  = Some EmptyString
                  /\ msg = "Unknown error occurred"))).
Proof.
  intros env wf fe iso request w V.
  pose proof (request_passes_validation request V) as P.
  destruct (run_workflow_summary env wf
              (DomainEnum_value (SyntheticDataRequest.domain request))
              (DataFormatEnum_value
                 (SyntheticDataRequest.data_format request))
              (SyntheticDataRequest.num_records request)
              (SyntheticDataRequest.context request) w) as [Sc Sf].
  fold (request_run env wf request w) in Sc, Sf.
  unfold generate_synthetic_data. rewrite P.
  rewrite process_data_generation_unfold.
  split.
  - intros Hc. destruct (Sc Hc) as [Hne Hfp].
    rewrite Hc. simpl.
    destruct (or_else_nonempty
                (file_path (fst (request_run env wf request w))) "unknown"
                ltac:(discriminate)) as [N [E|[E [E'|E']]]].
    + eexists. split; [reflexivity|]. split; [exact N|]. split; [now left|].
      unfold len. destruct (generated_data _); [contradiction|].
      cbn [List.length]. lia.
    + contradiction.
    + eexists. split; [reflexivity|]. split; [exact N|].
      split; [right; now split|].
      unfold len. destruct (generated_data _); [contradiction|].
      cbn [List.length]. lia.
  - intros Hf. apply String.eqb_neq in Hf. rewrite Hf. simpl.
    apply String.eqb_neq in Hf. pose proof (Sf Hf) as Hm.
    destruct (or_else_nonempty
                (error_message (fst (request_run env wf request w)))
                "Unknown error occurred" ltac:(discriminate))
      as [N [E|[E [E'|E']]]].
    + eexists. split; [reflexivity|]. split; [exact N|]. now left.
    + contradiction.
    + eexists. split; [reflexivity|]. split; [exact N|]. right. now split.
Qed.

Section Files.
Variable fs : FileSystem.



End Files.

End ApiFacts.

Module ApiInstances.
Import Scenario.

(** X14, at a concrete input: ten question/answer records about
    healthcare, from collaborators that all answer. *)
Lemma generation_endpoint_outcome_witness :
  exists path,
    Main.generate_synthetic_data healthy workflow
      (fun _ _ => "0.1 seconds") (fun _ => "2025-01-01T00:00:00")
      {| SyntheticDataRequest.domain := HEALTHCARE;
         SyntheticDataRequest.data_format := QNA;
         SyntheticDataRequest.num_records := 10;
         SyntheticDataRequest.context := None |} world0
    = (Respond
         {| SyntheticDataResponse.status := COMPLETED;
            SyntheticDataResponse.total_records := 10;
            SyntheticDataResponse.file_path := path;
            SyntheticDataResponse.generation_time := "0.1 seconds";
            SyntheticDataResponse.message :=
              Some "Data generation completed successfully" |},
       snd (request_run healthy workflow
              {| SyntheticDataRequest.domain := HEALTHCARE;
                 SyntheticDataRequest.data_format := QNA;
                 SyntheticDataRequest.num_records := 10;
                 SyntheticDataRequest.context := None |} world0))
    /\ path <> EmptyString.
Proof.
  destruct (ApiFacts.generation_endpoint_outcome healthy workflow
              (fun _ _ => "0.1 seconds") (fun _ => "2025-01-01T00:00:00")
              {| SyntheticDataRequest.domain := HEALTHCARE;
                 SyntheticDataRequest.data_format := QNA;
                 SyntheticDataRequest.num_records := 10;
                 SyntheticDataRequest.context := None |} world0 eq_refl)
    as [Hc _].
  destruct (Hc eq_refl) as [path [E [N _]]].
  exists path. split; [exact E|exact N].
Defined.

End ApiInstances.

(** ** The text helpers *)

Module TextFacts.
Import Helpers.

Lemma len_String c s : PyStr.len (String c s) = 1 + PyStr.len s.
Proof. unfold PyStr.len. cbn [String.length]. lia. Qed.

Lemma text_len_nonneg s : 0 <= PyStr.len s.
Proof. unfold PyStr.len. lia. Qed.

Lemma len_append a b :
  PyStr.len (String.append a b) = PyStr.len a + PyStr.len b.
Proof.
  induction a as [|c a IH]; [reflexivity|].
  cbn [String.append]. rewrite !len_String, IH. lia.
Qed.

Lemma len_take n s :
  PyStr.len (take n s) = Z.min (Z.of_nat n) (PyStr.len s).
Proof.
  revert s. induction n as [|n IH]; intros s.
  - simpl. pose proof (text_len_nonneg s). change (PyStr.len "") with 0. lia.
  - destruct s as [|c s].
    + simpl. change (PyStr.len "") with 0. lia.
    + cbn [take]. rewrite !len_String, IH. lia.
Qed.

Lemma take_all n s : PyStr.len s <= Z.of_nat n -> take n s = s.
Proof.
  revert s. induction n as [|n IH]; intros s H.
  - destruct s; [reflexivity|]. rewrite len_String in H.
    pose proof (text_len_nonneg s). lia.
  - destruct s as [|c s]; [reflexivity|]. cbn [take]. f_equal. apply IH.
    rewrite len_String in H. lia.
Qed.

(** X16. [truncate_text] keeps its promise only for limits of at least
    3: then the result is never longer than the limit (a text within the
    limit is returned as it is, a longer one is cut to the limit, its
    last three characters being the ellipsis). Below 3 the slice counts
    from the end of the text, and a text longer than the limit comes
    back longer than the limit. *)
Theorem truncate_text_bound :
  forall text max_length,
    (PyStr.len text <= max_length -> truncate_text text max_length = text)
    /\ (3 <= max_length ->
        PyStr.len (truncate_text text max_length) <= max_length)
    /\ (3 <= max_length < PyStr.len text ->
        truncate_text text max_length
        = String.append (take (Z.to_nat (max_length - 3)) text) "..."
        /\ PyStr.len (truncate_text text max_length) = max_length)
    /\ (max_length < 3 -> max_length < PyStr.len text ->
        truncate_text text max_length
        = String.append
            (take (Z.to_nat (PyStr.len text + max_length - 3)) text) "..."
        /\ max_length < PyStr.len (truncate_text text max_length)).
Proof.
  intros text m. unfold truncate_text, slice_to.
  pose proof (text_len_nonneg text) as Hlen.
  destruct (Z.leb_spec (PyStr.len text) m) as [Hle|Hgt].
  - split; [reflexivity|]. split; [intros _; exact Hle|].
    split; intros; lia.
  - split; [intros; lia|].
    destruct (Z.leb_spec 0 (m - 3)) as [H3|H3].
    + assert (L : PyStr.len
                    (String.append (take (Z.to_nat (m - 3)) text) "...")
                  = m).
      { rewrite len_append, len_take. change (PyStr.len "...") with 3. lia. }
      split; [intros _; lia|]. split; [intros _; split; [reflexivity|exact L]|].
      intros; lia.
    + split; [intros; lia|]. split; [intros; lia|]. intros _ _.
      replace (PyStr.len text + (m - 3)) with (PyStr.len text + m - 3) by lia.
      split; [reflexivity|].
      rewrite len_append, len_take. change (PyStr.len "...") with 3. lia.
Qed.

(** *** [sanitize_filename] *)

Lemma clean_String c s :
  clean (String c s) <-> is_invalid c = false /\ clean s.
Proof.
  unfold clean. cbn [chars list_ascii_of_string]. split.
  - intros H. inversion H; subst. now split.
  - intros [H1 H2]. now constructor.
Qed.

Lemma clean_nil : clean EmptyString.
Proof. constructor. Qed.

Lemma underscore_valid c : is_underscore c = true -> is_invalid c = false.
Proof.
  unfold is_underscore. intros H. apply Ascii.eqb_eq in H. now subst.
Qed.

Lemma replace_invalid_clean s : clean (replace_invalid s).
Proof.
  induction s as [|c s IH]; [exact clean_nil|].
  cbn [replace_invalid]. apply clean_String. split; [|exact IH].
  destruct (is_invalid c) eqn:E; [reflexivity|exact E].
Qed.

Lemma replace_invalid_id s : clean s -> replace_invalid s = s.
Proof.
  induction s as [|c s IH]; [reflexivity|]. intros H.
  apply clean_String in H. destruct H as [H1 H2].
  cbn [replace_invalid]. rewrite H1, (IH H2). reflexivity.
Qed.

Lemma replace_invalid_len s : PyStr.len (replace_invalid s) = PyStr.len s.
Proof.
  induction s as [|c s IH]; [reflexivity|].
  cbn [replace_invalid]. now rewrite !len_String, IH.
Qed.

Lemma collapse_clean s : clean s -> clean (collapse_underscores s).
Proof.
  induction s as [|c s IH]; [auto|]. intros H.
  apply clean_String in H. destruct H as [H1 H2]. specialize (IH H2).
  cbn [collapse_underscores].
  destruct (is_underscore c); [destruct s as [|c' s']|].
  - apply clean_String. split; [exact H1|exact clean_nil].
  - destruct (is_underscore c'); [exact IH|].
    apply clean_String. now split.
  - apply clean_String. now split.
Qed.

Lemma collapse_len s :
  PyStr.len (collapse_underscores s) <= PyStr.len s.
Proof.
  induction s as [|c s IH]; [reflexivity|].
  cbn [collapse_underscores].
  destruct (is_underscore c); [destruct s as [|c' s']|].
  - reflexivity.
  - destruct (is_underscore c').
    + rewrite (len_String c). lia.
    + rewrite !(len_String c). lia.
  - rewrite !(len_String c). lia.
Qed.

(** The first character of a collapsed text is that of the text. *)
Lemma collapse_first s :
  first_char (collapse_underscores s) = first_char s.
Proof.
  induction s as [|c s IH]; [reflexivity|].
  cbn [collapse_underscores].
  destruct (is_underscore c) eqn:E; [destruct s as [|c' s']|];
    try reflexivity.
  destruct (is_underscore c') eqn:E'; [|reflexivity].
  rewrite IH. cbn [first_char].
  unfold is_underscore in E, E'. apply Ascii.eqb_eq in E, E'. congruence.
Qed.

Lemma underscore_run_String a s :
  underscore_run (String a s)
  = match first_char s with
    | Some b => (is_underscore a && is_underscore b) || underscore_run s
    | None => false
    end.
Proof. destruct s; reflexivity. Qed.

Lemma collapse_no_run s : underscore_run (collapse_underscores s) = false.
Proof.
  induction s as [|c s IH]; [reflexivity|].
  cbn [collapse_underscores].
  destruct (is_underscore c) eqn:E; [destruct s as [|c' s']|].
  - reflexivity.
  - destruct (is_underscore c') eqn:E'; [exact IH|].
    rewrite underscore_run_String, collapse_first, IH.
    cbn [first_char]. rewrite E'. now rewrite andb_false_r.
  - rewrite underscore_run_String, IH, E.
    destruct (first_char (collapse_underscores s)); reflexivity.
Qed.

Lemma collapse_id s :
  underscore_run s = false -> collapse_underscores s = s.
Proof.
  induction s as [|c s IH]; [reflexivity|]. intros H.
  rewrite underscore_run_String in H. cbn [collapse_underscores].
  destruct s as [|c' s'].
  - destruct (is_underscore c); reflexivity.
  - cbn [first_char] in H. apply orb_false_iff in H. destruct H as [H1 H2].
    destruct (is_underscore c) eqn:E.
    + simpl in H1. rewrite H1. now rewrite (IH H2).
    + now rewrite (IH H2).
Qed.

Section Strip.
Variable p : ascii -> bool.

Lemma lstrip_chars_clean s : clean s -> clean (lstrip_chars p s).
Proof.
  induction s as [|c s IH]; [auto|]. intros H. cbn [lstrip_chars].
  destruct (p c); [|exact H]. apply IH. now apply clean_String in H.
Qed.

Lemma lstrip_chars_no_run s :
  underscore_run s = false -> underscore_run (lstrip_chars p s) = false.
Proof.
  induction s as [|c s IH]; [auto|]. intros H. cbn [lstrip_chars].
  destruct (p c); [|exact H]. apply IH.
  rewrite underscore_run_String in H.
  destruct (first_char s) eqn:F; [|destruct s; [reflexivity|discriminate]].
  now apply orb_false_iff in H.
Qed.

Lemma lstrip_chars_first s c :
  first_char (lstrip_chars p s) = Some c -> p c = false.
Proof.
  induction s as [|a s IH]; [discriminate|]. cbn [lstrip_chars].
  destruct (p a) eqn:E; [exact IH|].
  cbn [first_char]. intros H. inversion H. now subst.
Qed.

Lemma lstrip_chars_len s : PyStr.len (lstrip_chars p s) <= PyStr.len s.
Proof.
  induction s as [|c s IH]; [reflexivity|]. cbn [lstrip_chars].
  destruct (p c); [|reflexivity]. rewrite len_String. lia.
Qed.

Lemma lstrip_chars_id s :
  (forall c, first_char s = Some c -> p c = false) -> lstrip_chars p s = s.
Proof.
  destruct s as [|c s]; [reflexivity|]. intros H. cbn [lstrip_chars].
  now rewrite (H c eq_refl).
Qed.

(** What [rstrip_chars] returns, one character at a time. *)
Lemma rstrip_chars_String c s :
  rstrip_chars p (String c s)
  = match rstrip_chars p s with
    | EmptyString => if p c then EmptyString else String c EmptyString
    | t => String c t
    end.
Proof. reflexivity. Qed.

Lemma rstrip_chars_clean s : clean s -> clean (rstrip_chars p s).
Proof.
  induction s as [|c s IH]; [auto|]. intros H.
  apply clean_String in H. destruct H as [H1 H2]. specialize (IH H2).
  rewrite rstrip_chars_String. destruct (rstrip_chars p s) as [|b t].
  - destruct (p c); [exact clean_nil|].
    apply clean_String. split; [exact H1|exact clean_nil].
  - apply clean_String. now split.
Qed.

Lemma rstrip_chars_first s c :
  first_char (rstrip_chars p s) = Some c -> first_char s = Some c.
Proof.
  destruct s as [|a s]; [discriminate|]. rewrite rstrip_chars_String.
  destruct (rstrip_chars p s); [destruct (p a)|]; try discriminate; auto.
Qed.

Lemma rstrip_chars_no_run s :
  underscore_run s = false -> underscore_run (rstrip_chars p s) = false.
Proof.
  induction s as [|c s IH]; [auto|]. intros H.
  rewrite underscore_run_String in H. rewrite rstrip_chars_String.
  destruct (rstrip_chars p s) as [|b t] eqn:R.
  - destruct (p c); reflexivity.
  - pose proof (rstrip_chars_first s b) as F. rewrite R in F.
    specialize (F eq_refl). rewrite F in H.
    apply orb_false_iff in H. destruct H as [H1 H2].
    rewrite underscore_run_String. cbn [first_char].
    rewrite H1, (IH H2). reflexivity.
Qed.

Lemma rstrip_chars_last s c :
  last_char (rstrip_chars p s) = Some c -> p c = false.
Proof.
  induction s as [|a s IH]; [discriminate|]. rewrite rstrip_chars_String.
  destruct (rstrip_chars p s) as [|b t].
  - destruct (p a) eqn:E; [discriminate|].
    cbn [last_char]. intros H. inversion H. now subst.
  - exact IH.
Qed.

Lemma rstrip_chars_len s : PyStr.len (rstrip_chars p s) <= PyStr.len s.
Proof.
  induction s as [|c s IH]; [reflexivity|]. rewrite rstrip_chars_String.
  destruct (rstrip_chars p s) as [|b t].
  - destruct (p c); rewrite ?len_String; pose proof (text_len_nonneg s);
      change (PyStr.len "") with 0; lia.
  - rewrite !(len_String c). lia.
Qed.

Lemma rstrip_chars_id s :
  (forall c, last_char s = Some c -> p c = false) -> rstrip_chars p s = s.
Proof.
  induction s as [|a s IH]; [reflexivity|]. intros H.
  rewrite rstrip_chars_String. destruct s as [|b t].
  - cbn [rstrip_chars]. now rewrite (H a eq_refl).
  - rewrite IH by exact H. reflexivity.
Qed.

End Strip.

(** X17. What [sanitize_filename] returns has none of the characters
    it replaces, no two underscores side by side, and no underscore at
    its start or at its end; it is not longer than the name given; and
    sanitizing it again changes nothing. *)
Theorem sanitize_filename_clean :
  forall filename,
    Forall (fun c => is_invalid c = false)
      (chars (sanitize_filename filename))
    /\ underscore_run (sanitize_filename filename) = false
    /\ first_char (sanitize_filename filename) <> Some "_"%char
    /\ last_char (sanitize_filename filename) <> Some "_"%char
    /\ PyStr.len (sanitize_filename filename) <= PyStr.len filename
    /\ sanitize_filename (sanitize_filename filename)
       = sanitize_filename filename.
Proof.
  intros filename. unfold sanitize_filename at 1 2 3 4 5.
  unfold strip_underscores.
  set (s1 := collapse_underscores (replace_invalid filename)).
  set (s2 := lstrip_chars is_underscore s1).
  set (r := rstrip_chars is_underscore s2).
  assert (C : clean r).
  { apply rstrip_chars_clean, lstrip_chars_clean, collapse_clean,
      replace_invalid_clean. }
  assert (R : underscore_run r = false).
  { apply rstrip_chars_no_run, lstrip_chars_no_run, collapse_no_run. }
  assert (F : forall c, first_char r = Some c -> is_underscore c = false).
  { intros c H. apply rstrip_chars_first in H.
    now apply lstrip_chars_first in H. }
  assert (L : forall c, last_char r = Some c -> is_underscore c = false).
  { intros c H. now apply rstrip_chars_last in H. }
  split; [exact C|]. split; [exact R|].
  split; [intros H; apply F in H; discriminate|].
  split; [intros H; apply L in H; discriminate|].
  split.
  - pose proof (rstrip_chars_len is_underscore s2).
    pose proof (lstrip_chars_len is_underscore s1).
    pose proof (collapse_len (replace_invalid filename)).
    pose proof (replace_invalid_len filename).
    fold s1 in H1. fold s2 in H0. fold r in H. lia.
  - change (sanitize_filename r = r).
    unfold sanitize_filename, strip_underscores.
    rewrite (replace_invalid_id r C), (collapse_id r R).
    rewrite (lstrip_chars_id is_underscore r F).
    apply (rstrip_chars_id is_underscore r L).
Qed.

End TextFacts.

(** ** The node budget *)

Module BudgetFacts.
Import SyntheticDataWorkflow Scenario.

Section Bounded.
Variable env : Collaborators.
Variable wf : SyntheticDataWorkflow.

(** The generation model never returns more records than asked. *)
Hypothesis model_bounded :
  forall t d f k r c batch,
    1 <= k ->
    ainvoke_generate env t d f k r c = Ok batch -> len batch <= k.

Hypothesis batch_size_ok : 1 <= batch_size (generator_agent wf).

(** One batch brings in at most [batch_size] records. *)
Lemma generate_data_batch_bounded state w :
  len (generated_data state) < num_records state ->
  exists state' w',
    GeneratorAgent.generate_data_batch env (generator_agent wf) state w
    = (Ok state', w')
    /\ num_records state' = num_records state
    /\ len (generated_data state')
       <= len (generated_data state) + batch_size (generator_agent wf)
    /\ (status state' = "generation_completed" ->
        num_records state <= len (generated_data state')).
Proof.
  intros Hlt.
  unfold GeneratorAgent.generate_data_batch, try_except, bind.
  destruct (Z.leb_spec (num_records state - len (generated_data state)) 0);
    [lia|].
  unfold LLMService.generate_synthetic_data. unfold_m. simpl.
  destruct (with_structured_output env (clock w)) as [[]|e]; simpl.
  - destruct (ainvoke_generate env (S (clock w)) (domain state)
                (data_format state)
                (Z.min (batch_size (generator_agent wf))
                   (num_records state - len (generated_data state)))
                (GeneratorAgent.parse_research (domain_research state))
                (context state)) as [batch|e] eqn:E; simpl.
    + assert (K : 1 <= Z.min (batch_size (generator_agent wf))
                         (num_records state - len (generated_data state)))
        by lia.
      pose proof (model_bounded _ _ _ _ _ _ _ K E) as B.
      destruct batch as [|r0 rest].
      * do 2 eexists. split; [reflexivity|]. simpl.
        split; [reflexivity|]. split; [lia|discriminate].
      * destruct (Z.leb_spec (num_records state)
                    (len (generated_data state ++ r0 :: rest))) as [Hq|Hq];
          do 2 eexists; (split; [reflexivity|]); simpl;
          rewrite len_app in *; (split; [reflexivity|]);
          (split; [lia|]); [intros _; lia|discriminate].
    + do 2 eexists. split; [reflexivity|]. simpl.
      split; [reflexivity|]. split; [lia|discriminate].
  - do 2 eexists. split; [reflexivity|]. simpl.
    split; [reflexivity|]. split; [lia|discriminate].
Qed.

Lemma generate_node_bounded state w :
  len (generated_data state) < num_records state ->
  match generate_node env wf state w with
  | (Ok state', w') =>
      num_records state' = num_records state
      /\ len (generated_data state')
         <= len (generated_data state) + batch_size (generator_agent wf)
      /\ (status state' = "generation_completed" ->
          num_records state <= len (generated_data state'))
  | (Raise _, _) => True
  end.
Proof.
  intros Hlt. unfold generate_node. rewrite GenerationFacts.call_unfold.
  destruct (total_batches state =? 0).
  - destruct (GeneratorAgent.calculate_batches (generator_agent wf)
                (num_records state) None) as [tb|e]; [|exact I].
    destruct (generate_data_batch_bounded
                (set_current_batch 0 (set_total_batches tb state)) w Hlt)
      as [st' [w' [-> H]]]. exact H.
  - destruct (generate_data_batch_bounded state w Hlt)
      as [st' [w' [-> H]]]. exact H.
Qed.

(** With [m] batches at most left in the budget and more than [m]
    batches of records missing, the graph runs out of budget before any
    full evaluation. *)
Lemma budget_exhausted (m : nat) :
  forall fuel state w,
    (fuel <= 2 * m + 1)%nat ->
    len (generated_data state)
    + batch_size (generator_agent wf) * Z.of_nat m < num_records state ->
    exists e w',
      run_from env wf fuel Generate state w = (Raise e, w')
      /\ evaluations (trace w') = evaluations (trace w)
      /\ saved_data (trace w') = saved_data (trace w).
Proof.
  assert (One : forall state w,
            match exec_node env wf Generate state w with
            | (Ok _, w1) | (Raise _, w1) =>
                evaluations (trace w1) = evaluations (trace w)
                /\ saved_data (trace w1) = saved_data (trace w)
            end).
  { intros state w. rewrite WorkflowFacts.exec_node_unfold.
    destruct (OutcomeFacts.generate_node_quiet env wf state
                {| clock := clock w;
                   trace := trace w ++ [EvNode Generate] |}) as [Qe Qs].
    simpl in Qe, Qs.
    rewrite EvaluationTraceFacts.evaluations_app in Qe.
    rewrite EvaluationTraceFacts.saved_data_app in Qs.
    simpl in Qe, Qs. rewrite Nat.add_0_r in Qe. rewrite app_nil_r in Qs.
    destruct (generate_node env wf state _) as [[st1|e] w1]; auto. }
  assert (Short : forall fuel state w,
            (fuel <= 1)%nat ->
            exists e w',
              run_from env wf fuel Generate state w = (Raise e, w')
              /\ evaluations (trace w') = evaluations (trace w)
              /\ saved_data (trace w') = saved_data (trace w)).
  { intros fuel state w Hfuel. destruct fuel as [|[|fuel]]; [| |lia].
    - simpl. unfold throw. eauto.
    - rewrite OutcomeFacts.run_from_step by discriminate.
      pose proof (One state w) as O1.
      destruct (exec_node env wf Generate state w) as [[st1|e] w1]; eauto.
      simpl. unfold throw. eauto. }
  induction m as [|m IH]; intros fuel state w Hfuel Hshort.
  - apply Short. lia.
  - destruct fuel as [|[|fuel]]; [apply Short; lia|apply Short; lia|].
    rewrite OutcomeFacts.run_from_step by discriminate.
    pose proof (One state w) as O1.
    rewrite WorkflowFacts.exec_node_unfold in *.
    pose proof (generate_node_bounded state
                  {| clock := clock w;
                     trace := trace w ++ [EvNode Generate] |}
                  ltac:(nia)) as G.
    destruct (generate_node env wf state _) as [[st1|e] w1]; eauto.
    destruct G as [Hnum [Hlen Hst]]. destruct O1 as [O1e O1s].
    cbn [next_node].
    rewrite OutcomeFacts.run_from_step by discriminate.
    rewrite WorkflowFacts.exec_node_unfold.
    assert (Hl : len (generated_data st1) < num_records st1) by nia.
    assert (Hs : status st1 <> "generation_completed").
    { intros Hc. apply Hst in Hc. nia. }
    destruct (OutcomeFacts.evaluate_node_pass_through env st1
                {| clock := clock w1;
                   trace := trace w1 ++ [EvNode Evaluate] |} Hl Hs)
      as [-> ->].
    destruct (IH fuel (set_status "generating" st1)
                {| clock := clock w1;
                   trace := trace w1 ++ [EvNode Evaluate] |})
      as [e [w' [R [Re Rs]]]]; [lia|simpl; nia|].
    exists e, w'. split; [exact R|].
    simpl in Re, Rs.
    rewrite EvaluationTraceFacts.evaluations_app in Re.
    rewrite EvaluationTraceFacts.saved_data_app in Rs.
    simpl in Re, Rs. rewrite Nat.add_0_r in Re. rewrite app_nil_r in Rs.
    split; congruence.
Qed.

End Bounded.

(** X18. A request beyond the reach of the node budget always fails.
    If the generation model never returns more records than asked and
    the batch size is at least 1, a run for more records than
    [batch_size] times half the node budget left after the Research
    node ends "failed", whatever the collaborators do: the evaluation
    service and [save_to_csv] are never called, and the state returned
    holds no record and no file path. *)
Theorem request_beyond_the_budget_fails :
  forall env wf d f n c,
    (forall t d' f' k r c' batch,
       1 <= k ->
       ainvoke_generate env t d' f' k r c' = Ok batch -> len batch <= k) ->
    1 <= batch_size (generator_agent wf) ->
    batch_size (generator_agent wf)
    * Z.of_nat ((recursion_limit wf - 1) / 2) < n ->
    status (fst (run_workflow env wf d f n c world0)) = "failed"
    /\ generated_data (fst (run_workflow env wf d f n c world0)) = []
    /\ file_path (fst (run_workflow env wf d f n c world0)) = None
    /\ evaluations (trace (snd (run_workflow env wf d f n c world0))) = 0%nat
    /\ saved_data (trace (snd (run_workflow env wf d f n c world0))) = [].
Proof.
  intros env wf d f n c Hmodel Hb Hn.
  unfold run_workflow, ainvoke.
  assert (R : exists e w',
            run_from env wf (recursion_limit wf) Research
              (new_state d f n c "pending" None) world0 = (Raise e, w')
            /\ evaluations (trace w') = 0%nat
            /\ saved_data (trace w') = []).
  { destruct (recursion_limit wf) as [|fuel] eqn:Efuel.
    - simpl. unfold throw. eauto.
    - rewrite OutcomeFacts.run_from_step by discriminate.
      rewrite WorkflowFacts.exec_node_unfold.
      pose proof (OutcomeFacts.research_node_quiet env
                    (new_state d f n c "pending" None)
                    {| clock := clock world0;
                       trace := trace world0 ++ [EvNode Research] |}) as Q.
      destruct (WorkflowFacts.research_node_effect env
                  (new_state d f n c "pending" None)
                  {| clock := clock world0;
                     trace := trace world0 ++ [EvNode Research] |})
        as [st1 [w1 [E [_ [Hd [_ [Hnum _]]]]]]].
      rewrite E in *. cbn [next_node]. simpl in Hd, Hnum, Q.
      destruct (budget_exhausted env wf Hmodel Hb (fuel / 2) fuel st1 w1)
        as [e [w' [R [Re Rs]]]].
      + pose proof (Nat.div_mod_eq fuel 2) as D.
        pose proof (Nat.mod_upper_bound fuel 2 ltac:(discriminate)). lia.
      + rewrite Hd, Hnum. unfold len. cbn [List.length].
        replace (S fuel - 1)%nat with fuel in Hn by lia. lia.
      + exists e, w'. split; [exact R|].
        rewrite Re, Rs, Q. split; reflexivity. }
  destruct R as [e [w' [R [Re Rs]]]]. rewrite R. simpl. auto.
Qed.

(** X19. A batch size of zero fails every run before anything is asked
    of the generation service: the division of [calculate_batches]
    raises out of the Generate node, and the run ends "failed" with the
    message "division by zero" (given a budget of at least two nodes). *)
Theorem zero_batch_size_fails :
  forall env wf d f n c,
    batch_size (generator_agent wf) = 0 ->
    (2 <= recursion_limit wf)%nat ->
    status (fst (run_workflow env wf d f n c world0)) = "failed"
    /\ error_message (fst (run_workflow env wf d f n c world0))
       = Some "division by zero"
    /\ requested_sizes (trace (snd (run_workflow env wf d f n c world0))) = []
    /\ nodes_run (trace (snd (run_workflow env wf d f n c world0)))
       = [Research; Generate].
Proof.
  intros env wf d f n c Hb Hfuel.
  unfold run_workflow, ainvoke.
  destruct (recursion_limit wf) as [|[|fuel]]; try lia.
  rewrite OutcomeFacts.run_from_step by discriminate.
  rewrite WorkflowFacts.exec_node_unfold.
  pose proof (OutcomeFacts.research_node_quiet env
                (new_state d f n c "pending" None)
                {| clock := clock world0;
                   trace := trace world0 ++ [EvNode Research] |}) as Q.
  destruct (WorkflowFacts.research_node_effect env
              (new_state d f n c "pending" None)
              {| clock := clock world0;
                 trace := trace world0 ++ [EvNode Research] |})
    as [st1 [w1 [E [_ [_ [Htb [Hnum _]]]]]]].
  rewrite E in *. cbn [next_node]. simpl in Htb, Hnum, Q.
  rewrite OutcomeFacts.run_from_step by discriminate.
  rewrite WorkflowFacts.exec_node_unfold.
  unfold generate_node. rewrite GenerationFacts.call_unfold.
  rewrite Htb. simpl.
  unfold GeneratorAgent.calculate_batches, PyFloat.true_divide.
  rewrite Hb. simpl. rewrite Q. repeat split; reflexivity.
Qed.

End BudgetFacts.

(** ** The format check and the agent's own loop test *)

Module CheckFacts.

Lemma forallb_mem_incl expected present :
  forallb (fun f => PyStr.mem f present) expected = true
  <-> incl expected present.
Proof.
  rewrite forallb_forall. unfold incl. split; intros H f Hf.
  - apply ApiFacts.mem_In. now apply H.
  - apply ApiFacts.mem_In. now apply H.
Qed.

(** X20. [validate_data_format] accepts a list exactly when it is not
    empty and every record has every field of the format; a format that
    is not in [SUPPORTED_FORMATS] has no field to look for, so every
    list that is not empty passes; fields beyond those of the format
    are never looked at. *)
Theorem validate_data_format_accepts :
  forall data fmt,
    (FileService.validate_data_format data fmt = true
     <-> data <> []
         /\ forall r, In r data ->
              incl (format_fields SUPPORTED_FORMATS fmt []) (keys r))
    /\ (~ In fmt (map fst SUPPORTED_FORMATS) ->
        FileService.validate_data_format data fmt
        = negb (len data =? 0))
    /\ FileService.validate_data_format [] fmt = false.
Proof.
  intros data fmt. split; [|split; [|reflexivity]].
  - unfold FileService.validate_data_format.
    destruct data as [|r data]; [split; [discriminate|intros [H _]; congruence]|].
    rewrite forallb_forall. split.
    + intros H. split; [discriminate|]. intros r' Hr'.
      apply forallb_mem_incl. now apply H.
    + intros [_ H] r' Hr'. apply forallb_mem_incl. now apply H.
  - intros Hn. unfold FileService.validate_data_format.
    assert (F : format_fields SUPPORTED_FORMATS fmt [] = []).
    { revert Hn. generalize SUPPORTED_FORMATS.
      induction l as [|[k v] l IH]; [reflexivity|]. simpl. intros Hn.
      destruct (String.eqb_spec k fmt) as [->|Hk]; [tauto|].
      apply IH. tauto. }
    rewrite F. destruct data as [|r data]; [reflexivity|].
    unfold len. cbn [List.length].
    replace (Z.of_nat (S (List.length data)) =? 0) with false
      by (symmetry; apply Z.eqb_neq; lia).
    simpl. apply forallb_forall. reflexivity.
Qed.

(** X21. The loop test of the generator agent and the decision of the
    workflow agree wherever the workflow continues: the workflow takes
    the edge "continue" exactly when the agent's test holds and the
    status is none of "research_failed", "evaluation_failed" and
    "completed". *)
Theorem continue_iff_agent_test :
  forall state,
    SyntheticDataWorkflow.should_continue_generation state = "continue"
    <-> GeneratorAgent.should_continue_generation state = true
        /\ ~ In (status state)
               ["research_failed"; "evaluation_failed"; "completed"].
Proof.
  intros state.
  unfold SyntheticDataWorkflow.should_continue_generation,
    GeneratorAgent.should_continue_generation, PyStr.mem.
  cbn [existsb In].
  destruct (String.eqb_spec (status state) "research_failed") as [E1|E1];
    [rewrite E1; simpl; split; [discriminate|tauto]|].
  destruct (String.eqb_spec (status state) "generation_failed") as [E2|E2];
    [rewrite E2; simpl; rewrite andb_false_r;
     split; [discriminate|intros [H _]; discriminate]|].
  destruct (String.eqb_spec (status state) "evaluation_failed") as [E3|E3];
    [rewrite E3; simpl; split; [discriminate|tauto]|].
  destruct (String.eqb_spec (status state) "completed") as [E4|E4];
    [rewrite E4; simpl; split; [discriminate|tauto]|].
  cbn [orb].
  destruct (String.eqb_spec (status state) "generation_completed")
    as [E5|E5]; cbn [orb negb];
    destruct (len (generated_data state) <? num_records state);
    cbn [andb].
  1, 2, 4:
    destruct ((num_records state <=? len (generated_data state)) && true);
    (split; [discriminate|intros [H _]; discriminate]).
  split; [|reflexivity]. intros _. split; [reflexivity|].
  intros [H|[H|[H|[]]]]; congruence.
Qed.

End CheckFacts.

Module BudgetInstances.
Import SyntheticDataWorkflow Scenario Cases.

(** X18, at a concrete input: 181 records in batches of 15 within 25
    node executions, from collaborators that all answer. *)
Lemma request_beyond_the_budget_fails_witness :
  status (fst (run_workflow healthy workflow "healthcare" "qna" 181 None
                 world0)) = "failed".
Proof.
  apply (BudgetFacts.request_beyond_the_budget_fails healthy workflow
           "healthcare" "qna" 181 None).
  - intros t d' f' k r c' batch Hk E. simpl in E. inversion E.
    unfold len, qna_batch. rewrite length_map, length_seq. lia.
  - simpl. lia.
  - apply Z.ltb_lt. reflexivity.
Defined.

(** X19, at a concrete input: the batch size is 0. *)
Lemma zero_batch_size_fails_witness :
  error_message (fst (run_workflow healthy unbatched "healthcare" "qna" 10
                        None world0)) = Some "division by zero".
Proof.
  apply (BudgetFacts.zero_batch_size_fails healthy unbatched
           "healthcare" "qna" 10 None eq_refl).
  apply Nat.leb_le. reflexivity.
Defined.

End BudgetInstances.

(** ** The verdict of the evaluation model *)

Module VerdictFacts.
Import EvaluatorAgent.

(** X22. The verdict of the evaluation model is final. When the
    model answers, the records it lists as valid are saved and become
    the data of the completed state as they are, whatever its pass
    flag, its duplicate count and its issues say, and without any check
    that they are among the records it was given; when it lists none,
    the stage fails with "No valid records after evaluation" and
    nothing is saved, however many records the basic tiers had kept. *)
Theorem model_verdict_is_final :
  forall env state w report,
    with_structured_output env (clock w) = Ok tt ->
    ainvoke_evaluate env (S (clock w))
      (basic_quality_check (remove_exact_duplicates (generated_data state))
         (data_format state)) (data_format state) = Ok report ->
    (valid_records report = [] ->
     evaluate_and_save env state w
     = (Ok (set_error_message (Some "No valid records after evaluation")
              (set_status "evaluation_failed" state)),
        {| clock := S (S (clock w));
           trace := trace w
                    ++ [EvEvaluateCall
                          (basic_quality_check
                             (remove_exact_duplicates (generated_data state))
                             (data_format state))] |}))
    /\ (forall path,
          valid_records report <> [] ->
          write_csv env (S (S (clock w))) (valid_records report)
            (domain state) (data_format state) = Ok path ->
          evaluate_and_save env state w
          = (Ok (set_status "completed"
                   (set_file_path (Some path)
                      (set_generated_data (valid_records report) state))),
             {| clock := S (S (S (clock w)));
                trace := trace w
                         ++ [EvEvaluateCall
                               (basic_quality_check
                                  (remove_exact_duplicates
                                     (generated_data state))
                                  (data_format state));
                             EvSaveCall (valid_records report)] |})).
Proof.
  intros env state w report Hclient Hmodel.
  unfold evaluate_and_save, evaluate_with_llm,
    LLMService.evaluate_data_quality, FileService.save_to_csv.
  unfold_m. simpl. rewrite Hclient. simpl. rewrite Hmodel. simpl.
  split.
  - intros ->. reflexivity.
  - intros path Hne Hwrite.
    destruct (valid_records report) as [|r rest] eqn:E; [contradiction|].
    simpl. rewrite Hwrite. simpl. rewrite <- app_assoc. reflexivity.
Qed.

End VerdictFacts.

(** ** The order in which the nodes run *)

Module ScheduleFacts.
Import SyntheticDataWorkflow Scenario.

Lemma nodes_run_app (t1 t2 : list event) :
  nodes_run (t1 ++ t2) = nodes_run t1 ++ nodes_run t2.
Proof.
  induction t1 as [|ev t1 IH]; [reflexivity|].
  destruct ev; simpl; now rewrite IH.
Qed.

(** A node leaves no mark of another node in the trace. *)
Lemma exec_node_nodes env wf nd state w :
  nd <> END ->
  nodes_run (trace (snd (exec_node env wf nd state w)))
  = nodes_run (trace w) ++ [nd].
Proof.
  intros Hnd. rewrite WorkflowFacts.exec_node_unfold.
  set (w0 := {| clock := clock w; trace := trace w ++ [EvNode nd] |}).
  assert (T0 : nodes_run (trace w0) = nodes_run (trace w) ++ [nd]).
  { unfold w0. simpl. now rewrite nodes_run_app. }
  destruct nd; [| | |contradiction].
  - rewrite OutcomeFacts.research_node_quiet. exact T0.
  - unfold generate_node. rewrite GenerationFacts.call_unfold.
    destruct (total_batches state =? 0).
    + destruct (GeneratorAgent.calculate_batches _ _ _); [|exact T0].
      rewrite BatchFacts.generate_data_batch_trace, nodes_run_app, T0.
      match goal with
      | |- context [if ?b then _ else _] => destruct b
      end; simpl; now rewrite app_nil_r.
    + rewrite BatchFacts.generate_data_batch_trace, nodes_run_app, T0.
      match goal with
      | |- context [if ?b then _ else _] => destruct b
      end; simpl; now rewrite app_nil_r.
  - destruct (OutcomeFacts.evaluate_node_modes env state w0)
      as [[Hl Hs]| ->].
    + destruct (OutcomeFacts.evaluate_node_pass_through env state w0 Hl Hs)
        as [-> _]. exact T0.
    + destruct (EvaluationTraceFacts.evaluate_and_save_detail env state w0)
        as [report [w1 [st' [w' [_ [-> [T _]]]]]]].
      simpl. rewrite T, nodes_run_app, T0. simpl.
      destruct (valid_records report); simpl; now rewrite app_nil_r.
Qed.

Lemma node_at_next i :
  (node_at i = Research -> node_at (S i) = Generate)
  /\ (node_at i = Generate -> node_at (S i) = Evaluate)
  /\ (node_at i = Evaluate -> node_at (S i) = Generate).
Proof.
  destruct i as [|i]; [repeat split; try discriminate; reflexivity|].
  cbn [node_at]. rewrite Nat.even_succ, <- Nat.negb_even.
  destruct (Nat.even i); repeat split; try discriminate; reflexivity.
Qed.

(** From its [i]-th execution on, the graph follows the schedule; when
    it returns, the last node it ran is Evaluate. *)
Lemma run_from_schedule env wf fuel :
  forall i nd state w,
    nd = node_at i ->
    exists j,
      (j <= fuel)%nat
      /\ nodes_run (trace (snd (run_from env wf fuel nd state w)))
         = nodes_run (trace w) ++ map node_at (seq i j)
      /\ (forall state', fst (run_from env wf fuel nd state w) = Ok state' ->
          (1 <= j)%nat /\ node_at (i + j - 1) = Evaluate).
Proof.
  induction fuel as [|fuel IH]; intros i nd state w Hnd.
  - exists 0%nat. assert (nd <> END) by (subst; destruct i as [|i]; simpl;
      [discriminate|destruct (Nat.even i); discriminate]).
    destruct nd; try contradiction; simpl;
      (split; [lia|]); (split; [now rewrite app_nil_r|]);
      intros st' Hx; discriminate.
  - assert (Hne : nd <> END) by (subst; destruct i as [|i]; simpl;
      [discriminate|destruct (Nat.even i); discriminate]).
    rewrite OutcomeFacts.run_from_step by exact Hne.
    pose proof (exec_node_nodes env wf nd state w Hne) as T.
    destruct (exec_node env wf nd state w) as [[st1|e] w1]; simpl in T.
    + destruct (node_at_next i) as [N1 [N2 N3]].
      assert (Step : forall nd',
                nd' = node_at (S i) ->
                exists j,
                  (j <= S fuel)%nat
                  /\ nodes_run (trace (snd (run_from env wf fuel nd' st1 w1)))
                     = nodes_run (trace w) ++ map node_at (seq i j)
                  /\ (forall state',
                        fst (run_from env wf fuel nd' st1 w1) = Ok state' ->
                        (1 <= j)%nat /\ node_at (i + j - 1) = Evaluate)).
      { intros nd' Hnd'.
        destruct (IH (S i) nd' st1 w1 Hnd') as [j [Hj [Tj Oj]]].
        exists (S j). split; [lia|]. split.
        - rewrite Tj, T, <- app_assoc. cbn [seq map app].
          now rewrite <- Hnd.
        - intros st' Hx. destruct (Oj st' Hx) as [H1 H2].
          split; [lia|].
          replace (i + S j - 1)%nat with (S i + j - 1)%nat by lia.
          exact H2. }
      destruct nd; [| | |contradiction].
      * cbn [next_node]. apply Step. symmetry. now apply N1.
      * cbn [next_node]. apply Step. symmetry. now apply N2.
      * destruct (next_node_total Evaluate st1) as [nd' Hn]. rewrite Hn.
        destruct (WorkflowFacts.next_node_after_evaluate st1 nd' Hn)
          as [->| ->].
        -- apply Step. symmetry. now apply N3.
        -- exists 1%nat. split; [lia|]. destruct fuel; simpl;
             (split; [rewrite T, <- Hnd; reflexivity|]);
             intros st' _; (split; [lia|]);
             replace (i + 1 - 1)%nat with i by lia; now symmetry.
    + exists 1%nat. split; [lia|]. simpl. split.
      * rewrite T, <- Hnd. reflexivity.
      * intros st' Hx. discriminate.
Qed.

(** X23. The nodes of a run follow one schedule: Research once, then
    Generate and Evaluate in turn, never more node executions than the
    budget; a run that does not end "failed" ran an odd number of
    nodes, at least three, the last of them Evaluate. *)
Theorem run_follows_the_schedule :
  forall env wf d f n c,
    exists j,
      (j <= recursion_limit wf)%nat
      /\ nodes_run (trace (snd (run_workflow env wf d f n c world0)))
         = schedule j
      /\ (status (fst (run_workflow env wf d f n c world0)) <> "failed" ->
          (3 <= j)%nat /\ Nat.odd j = true
          /\ last (schedule j) Research = Evaluate).
Proof.
  intros env wf d f n c.
  destruct (run_from_schedule env wf (recursion_limit wf) 0 Research
              (new_state d f n c "pending" None) world0 eq_refl)
    as [j [Hj [T O]]].
  exists j. split; [exact Hj|].
  unfold run_workflow, ainvoke.
  destruct (run_from env wf (recursion_limit wf) Research
              (new_state d f n c "pending" None) world0) as [[st|e] w'];
    simpl in *.
  - split; [exact T|]. intros _.
    destruct (O st eq_refl) as [H1 H2].
    destruct j as [|[|j]]; [lia|discriminate|].
    replace (S (S j) - 1)%nat with (S j) in H2 by lia.
    cbn [node_at] in H2.
    destruct (Nat.even j) eqn:Ej; [discriminate|].
    split; [|split].
    + destruct j; [discriminate|lia].
    + change (Nat.odd j = true). unfold Nat.odd. now rewrite Ej.
    + unfold schedule. rewrite seq_S, map_app. cbn [map].
      rewrite last_last. cbn [node_at Nat.add]. now rewrite Ej.
  - split; [exact T|]. intros H. contradiction.
Qed.

End ScheduleFacts.

Module VerdictInstances.
Import Scenario Cases.

(** X22, at a concrete input: the evaluation model fails the data and
    lists one record that was never generated; the stage completes with
    that record. *)
Lemma model_verdict_is_final_witness :
  generated_data
    (match EvaluatorAgent.evaluate_and_save stern drafts world0 with
     | (Ok state', _) => state'
     | (Raise _, _) => drafts
     end) = [qna_record 0].
Proof.
  rewrite (proj2 (VerdictFacts.model_verdict_is_final stern drafts world0
                    {| valid_records := [qna_record 0];
                       duplicate_count := 7;
                       quality_issues := ["poor quality"];
                       passed_validation := false |} eq_refl eq_refl)
             "responses/healthcare_qna.csv" ltac:(discriminate) eq_refl).
  reflexivity.
Defined.

End VerdictInstances.

(** ** The tables of the domains *)

Module DomainFacts.
Import DomainConfig.

Lemma dict_get_none {A : Type} (table : list (string * A)) (key : string) :
  ~ In key (map fst table) -> dict_get table key = None.
Proof.
  induction table as [|[k v] table IH]; [reflexivity|]. simpl. intros H.
  destruct (String.eqb_spec k key) as [->|Hk]; [tauto|]. apply IH. tauto.
Qed.

Lemma not_a_domain domain :
  (forall d, DomainEnum_value d <> domain) ->
  ~ In domain
      ["healthcare"; "finance"; "business"; "law"; "technology"; "education"].
Proof.
  intros H [E|[E|[E|[E|[E|[E|[]]]]]]];
    [apply (H HEALTHCARE)|apply (H FINANCE)|apply (H BUSINESS)
    |apply (H LAW)|apply (H TECHNOLOGY)|apply (H EDUCATION)]; exact E.
Qed.

(** X24. The tables of [DomainConfig] are keyed by the domains of the
    API: every [DomainEnum] value has five research sources and a base
    context that is not empty; any other domain has no source and an
    empty base context, so that its context with a user focus starts
    with a space; an empty user context counts as none. *)
Theorem domain_tables_cover_the_enum :
  forall domain,
    ((exists d, DomainEnum_value d = domain) ->
     List.length (get_research_sources domain) = 5%nat
     /\ nonempty (get_domain_context domain None) = true)
    /\ ((forall d, DomainEnum_value d <> domain) ->
        get_research_sources domain = []
        /\ get_domain_context domain None = EmptyString
        /\ forall c,
             nonempty c = true ->
             get_domain_context domain (Some c)
             = String.append " Specific focus: " c)
    /\ get_domain_context domain (Some EmptyString)
       = get_domain_context domain None.
Proof.
  intros domain. split; [|split; [|reflexivity]].
  - intros [d <-]. destruct d; split; reflexivity.
  - intros H. apply not_a_domain in H.
    unfold get_research_sources, get_domain_context.
    rewrite !dict_get_none by exact H.
    split; [reflexivity|]. split; [reflexivity|].
    intros c Hc. now rewrite Hc.
Qed.

End DomainFacts.

(** ** The batch count within the exact range of binary64 *)

Module BatchCountFacts.
Import GeneratorAgent SyntheticDataWorkflow Scenario.

(** X25. The batch count within binary64's exact range. For a batch
    size between 1 and [2 ^ 1074] and a record count between 1 and
    [2 ^ 53]: [calculate_batches] returns the ceiling of their quotient, which
    is at least 1; the stage sets [total_batches] to it on the entry
    that finds it 0 and leaves it alone on every other entry, so that
    through a run it is 0 before the first entry and the ceiling ever
    after; each stage call requests [min(batch_size, remaining)]
    records, never more than the batch size; 40 records in batches of
    15 give 3 batches of sizes 15, 15 and 10. *)
Theorem total_batches_ceiling :
  forall env wf,
    1 <= batch_size (generator_agent wf) <= 2 ^ 1074 ->
    (forall state w,
       1 <= num_records state <= 2 ^ 53 ->
       calculate_batches (generator_agent wf) (num_records state) None
       = Ok (ceil_div (num_records state) (batch_size (generator_agent wf)))
       /\ 1 <= ceil_div (num_records state) (batch_size (generator_agent wf))
       /\ exists state' w',
            call env (generator_agent wf) state w = (Ok state', w')
            /\ total_batches state'
               = (if total_batches state =? 0
                  then ceil_div (num_records state)
                         (batch_size (generator_agent wf))
                  else total_batches state)
            /\ requested_sizes (trace w')
               = requested_sizes (trace w)
                 ++ (if num_records state - len (generated_data state) <=? 0
                     then []
                     else [Z.min (batch_size (generator_agent wf))
                             (num_records state
                              - len (generated_data state))]))
    /\ (forall remaining,
          Z.min (batch_size (generator_agent wf)) remaining
          <= batch_size (generator_agent wf))
    /\ (forall d f n c nd state,
          1 <= n <= 2 ^ 53 ->
          reachable env wf d f n c nd state ->
          match nd with
          | Research => total_batches state = 0
          | Generate =>
              total_batches state = 0
              \/ total_batches state
                 = ceil_div n (batch_size (generator_agent wf))
          | Evaluate | END =>
              total_batches state
              = ceil_div n (batch_size (generator_agent wf))
          end)
    /\ calculate_batches (generator_agent workflow) 40 None = Ok 3
    /\ total_batches
         (fst (run_workflow healthy workflow "healthcare" "qna" 40 None
                 world0)) = 3
    /\ requested_sizes
         (trace (snd (run_workflow healthy workflow "healthcare" "qna" 40
                        None world0))) = [15; 15; 10].
Proof.
  intros env wf Hb. split; [|split; [|split]].
  - intros state w Hn.
    destruct (BatchFacts.calculate_batches_in_range (generator_agent wf)
                (num_records state) Hn Hb) as [Hc H1].
    split; [exact Hc|]. split; [exact H1|].
    destruct (BatchFacts.call_in_range env (generator_agent wf) state w
                Hn Hb) as [state' [w' [E [_ [Ht Hr]]]]].
    exists state', w'. auto.
  - intros remaining. apply Z.le_min_l.
  - intros d f n c nd state Hn Hreach.
    apply (BatchFacts.reachable_total_batches env wf d f n c nd state
             Hn Hb Hreach).
  - repeat split; vm_compute; reflexivity.
Qed.

End BatchCountFacts.

Module BatchCountInstances.
Import SyntheticDataWorkflow Scenario.

(** X25, at a concrete input: 40 records in batches of 15. *)
Lemma total_batches_ceiling_witness :
  GeneratorAgent.calculate_batches (generator_agent workflow) 40 None
  = Ok (ceil_div 40 (batch_size (generator_agent workflow)))
  /\ 1 <= ceil_div 40 (batch_size (generator_agent workflow)).
Proof.
  assert (Hb : 1 <= batch_size (generator_agent workflow) <= 2 ^ 1074).
  { split; [discriminate|]. vm_compute. discriminate. }
  assert (Hn : 1 <= num_records (request 40) <= 2 ^ 53).
  { split; vm_compute; discriminate. }
  destruct (proj1 (BatchCountFacts.total_batches_ceiling
                     healthy workflow Hb)
              (request 40) world0 Hn) as [H1 [H2 _]].
  split; [exact H1|exact H2].
Defined.

End BatchCountInstances.
